(** * F1-prediction: feature calculators and race ranking

    A shallow embedding of the feature-extraction functions
    ([src/features/driver.py], [src/features/constructor.py],
    [src/features/practice.py], [src/features/track.py],
    [src/features/weather.py], [src/features/processor.py]), of the
    label and group computations of the training
    ([src/models/race.py], [src/models/trainer.py],
    [src/models/sprint.py]) and of the prediction assembly
    ([src/pipeline/predict.py]), followed by the properties the
    specification states about them and by further properties of the
    code.

    Conventions of the embedding:
    - a Python [float] is an exact rational or [NaN]; results of float
      arithmetic are kept in lowest terms, so that equal values are equal
      terms;
    - numpy's [np.mean] and [np.polyfit] are an interface, with an
      instance in exact arithmetic and one whose mean is rounded as
      [float64] rounds it;
    - a pandas [DataFrame] is the list of its rows, a row is a record;
    - a call that can raise returns a [result]. *)

From Stdlib Require Import ZArith QArith List String Ascii Bool.
From Stdlib Require Import Lia Lqa Qabs Permutation Sorted SpecFloat.
Import ListNotations.

Set Implicit Arguments.

(* ================================================================== *)
(** * Part I: the program                                              *)
(* ================================================================== *)

(** ** Python values *)

(** A Python [float]: a number or [nan]. *)
Inductive pyfloat : Type :=
| Num (q : Q)
| NaN.

(** The float holding the exact value [q], in lowest terms. *)
Definition fl (q : Q) : pyfloat := Num (Qred q).

Definition is_nan (x : pyfloat) : bool :=
  match x with NaN => true | Num _ => false end.

(** The exceptions (instances of [Exception]) that the modelled code can
    meet. *)
Inductive exn : Type :=
| NameError (name : string)
| AttributeError (attribute : string)
| DataNotLoadedError
| LinAlgError.

Inductive result (A : Type) : Type :=
| Ok (a : A)
| Raise (e : exn).
Arguments Ok {A} a.
Arguments Raise {A} e.

Definition bind {A B} (c : result A) (k : A -> result B) : result B :=
  match c with
  | Ok a => k a
  | Raise e => Raise e
  end.

Notation "x <- c ;; k" := (bind c (fun x => k))
  (at level 61, c at next level, right associativity).

(** [try: body except Exception: handler] *)
Definition try_except {A} (body : result A) (handler : exn -> A) : A :=
  match body with
  | Ok a => a
  | Raise e => handler e
  end.

(** ** Strings: [sub in s] and [s.lower()] *)

Module pystr.

Open Scope string_scope.

(** [sub in s] for two [str]: [sub] occurs in [s] as a substring. *)
Fixpoint contains (sub s : string) : bool :=
  String.prefix sub s ||
  match s with
  | EmptyString => false
  | String _ s' => contains sub s'
  end.

Definition lower_ascii (c : ascii) : ascii :=
  let n := nat_of_ascii c in
  if (65 <=? n)%nat && (n <=? 90)%nat then ascii_of_nat (n + 32) else c.

(** [s.isascii()]: every character of [s] is an ASCII character.  A
    [string] holds the UTF-8 bytes of a [str]; the bytes of a character
    beyond ASCII are all above 127. *)
Definition isascii (s : string) : bool :=
  forallb (fun c => (nat_of_ascii c <? 128)%nat) (list_ascii_of_string s).

(** [s.lower()] for an [s] whose cased letters are ASCII letters: the
    bytes of the other characters are left as they are.  Python also
    lowers the capital letters beyond ASCII, so this is [str.lower] on
    the strings that have none, those accepted by [isascii] among
    them. *)
Fixpoint lower (s : string) : string :=
  match s with
  | EmptyString => EmptyString
  | String c s' => String (lower_ascii c) (lower s')
  end.

End pystr.

(** ** pandas and numpy operations used by the calculators *)

Module pd.

Definition empty {A} (df : list A) : bool :=
  match df with [] => true | _ :: _ => false end.

(** [df.tail(n)]: [iloc[0:0]] for [n == 0], otherwise [iloc[-n:]] (the
    last [n] rows for a positive [n], all but the first [-n] rows for a
    negative one). *)
Definition tail {A} (n : Z) (df : list A) : list A :=
  if (n =? 0)%Z then []
  else if (0 <? n)%Z then skipn (List.length df - Z.to_nat n) df
  else skipn (Z.to_nat (- n)) df.

Section SortValues.
Variable A : Type.
Variable key : A -> Z.

Fixpoint insert_asc (x : A) (l : list A) : list A :=
  match l with
  | [] => [x]
  | y :: l' =>
      if (key x <=? key y)%Z then x :: y :: l' else y :: insert_asc x l'
  end.

(** [df.sort_values(key)], ascending.  Rows with equal keys are kept
    here in their order of appearance; pandas promises no order among
    them, and no property below depends on it. *)
Definition sort_values (df : list A) : list A :=
  fold_right insert_asc [] df.
End SortValues.

(** The numbers of a column, missing values dropped ([skipna]). *)
Fixpoint dropna (col : list pyfloat) : list Q :=
  match col with
  | [] => []
  | Num q :: col' => q :: dropna col'
  | NaN :: col' => dropna col'
  end.

Definition Qsum (l : list Q) : Q := fold_left Qplus l 0.

(** [Series.mean()]: missing values are skipped; [nan] when nothing is
    left.  The quotient is written exactly: pandas returns a float near
    it, and the same float when the column holds a single number. *)
Definition mean (col : list pyfloat) : pyfloat :=
  match dropna col with
  | [] => NaN
  | vs => fl (Qsum vs / inject_Z (Z.of_nat (List.length vs)))
  end.

(** [Series.max()]: missing values are skipped; [nan] when nothing is
    left. *)
Definition max (col : list pyfloat) : pyfloat :=
  match dropna col with
  | [] => NaN
  | v :: vs => Num (fold_left (fun m x => if Qle_bool m x then x else m) vs v)
  end.

End pd.

(** ** The FastF1 session object read by the calculators *)

Module fastf1.

(** One row of [session.laps].  [LapTime] is a [Timedelta], here in
    seconds, or [NaT]; [ST] is the speed-trap reading. *)
Record Lap : Type := mkLap {
  Driver : string;
  LapTime : option Q;
  Stint : Z;
  TrackStatus : string;
  ST : pyfloat
}.

Definition Laps : Type := list Lap.

(** One sample of [session.weather_data]. *)
Record WeatherSample : Type := mkWeatherSample {
  Rainfall : bool;
  TrackTemp : pyfloat
}.

(** [session.event]; [EventFormat] is [None] when the attribute is
    missing. *)
Record Event : Type := mkEvent {
  EventName : string;
  RoundNumber : Z;
  EventFormat : option string
}.

(** One row of [session.results]. *)
Record Classified : Type := mkClassified {
  Abbreviation : string;
  Position : pyfloat
}.

(** A session returned by [get_session_data].  Reading [session.laps]
    raises when the lap data is not available ([train.py] probes it with
    [try: _ = session.laps / except Exception] before extracting
    features); [st_column] tells whether the lap table has the column
    ['ST']; [weather_data] and [event] are [None] when the attribute is
    missing or holds [None]; a session always has the attribute
    [results], which is [None] when it holds [None]. *)
Record Session : Type := mkSession {
  laps : result Laps;
  st_column : bool;
  weather_data : option (list WeatherSample);
  event : option Event;
  results : option (list Classified)
}.

(** The methods of the lap table that the calculators call. *)
Class LapsApi : Type := {
  pick_drivers : Laps -> string -> Laps;
  pick_fastest : Laps -> option Lap;
  pick_quicklaps : Laps -> Laps;
  pick_track_status : Laps -> string -> Laps;
  (** [lap.get_telemetry()['Speed']] *)
  get_telemetry_speed : Lap -> result (list pyfloat)
}.

End fastf1.

(** A reference implementation of the lap-table methods, after the
    FastF1 documentation: [pick_drivers] and [pick_track_status] select
    rows, [pick_fastest] is the lap of least [LapTime] ([None] when no lap
    has a time), [pick_quicklaps] keeps the laps faster than 107% of the
    fastest one.  The calculators take the methods as a [LapsApi]; this
    instance serves to run them on concrete sessions. *)
Module fastf1_reference.

Import fastf1.

Definition pick_drivers (laps : Laps) (driver : string) : Laps :=
  filter (fun l => String.eqb (Driver l) driver) laps.

Definition pick_track_status (laps : Laps) (status : string) : Laps :=
  filter (fun l => String.eqb (TrackStatus l) status) laps.

Fixpoint pick_fastest (laps : Laps) : option Lap :=
  match laps with
  | [] => None
  | l :: rest =>
      match LapTime l, pick_fastest rest with
      | None, best => best
      | Some _, None => Some l
      | Some t, Some best =>
          match LapTime best with
          | Some tb => if Qle_bool t tb then Some l else Some best
          | None => Some l
          end
      end
  end.

Definition pick_quicklaps (laps : Laps) : Laps :=
  match pick_fastest laps with
  | Some best =>
      match LapTime best with
      | Some tb =>
          filter (fun l =>
                    match LapTime l with
                    | Some t => negb (Qle_bool (tb * (107 # 100)) t)
                    | None => false
                    end) laps
      | None => []
      end
  | None => []
  end.

(** Telemetry was not loaded. *)
Definition get_telemetry_speed (lap : Lap) : result (list pyfloat) :=
  Raise DataNotLoadedError.

Definition api : LapsApi :=
  {| fastf1.pick_drivers := pick_drivers;
     fastf1.pick_fastest := pick_fastest;
     fastf1.pick_quicklaps := pick_quicklaps;
     fastf1.pick_track_status := pick_track_status;
     fastf1.get_telemetry_speed := get_telemetry_speed |}.

End fastf1_reference.

(** ** [src/features/driver.py] *)

(** One row of the results history kept by [train.py]
    (columns [Driver], [RoundNumber], [Position], [Status], [TeamName]). *)
Record ResultRow : Type := mkResultRow {
  Driver : string;
  RoundNumber : Z;
  Position : pyfloat;
  Status : string;
  TeamName : string
}.

Module driver.

Open Scope Z_scope.

Definition default_window : Z := 5.

Definition calculate_driver_season_avg_position
    (driver_results : list ResultRow) (current_round : Z) (window : Z)
    : pyfloat :=
  let past_results :=
    pd.sort_values RoundNumber
      (filter (fun r => RoundNumber r <? current_round) driver_results) in
  if pd.empty past_results then NaN
  else
    let recent_results := pd.tail window past_results in
    pd.mean (map Position recent_results).

(** The test of the loop body:
    [status not in ['Finished'] and '+' not in status]. *)
Definition counts_as_dnf (status : string) : bool :=
  negb (existsb (String.eqb status) ["Finished"%string])
  && negb (pystr.contains "+" status).

(** [for _, row in past_results.iterrows(): ... dnfs += 1] *)
Definition count_dnfs (past_results : list ResultRow) : Z :=
  fold_left
    (fun dnfs row => if counts_as_dnf (Status row) then dnfs + 1 else dnfs)
    past_results 0.

Definition calculate_driver_dnf_rate
    (driver_results : list ResultRow) (current_round : Z) : pyfloat :=
  let past_results :=
    filter (fun r => RoundNumber r <? current_round) driver_results in
  if pd.empty past_results then Num 0
  else
    let total_races := Z.of_nat (List.length past_results) in
    let dnfs := count_dnfs past_results in
    fl (inject_Z dnfs / inject_Z total_races).

Section WithApi.
Context {api : fastf1.LapsApi}.

(** [not teammate] for [None] or a string. *)
Definition falsy (teammate : option string) : bool :=
  match teammate with
  | None => true
  | Some s => String.eqb s ""
  end.

Definition calculate_qualifying_delta_to_teammate
    (session : fastf1.Session) (driver : string) (teammate : option string)
    : result pyfloat :=
  if falsy teammate then Ok (Num 0)
  else
    session_laps <- fastf1.laps session ;;
    let d_laps := fastf1.pick_drivers session_laps driver in
    let t_laps :=
      fastf1.pick_drivers session_laps
        (match teammate with Some t => t | None => ""%string end) in
    if pd.empty d_laps || pd.empty t_laps then Ok (Num 0)
    else
      match fastf1.pick_fastest d_laps, fastf1.pick_fastest t_laps with
      | Some d_fastest, Some t_fastest =>
          match fastf1.LapTime d_fastest, fastf1.LapTime t_fastest with
          | Some d_time, Some t_time => Ok (fl (d_time - t_time))%Q
          | _, _ => Ok (Num 0)
          end
      | _, _ => Ok (Num 0)
      end.
End WithApi.

End driver.

(** ** [src/features/constructor.py] *)

(** One row of the standings history
    (columns [RoundNumber], [TeamName], [Position]). *)
Record StandingRow : Type := mkStandingRow {
  standing_RoundNumber : Z;
  standing_TeamName : string;
  standing_Position : pyfloat
}.

Module constructor.

Open Scope Z_scope.

(** The module imports only [pandas]: evaluating [np.nan] looks up the
    unbound global [np]. *)
Definition np_nan : result pyfloat := Raise (NameError "np").

Definition calculate_constructor_standing
    (standings_data : option (list StandingRow)) (team_name : string)
    (current_round : Z) : result pyfloat :=
  match standings_data with
  | None => np_nan
  | Some df =>
      if pd.empty df then np_nan
      else
        let prev_round := current_round - 1 in
        if prev_round <? 1 then Ok (Num 0)
        else
          let team_standing :=
            filter (fun r => (standing_RoundNumber r =? prev_round)
                             && String.eqb (standing_TeamName r) team_name)
                   df in
          match team_standing with
          | [] => np_nan
          | first :: _ => Ok (standing_Position first)
          end
  end.

Definition default_window : Z := 10.

(** The test of the loop body, on [str(row['Status']).lower()]. *)
Definition is_mechanical (status : string) : bool :=
  let status := pystr.lower status in
  pystr.contains "engine" status || pystr.contains "gearbox" status
  || pystr.contains "hydraulics" status
  || pystr.contains "mechanical" status.

(** [for _, row in recent.iterrows(): ... failures += 1] *)
Definition count_failures (recent : list ResultRow) : Z :=
  fold_left
    (fun failures row =>
       if is_mechanical (Status row) then failures + 1 else failures)
    recent 0.

Definition calculate_reliability_score
    (constructor_results : list ResultRow) (current_round : Z) (window : Z)
    : pyfloat :=
  let past_results :=
    pd.sort_values RoundNumber
      (filter (fun r => RoundNumber r <? current_round)
              constructor_results) in
  if pd.empty past_results then Num 1
  else
    let recent := pd.tail (window * 2) past_results in
    let failures := count_failures recent in
    let total_entries := Z.of_nat (List.length recent) in
    if total_entries =? 0 then Num 1
    else fl (1 - inject_Z failures / inject_Z total_entries).

End constructor.

(** ** numpy operations of [src/features/practice.py] *)

Module np.

(** numpy's two routines called by [practice.py], taken as an
    interface: [mean a] is [np.mean(a)], and [polyfit1 x y] is
    [np.polyfit(x, y, 1)], the pair [(slope, intercept)], which can
    raise. *)
Class Api : Type := {
  mean : list pyfloat -> pyfloat;
  polyfit1 : list Q -> list pyfloat -> result (pyfloat * pyfloat)
}.

(** [np.arange(n)] *)
Definition arange (n : nat) : list Q :=
  map (fun i => inject_Z (Z.of_nat i)) (seq 0 n).

End np.

(** The two routines in exact arithmetic: the mean and the line of least
    squares that numpy's float results approximate. *)
Module np_exact.

(** The numbers of an array, or [None] when it holds a [nan]. *)
Fixpoint numbers (a : list pyfloat) : option (list Q) :=
  match a with
  | [] => Some []
  | Num q :: a' =>
      match numbers a' with
      | Some qs => Some (q :: qs)
      | None => None
      end
  | NaN :: _ => None
  end.

(** The mean: a [nan] in the array makes the mean [nan], and so does
    the empty array. *)
Definition mean (a : list pyfloat) : pyfloat :=
  match numbers a with
  | Some ((_ :: _) as qs) =>
      fl (pd.Qsum qs / inject_Z (Z.of_nat (List.length qs)))
  | _ => NaN
  end.

Definition dot (xs ys : list Q) : Q :=
  pd.Qsum (map (fun xy => fst xy * snd xy) (combine xs ys)).

(** The line [y = slope * x + intercept] of least squares through the
    points [(xs, ys)], by the normal equations. *)
Definition least_squares_line (xs ys : list Q) : Q * Q :=
  let n := inject_Z (Z.of_nat (List.length xs)) in
  let sx := pd.Qsum xs in
  let sy := pd.Qsum ys in
  let sxy := dot xs ys in
  let sxx := dot xs xs in
  let slope := (n * sxy - sx * sy) / (n * sxx - sx * sx) in
  let intercept := (sy - slope * sx) / n in
  (slope, intercept).

(** The fit of degree 1, returning [(slope, intercept)]; the
    least-squares solver raises [LinAlgError] on a [nan] in [y].  It is
    called on [x = np.arange(n)] with [n > 1] only, where the normal
    equations have one solution. *)
Definition polyfit1 (x : list Q) (y : list pyfloat)
    : result (pyfloat * pyfloat) :=
  match numbers y with
  | Some ys =>
      let (slope, intercept) := least_squares_line x ys in
      Ok (fl slope, fl intercept)
  | None => Raise LinAlgError
  end.

Definition api : np.Api :=
  {| np.mean := mean; np.polyfit1 := polyfit1 |}.

End np_exact.

(** [np.mean] on arrays of [float64], as numpy computes it: the sum of
    [np.add.reduce], then one division by the number of elements, every
    operation rounded to the nearest float (ties to even). *)
Module np_float64.

Definition prec : Z := 53.
Definition emax : Z := 1024.

Definition add : spec_float -> spec_float -> spec_float := SFadd prec emax.
Definition div : spec_float -> spec_float -> spec_float := SFdiv prec emax.

(** The float nearest to a rational number. *)
Definition of_Q (q : Q) : spec_float :=
  match Qnum q with
  | Z0 => S754_zero false
  | Zpos n => div (S754_finite false n 0) (S754_finite false (Qden q) 0)
  | Zneg n => div (S754_finite true n 0) (S754_finite false (Qden q) 0)
  end.

Definition of_pyfloat (x : pyfloat) : spec_float :=
  match x with
  | Num q => of_Q q
  | NaN => S754_nan
  end.

(** The value of a float.  The floats of this embedding are the
    numbers and [nan]: an infinity (the means of lap times are far from
    overflow) is given as [nan]. *)
Definition to_pyfloat (f : spec_float) : pyfloat :=
  match f with
  | S754_zero _ => Num 0
  | S754_finite s m e =>
      fl ((if s then - inject_Z (Zpos m) else inject_Z (Zpos m)) * 2 ^ e)
  | S754_infinity _ => NaN
  | S754_nan => NaN
  end.

(** Fewer than eight numbers are added from left to right. *)
Definition sum_left (res : spec_float) (a : list spec_float) : spec_float :=
  fold_left add a res.

(** Eight running sums take the numbers in blocks of eight; the numbers
    left over when fewer than eight remain are returned. *)
Fixpoint add_blocks (fuel : nat) (r a : list spec_float)
    : list spec_float * list spec_float :=
  match fuel with
  | O => (r, a)
  | S fuel' =>
      if (8 <=? List.length a)%nat
      then add_blocks fuel'
             (map (fun p => add (fst p) (snd p)) (combine r (firstn 8 a)))
             (skipn 8 a)
      else (r, a)
  end.

(** The sum of 8 to 128 numbers: the eight running sums are added in
    pairs, then the numbers left over from left to right. *)
Definition block_sum (a : list spec_float) : spec_float :=
  let '(r, rest) := add_blocks (List.length a) (firstn 8 a) (skipn 8 a) in
  match r with
  | [r0; r1; r2; r3; r4; r5; r6; r7] =>
      sum_left (add (add (add r0 r1) (add r2 r3))
                    (add (add r4 r5) (add r6 r7))) rest
  | _ => S754_nan
  end.

(** numpy's pairwise summation: more than 128 numbers are split in two
    halves, the first of a length that is a multiple of eight. *)
Fixpoint pairwise_sum (fuel : nat) (a : list spec_float) : spec_float :=
  let n := List.length a in
  if (n <? 8)%nat then sum_left (S754_zero true) a
  else if (n <=? 128)%nat then block_sum a
  else
    match fuel with
    | O => block_sum a
    | S fuel' =>
        let n2 := (n / 2 - (n / 2) mod 8)%nat in
        add (pairwise_sum fuel' (firstn n2 a))
            (pairwise_sum fuel' (skipn n2 a))
    end.

Definition mean (a : list pyfloat) : pyfloat :=
  let xs := map of_pyfloat a in
  let total := pairwise_sum (List.length xs) xs in
  let count :=
    binary_normalize prec emax (Z.of_nat (List.length xs)) 0 false in
  to_pyfloat (div total count).

(** numpy with the mean in [float64] and a given fit.  [np.polyfit]
    solves its least-squares problem in LAPACK, whose roundings are not
    written out here: what is stated of this instance is stated for
    every fit, or for a fit named with it. *)
Definition api (polyfit1 : list Q -> list pyfloat ->
                           result (pyfloat * pyfloat)) : np.Api :=
  {| np.mean := mean; np.polyfit1 := polyfit1 |}.

End np_float64.

(** ** [src/features/practice.py] *)

Module practice.

Import fastf1.

Definition default_min_laps : Z := 5.

(** The tuple [(race_pace, tire_deg, top_speed, rain_prob)]; each
    component is a float or [None]. *)
Definition pace_tuple : Type :=
  (option pyfloat * option pyfloat * option pyfloat * option pyfloat)%type.

(** [laps['Stint'].unique()]: the values in order of first appearance. *)
Fixpoint unique (l : list Z) : list Z :=
  match l with
  | [] => []
  | x :: l' => x :: filter (fun y => negb (y =? x)%Z) (unique l')
  end.

(** [stint_laps['LapTime'].dt.total_seconds().values] *)
Definition total_seconds (t : option Q) : pyfloat :=
  match t with
  | Some s => Num s
  | None => NaN
  end.

(** [pd.isna(top_speed)] for [None] or a float. *)
Definition isna (v : option pyfloat) : bool :=
  match v with
  | None => true
  | Some x => is_nan x
  end.

Section WithApi.
Context {api : LapsApi} {numpy : np.Api}.

(** Step 1: the fraction of weather samples with rainfall. *)
Definition rain_probability (session : Session) : pyfloat :=
  match weather_data session with
  | Some weather =>
      let rain_samples :=
        Z.of_nat (List.length (filter Rainfall weather)) in
      let total_samples := Z.of_nat (List.length weather) in
      if (0 <? total_samples)%Z
      then fl (inject_Z rain_samples / inject_Z total_samples)
      else Num 0
  | None => Num 0
  end.

(** Step 2: the speed trap, else the telemetry of the fastest lap
    (inside its own [try: ... except: pass]). *)
Definition driver_top_speed (session : Session) (laps : Laps)
    : option pyfloat :=
  let top_speed :=
    if st_column session then Some (pd.max (map ST laps)) else None in
  if isna top_speed then
    match pick_fastest laps with
    | Some fastest =>
        try_except
          (speed <- get_telemetry_speed fastest ;; Ok (Some (pd.max speed)))
          (fun _ => top_speed)
    | None => top_speed
    end
  else top_speed.

(** The body of [for stint_id in laps['Stint'].unique()], on the two
    accumulators [long_run_avgs] and [long_run_slopes]. *)
Definition stint_step (min_laps : Z) (laps : Laps)
    (acc : list pyfloat * list pyfloat) (stint_id : Z)
    : result (list pyfloat * list pyfloat) :=
  let (long_run_avgs, long_run_slopes) := acc in
  let stint_laps := filter (fun l => (Stint l =? stint_id)%Z) laps in
  if (min_laps <=? Z.of_nat (List.length stint_laps))%Z then
    let times := map (fun l => total_seconds (LapTime l)) stint_laps in
    let avg_time := np.mean times in
    let long_run_avgs := long_run_avgs ++ [avg_time] in
    let x := np.arange (List.length times) in
    if (1 <? List.length x)%nat then
      fit <- np.polyfit1 x times ;;
      Ok (long_run_avgs, long_run_slopes ++ [fst fit])
    else Ok (long_run_avgs, long_run_slopes)
  else Ok (long_run_avgs, long_run_slopes).

Fixpoint stint_loop (min_laps : Z) (laps : Laps)
    (stints : list Z) (acc : list pyfloat * list pyfloat)
    : result (list pyfloat * list pyfloat) :=
  match stints with
  | [] => Ok acc
  | stint_id :: stints' =>
      acc' <- stint_step min_laps laps acc stint_id ;;
      stint_loop min_laps laps stints' acc'
  end.

(** The [try] block. *)
Definition race_pace_body (session : Session) (driver : string)
    (min_laps : Z) : result pace_tuple :=
  let rain_prob := rain_probability session in
  session_laps <- laps session ;;
  let laps := pick_drivers session_laps driver in
  if pd.empty laps then Ok (None, None, None, Some rain_prob)
  else
    let top_speed := driver_top_speed session laps in
    let laps := pick_track_status (pick_quicklaps laps) "1" in
    if pd.empty laps then Ok (None, None, top_speed, Some rain_prob)
    else
      runs <- stint_loop min_laps laps (unique (map Stint laps)) ([], []) ;;
      let (long_run_avgs, long_run_slopes) := runs in
      match long_run_avgs with
      | [] => Ok (None, None, top_speed, Some rain_prob)
      | _ :: _ =>
          let final_pace := np.mean long_run_avgs in
          let final_deg :=
            match long_run_slopes with
            | [] => Num 0
            | _ :: _ => np.mean long_run_slopes
            end in
          Ok (Some final_pace, Some final_deg, top_speed, Some rain_prob)
      end.

Definition calculate_race_pace (session : option Session)
    (driver : string) (min_laps : Z) : pace_tuple :=
  match session with
  | None => (None, None, None, None)
  | Some session =>
      try_except (race_pace_body session driver min_laps)
                 (fun _ => (None, None, None, None))
  end.
End WithApi.

End practice.

(** ** [src/features/track.py] *)

Module track.

Import fastf1.

Definition OVERTAKE_DIFFICULTY : list (string * Z) :=
  [("Monaco", 10); ("Singapore", 8); ("Hungaroring", 7);
   ("Silverstone", 3); ("Spa-Francorchamps", 2); ("Monza", 1)]%Z%string.

Definition get_track_overtake_difficulty (circuit_name : string) : Z :=
  match find (fun kv => pystr.contains (fst kv) circuit_name)
             OVERTAKE_DIFFICULTY with
  | Some kv => snd kv
  | None => 5
  end.

Definition calculate_track_temp_avg (session : Session) : pyfloat :=
  match weather_data session with
  | None => Num 25
  | Some weather =>
      if pd.empty weather then Num 25
      else pd.mean (map TrackTemp weather)
  end.

End track.

(** ** [src/models/sprint.py] *)

Module sprint.

(** [self.classes] *)
Inductive SprintClass : Type := Top3 | Points | NoPoints.

Definition _categorize_position (pos : Q) : SprintClass :=
  if Qle_bool pos 3 then Top3
  else if Qle_bool pos 8 then Points
  else NoPoints.

End sprint.

(** ** [src/pipeline/predict.py] *)

Module predict.

Import fastf1.

(** The frame given to the qualifying and the sprint model. *)
Record QualiFeatures : Type := mkQualiFeatures {
  q_TrackTemp : pyfloat;
  q_OvertakeDifficulty : Z;
  q_DriverAvgPos : pyfloat;
  q_DriverDNFRate : pyfloat;
  q_QualiDeltaTeammate : pyfloat;
  q_ReliabilityScore : pyfloat
}.

(** The frame given to the race model. *)
Record RaceFeatures : Type := mkRaceFeatures {
  r_TrackTemp : pyfloat;
  r_OvertakeDifficulty : Z;
  r_DriverAvgPos : pyfloat;
  r_DriverDNFRate : pyfloat;
  r_ReliabilityScore : pyfloat;
  r_QualiDeltaTeammate : pyfloat;
  r_GridPosition : pyfloat;
  r_RacePace : pyfloat;
  r_TireDegradation : pyfloat;
  r_TopSpeed : pyfloat;
  r_RainProbability : pyfloat
}.

(** One row of [self.history_df] (read from [features_YYYY.csv]). *)
Record HistoryRow : Type := mkHistoryRow {
  h_Driver : string;
  h_SessionType : string;
  h_TargetPosition : pyfloat;
  h_ReliabilityScore : pyfloat
}.

(** The predictor: the [predict] methods of its three estimators (a
    failing estimator raises) and the loaded history. *)
Record Predictor : Type := mkPredictor {
  quali_model : QualiFeatures -> result Q;
  sprint_model : QualiFeatures -> result sprint.SprintClass;
  race_model : RaceFeatures -> result Q;
  history_df : list HistoryRow;
  history_has_ReliabilityScore : bool
}.

(** The value under ['Sprint_Class']: a class of the sprint model or
    the string ["N/A"]. *)
Inductive SprintField : Type :=
| Class (c : sprint.SprintClass)
| NotApplicable.

(** The dictionary returned by [predict_driver]; [predict_race] adds
    the keys ['Driver'] and ['Predicted_Position']. *)
Record Prediction : Type := mkPrediction {
  Qualifying_Position : pyfloat;
  Sprint_Class : SprintField;
  Race_Score : Q;
  Grid_Position : pyfloat;
  Race_Pace : pyfloat;
  Tire_Degradation : pyfloat;
  Top_Speed : pyfloat;
  Rain_Probability : pyfloat;
  Driver : option string;
  Predicted_Position : option Z
}.

Definition set_Driver (p : Prediction) (d : string) : Prediction :=
  mkPrediction (Qualifying_Position p) (Sprint_Class p) (Race_Score p)
    (Grid_Position p) (Race_Pace p) (Tire_Degradation p) (Top_Speed p)
    (Rain_Probability p) (Some d) (Predicted_Position p).

Definition set_Predicted_Position (p : Prediction) (i : Z) : Prediction :=
  mkPrediction (Qualifying_Position p) (Sprint_Class p) (Race_Score p)
    (Grid_Position p) (Race_Pace p) (Tire_Degradation p) (Top_Speed p)
    (Rain_Probability p) (Driver p) (Some i).

(** [fastf1] session loading behind [get_session_data], which returns
    [None] when loading fails. *)
Class SessionProvider : Type := {
  get_session_data :
    forall (year : Z) (grand_prix session_type : string)
           (load_telemetry load_weather : bool), option Session
}.

Definition driver_map : list (string * string) :=
  [("VER", "1"); ("PER", "11"); ("LEC", "16"); ("SAI", "55");
   ("NOR", "4"); ("PIA", "81"); ("HAM", "44"); ("RUS", "63");
   ("ALO", "14"); ("STR", "18"); ("TSU", "22"); ("RIC", "3");
   ("ALB", "23"); ("SAR", "2"); ("ZHO", "24"); ("BOT", "77");
   ("MAG", "20"); ("HUL", "27"); ("GAS", "10"); ("OCO", "31");
   ("COL", "43"); ("BEA", "87"); ("LAW", "30"); ("DOO", "12")]%string.

Definition fallback_drivers : list string :=
  ["VER"; "PER"; "LEC"; "SAI"; "NOR"; "PIA"; "HAM"; "RUS"; "ALO"; "STR";
   "TSU"; "RIC"; "ALB"; "SAR"; "ZHO"; "BOT"; "MAG"; "HUL"; "GAS";
   "OCO"]%string.

Definition default_stats : pyfloat * pyfloat * pyfloat :=
  (Num 5, Num (1 # 10), Num (19 # 20)).

Definition calculate_driver_stats (self : Predictor) (driver_name : string)
    : pyfloat * pyfloat * pyfloat :=
  if pd.empty (history_df self) then default_stats
  else
    let driver_id :=
      match find (fun kv => String.eqb (fst kv) driver_name) driver_map with
      | Some kv => snd kv
      | None => driver_name
      end in
    let d_hist :=
      filter (fun r => String.eqb (h_Driver r) driver_id) (history_df self) in
    if pd.empty d_hist then default_stats
    else
      let r_hist :=
        filter (fun r => String.eqb (h_SessionType r) "Race") d_hist in
      if pd.empty r_hist then default_stats
      else
        let valid_pos :=
          filter (fun x => negb (is_nan x)) (map h_TargetPosition r_hist) in
        if pd.empty valid_pos then default_stats
        else
          let avg_pos := pd.mean (pd.tail 5 valid_pos) in
          let total_races := Z.of_nat (List.length r_hist) in
          let dnf_count :=
            Z.of_nat (List.length
                        (filter is_nan (map h_TargetPosition r_hist))) in
          let dnf_rate :=
            if (0 <? total_races)%Z
            then fl (inject_Z dnf_count / inject_Z total_races)
            else Num 0 in
          let rel_score :=
            if history_has_ReliabilityScore self
            then last (map h_ReliabilityScore d_hist) NaN
            else Num (19 # 20) in
          (avg_pos, dnf_rate, rel_score).

Definition or_nan (v : option pyfloat) : pyfloat :=
  match v with
  | Some x => x
  | None => NaN
  end.

Section WithWorld.
Context {api : LapsApi} {numpy : np.Api} {provider : SessionProvider}.

(** [is_sprint]: the session loaded, it has an [event], and
    [getattr(session.event, 'EventFormat', '') == 'sprint']. *)
Definition is_sprint_weekend (session : option Session) : bool :=
  match session with
  | Some s =>
      match event s with
      | Some ev =>
          String.eqb
            (match EventFormat ev with Some f => f | None => ""%string end)
            "sprint"
      | None => false
      end
  | None => false
  end.

Definition predict_driver (self : Predictor) (driver_name : string)
    (season : Z) (grand_prix : string) (actual_quali_pos : option pyfloat)
    (practice_session : option Session) (weather_override : option pyfloat)
    : result Prediction :=
  let session := get_session_data season grand_prix "Q" true true in
  let track_temp :=
    match session with
    | Some s =>
        try_except (Ok (track.calculate_track_temp_avg s))
                   (fun _ => Num 30)
    | None => Num 30
    end in
  let overtake_diff := track.get_track_overtake_difficulty grand_prix in
  let '(driver_avg_pos, driver_dnf_rate, rel_score) :=
    calculate_driver_stats self driver_name in
  let quali_delta := Num 0 in
  let '(race_pace, tire_deg, top_speed, rain_prob) :=
    match practice_session with
    | Some _ =>
        practice.calculate_race_pace practice_session driver_name
          practice.default_min_laps
    | None => (None, None, None, None)
    end in
  let race_pace := or_nan race_pace in
  let tire_deg := or_nan tire_deg in
  let top_speed := or_nan top_speed in
  let rain_prob :=
    match weather_override with
    | Some w => w
    | None => match rain_prob with Some r => r | None => Num 0 end
    end in
  let quali_features :=
    mkQualiFeatures track_temp overtake_diff driver_avg_pos
      driver_dnf_rate quali_delta rel_score in
  q_pred <- quali_model self quali_features ;;
  let final_quali_pos :=
    match actual_quali_pos with
    | Some a => a
    | None => Num q_pred
    end in
  let grid_pos := final_quali_pos in
  let race_features :=
    mkRaceFeatures track_temp overtake_diff driver_avg_pos
      driver_dnf_rate rel_score quali_delta grid_pos race_pace tire_deg
      top_speed rain_prob in
  let is_sprint := is_sprint_weekend session in
  s_pred <- (if is_sprint
             then (c <- sprint_model self quali_features ;; Ok (Class c))
             else Ok NotApplicable) ;;
  r_pred <- race_model self race_features ;;
  Ok (mkPrediction final_quali_pos s_pred r_pred grid_pos race_pace
        tire_deg top_speed rain_prob None None).

(** [predictions.sort(key=lambda x: x['Race_Score'], reverse=True)]:
    a stable sort, higher scores first. *)
Fixpoint insert_desc (p : Prediction) (l : list Prediction)
    : list Prediction :=
  match l with
  | [] => [p]
  | y :: l' =>
      if Qle_bool (Race_Score y) (Race_Score p) then p :: y :: l'
      else y :: insert_desc p l'
  end.

Definition sort_by_race_score (predictions : list Prediction)
    : list Prediction :=
  fold_right insert_desc [] predictions.

(** [for i, p in enumerate(predictions): p['Predicted_Position'] = i + 1],
    with [i] counting from [start]. *)
Fixpoint assign_ranks (start : Z) (predictions : list Prediction)
    : list Prediction :=
  match predictions with
  | [] => []
  | p :: rest =>
      set_Predicted_Position p (start + 1) :: assign_ranks (start + 1) rest
  end.

(** The tail of [predict_race]: sort, then assign the ranks. *)
Definition rank_predictions (predictions : list Prediction)
    : list Prediction :=
  assign_ranks 0 (sort_by_race_score predictions).

(** [session_q and hasattr(session_q, 'results') and not
    session_q.results.empty]: on a [results] that holds [None], reading
    [.empty] raises. *)
Definition has_results (session_q : option Session) : result bool :=
  match session_q with
  | Some s =>
      match results s with
      | Some r => Ok (negb (pd.empty r))
      | None => Raise (AttributeError "empty")
      end
  | None => Ok false
  end.

Definition session_results (session_q : option Session)
    : list Classified :=
  match session_q with
  | Some s => match results s with Some r => r | None => [] end
  | None => []
  end.

(** The body of [for driver in driver_list]. *)
Definition predict_one (self : Predictor) (year : Z) (event_name : string)
    (session_q practice_session : option Session)
    (weather_override : option pyfloat) (driver : string)
    : result Prediction :=
  has <- has_results session_q ;;
  let actual_pos :=
    if has then
      match filter (fun r => String.eqb (Abbreviation r) driver)
                   (session_results session_q) with
      | first :: _ => Some (Position first)
      | [] => None
      end
    else None in
  pred <- predict_driver self driver year event_name actual_pos
            practice_session weather_override ;;
  Ok (set_Driver pred driver).

Fixpoint predict_all (self : Predictor) (year : Z) (event_name : string)
    (session_q practice_session : option Session)
    (weather_override : option pyfloat) (driver_list : list string)
    (predictions : list Prediction) : result (list Prediction) :=
  match driver_list with
  | [] => Ok predictions
  | driver :: rest =>
      pred <- predict_one self year event_name session_q practice_session
                weather_override driver ;;
      predict_all self year event_name session_q practice_session
        weather_override rest (predictions ++ [pred])
  end.

Definition predict_race (self : Predictor) (year : Z)
    (event_name : string) (driver_list : option (list string))
    (weather_override : option pyfloat) : result (list Prediction) :=
  let session_q := get_session_data year event_name "Q" false false in
  driver_list <-
    match driver_list with
    | Some ((_ :: _) as given) => Ok given
    | _ =>
        has <- has_results session_q ;;
        Ok (if has
            then map Abbreviation (session_results session_q)
            else fallback_drivers)
    end ;;
  let practice_session :=
    match get_session_data year event_name "FP2" true true with
    | Some s => Some s
    | None => get_session_data year event_name "FP1" true true
    end in
  predictions <- predict_all self year event_name session_q
                   practice_session weather_override driver_list [] ;;
  Ok (rank_predictions predictions).
End WithWorld.

End predict.

(** ** Vocabulary of the properties *)

(** Rows in ascending order of their key. *)
Definition ascending {A : Type} (key : A -> Z) : list A -> Prop :=
  StronglySorted (fun a b => (key a <= key b)%Z).

(** A status names a mechanical failure when it contains one of the
    four words, whatever the case of its letters. *)
Definition names_mechanical_failure (status : string) : Prop :=
  exists kw,
    In kw ["engine"; "gearbox"; "hydraulics"; "mechanical"]%string /\
    exists pre mid post,
      status = (pre ++ mid ++ post)%string /\ pystr.lower mid = kw.

(** The [LapTime] of the fastest lap of a lap table, when there is one. *)
Definition fastest_time {api : fastf1.LapsApi} (laps : fastf1.Laps)
    : option Q :=
  match fastf1.pick_fastest laps with
  | Some lap => fastf1.LapTime lap
  | None => None
  end.





(** Predictions with the higher scores first. *)
Definition descending : list predict.Prediction -> Prop :=
  StronglySorted
    (fun a b => predict.Race_Score b <= predict.Race_Score a).

(** The scores 19, 18, ..., 0. *)
Definition scores_19_to_0 : list Q :=
  map (fun i => inject_Z (19 - Z.of_nat i)) (seq 0 20).

(** The format of the event of a session: [None] when the session did not
    load, has no event, or the event has no [EventFormat]. *)
Definition event_format (session : option fastf1.Session) : option string :=
  match session with
  | Some s =>
      match fastf1.event s with
      | Some ev => fastf1.EventFormat ev
      | None => None
      end
  | None => None
  end.

(** ** Sample data *)

(** A season of one driver: a finish, an engine failure, a lapped
    finish, a collision. *)
Definition sample_history : list ResultRow :=
  [mkResultRow "VER" 1 (Num 3) "Finished" "Red Bull";
   mkResultRow "VER" 2 NaN "Engine" "Red Bull";
   mkResultRow "VER" 3 (Num 5) "+1 Lap" "Red Bull";
   mkResultRow "VER" 4 NaN "Collision" "Red Bull"].

(** Two rounds of the two cars of one team. *)
Definition sample_team_history : list ResultRow :=
  [mkResultRow "LEC" 1 (Num 3) "Finished" "Ferrari";
   mkResultRow "SAI" 1 NaN "ENGINE" "Ferrari";
   mkResultRow "LEC" 2 NaN "Gearbox failure" "Ferrari";
   mkResultRow "SAI" 2 (Num 5) "+1 Lap" "Ferrari"].

Definition sample_standings : list StandingRow :=
  [mkStandingRow 1 "Ferrari" (Num 2);
   mkStandingRow 1 "Mercedes" (Num 1);
   mkStandingRow 2 "Mercedes" (Num 3)].

(** A session of [driver] with one green-flag stint of the given lap
    times, no weather samples. *)
Definition sample_lap (driver : string) (t : option Q) : fastf1.Lap :=
  fastf1.mkLap driver t 2 "1" (Num 320).





(** A qualifying session with laps of two teammates. *)
Definition sample_qualifying : fastf1.Session :=
  fastf1.mkSession
    (Ok [sample_lap "16" (Some (905 # 10)); sample_lap "55" (Some 91);
         sample_lap "16" (Some 90); sample_lap "55" None])
    false None None None.

(** A session whose lap data was not loaded; half of its weather samples
    have rainfall. *)
Definition sample_unloaded : fastf1.Session :=
  fastf1.mkSession (Raise DataNotLoadedError) false
    (Some [fastf1.mkWeatherSample true (Num 30);
           fastf1.mkWeatherSample false (Num 31)]) None None.

(** A provider whose sessions all belong to an event of format [fmt],
    and a predictor with constant estimators and no history. *)
Definition sample_provider (fmt : string) : predict.SessionProvider :=
  {| predict.get_session_data :=
       fun _ _ _ _ _ =>
         Some (fastf1.mkSession (Ok []) false None
                 (Some (fastf1.mkEvent "Miami Grand Prix" 6 (Some fmt)))
                 None) |}.

Definition sample_predictor : predict.Predictor :=
  predict.mkPredictor (fun _ => Ok 3) (fun _ => Ok sprint.Points)
    (fun _ => Ok 15) [] false.

(** Twenty predictions holding the scores 19 ... 0 in some order. *)
Definition sample_prediction (score : Z) : predict.Prediction :=
  predict.mkPrediction (Num 1) predict.NotApplicable (inject_Z score)
    (Num 1) NaN NaN NaN (Num 0) None None.

Definition sample_predictions : list predict.Prediction :=
  map sample_prediction
    [3; 19; 0; 7; 12; 18; 1; 5; 17; 2; 16; 4; 15; 6; 14; 8; 13; 9; 11; 10]%Z.

(** ** Further vocabulary and sample data *)

(** A status of a classified finisher: ["Finished"], or one with a
    ["+"] in it (["+1 Lap"]). *)
Definition classified_finish (status : string) : Prop :=
  status = "Finished"%string \/
  exists pre post, status = (pre ++ "+" ++ post)%string.

(** [lo <= x <= hi] for a float that is a number; nothing for [nan]. *)
Definition within (lo hi : Q) (x : pyfloat) : Prop :=
  match x with
  | Num q => lo <= q /\ q <= hi
  | NaN => True
  end.

(** The row of a standings table for a team after a round. *)
Definition standing_row_of (team_name : string) (round : Z)
    (r : StandingRow) : Prop :=
  standing_RoundNumber r = round /\ standing_TeamName r = team_name.

(** A float that is a number in [lo, hi]. *)
Definition number_within (lo hi : Q) (x : pyfloat) : Prop :=
  exists q, x = Num q /\ lo <= q /\ q <= hi.

(** The laps of a driver that count for the race pace: quick laps under
    green flag. *)
Definition valid_laps {api : fastf1.LapsApi} (session_laps : fastf1.Laps)
    (driver : string) : fastf1.Laps :=
  fastf1.pick_track_status
    (fastf1.pick_quicklaps (fastf1.pick_drivers session_laps driver)) "1".

(** A practice session with speed-trap readings, one of them missing,
    and two short stints. *)
Definition sample_short_laps : fastf1.Laps :=
  [fastf1.mkLap "VER" (Some 90) 1 "1" (Num 318);
   fastf1.mkLap "VER" (Some 91) 1 "1" NaN;
   fastf1.mkLap "VER" (Some 92) 2 "1" (Num 325);
   fastf1.mkLap "VER" (Some 93) 2 "1" (Num 321)].

Definition sample_short_stints : fastf1.Session :=
  fastf1.mkSession (Ok sample_short_laps)
    true
    (Some [fastf1.mkWeatherSample true (Num 30);
           fastf1.mkWeatherSample false (Num 31);
           fastf1.mkWeatherSample false (Num 32);
           fastf1.mkWeatherSample false (Num 33)])
    None None.

(** [sub] occurs in [s]. *)
Definition occurs_in (sub s : string) : Prop :=
  exists pre post, s = (pre ++ sub ++ post)%string.

(** The order of the sprint classes, best first. *)
Definition class_rank (c : sprint.SprintClass) : nat :=
  match c with
  | sprint.Top3 => 0
  | sprint.Points => 1
  | sprint.NoPoints => 2
  end.

(** A history with races of driver number 1 (a win, a retirement, a
    fifth place), one qualifying row and a row of another driver. *)
Definition sample_feature_history : list predict.HistoryRow :=
  [predict.mkHistoryRow "1" "Race" (Num 1) (Num (9 # 10));
   predict.mkHistoryRow "1" "Qualifying" (Num 2) (Num (9 # 10));
   predict.mkHistoryRow "1" "Race" NaN (Num (8 # 10));
   predict.mkHistoryRow "44" "Race" (Num 3) (Num 1);
   predict.mkHistoryRow "1" "Race" (Num 5) (Num (85 # 100))].

Definition sample_history_predictor : predict.Predictor :=
  predict.mkPredictor (fun _ => Ok 3) (fun _ => Ok sprint.Points)
    (fun _ => Ok 15) sample_feature_history true.

(** A predictor whose qualifying estimator fails. *)
Definition sample_broken_predictor : predict.Predictor :=
  predict.mkPredictor (fun _ => Raise LinAlgError)
    (fun _ => Ok sprint.Points) (fun _ => Ok 15) [] false.

(** A provider that loads no session at all. *)
Definition sample_no_provider : predict.SessionProvider :=
  {| predict.get_session_data := fun _ _ _ _ _ => None |}.

(** The tuple that [predict_driver] reads from the practice session. *)
Definition practice_tuple {api : fastf1.LapsApi} {numpy : np.Api}
    (practice_session : option fastf1.Session) (driver_name : string)
    : practice.pace_tuple :=
  match practice_session with
  | Some _ =>
      practice.calculate_race_pace practice_session driver_name
        practice.default_min_laps
  | None => (None, None, None, None)
  end.

(** The predictor [self] with another sprint estimator. *)
Definition with_sprint_model (self : predict.Predictor)
    (model : predict.QualiFeatures -> result sprint.SprintClass)
    : predict.Predictor :=
  predict.mkPredictor (predict.quali_model self) model
    (predict.race_model self) (predict.history_df self)
    (predict.history_has_ReliabilityScore self).

(** ** [src/models/race.py] and [src/models/trainer.py]: the labels and
    the groups given to the ranker *)

Module race.

(** The labels computed by [RaceModel.train], on one entry of [y]:
    [y.fillna(21)], [21 - y_filled], [.clip(lower=0)]. *)
Definition relevance (y : pyfloat) : Q :=
  let y_filled := match y with Num q => q | NaN => 21 end in
  let y_relevance := 21 - y_filled in
  if Qle_bool 0 y_relevance then y_relevance else 0.

Definition y_relevance (y : list pyfloat) : list Q := map relevance y.

End race.

Module trainer.

(** One row of the training frame, with the columns that [train_race]
    reads. *)
Record TrainRow : Type := mkTrainRow {
  RoundNumber : Z;
  TargetPosition : pyfloat
}.

(** The runs of a list of keys: [(k, n)] for [n] consecutive [k]. *)
Fixpoint run_lengths (keys : list Z) : list (Z * Z) :=
  match keys with
  | [] => []
  | k :: rest =>
      match run_lengths rest with
      | (k', n) :: groups =>
          if (k =? k')%Z then (k', (n + 1)%Z) :: groups
          else (k, 1%Z) :: (k', n) :: groups
      | [] => [(k, 1%Z)]
      end
  end.

(** [df.groupby(col).size()]: the keys are sorted, and each key comes
    with the number of its rows. *)
Definition groupby_size (keys : list Z) : list (Z * Z) :=
  run_lengths (pd.sort_values (fun k => k) keys).

(** The [groups] that [train_race] hands to [RaceModel.train];
    [has_RoundNumber] is ['RoundNumber' in train_data.columns]. *)
Definition train_race_groups (has_RoundNumber : bool)
    (train_data : list TrainRow) : list Z :=
  if has_RoundNumber
  then map snd (groupby_size (map RoundNumber train_data))
  else [Z.of_nat (List.length train_data)].

End trainer.

(** The ranker reads [groups] as the sizes of consecutive blocks of
    rows, one block per race: the key that this reading gives to each
    row, block after block. *)
Definition rounds_by_block (groups : list (Z * Z)) : list Z :=
  List.concat (map (fun kn => repeat (fst kn) (Z.to_nat (snd kn))) groups).

(** Race rows of two seasons, in the order in which [train.py] collects
    them. *)
Definition sample_two_seasons : list trainer.TrainRow :=
  [trainer.mkTrainRow 1 (Num 1); trainer.mkTrainRow 1 (Num 2);
   trainer.mkTrainRow 2 (Num 1); trainer.mkTrainRow 2 NaN;
   trainer.mkTrainRow 1 (Num 2); trainer.mkTrainRow 1 (Num 1)].

(** Race rows of one season, round after round. *)
Definition sample_one_season : list trainer.TrainRow :=
  [trainer.mkTrainRow 1 (Num 1); trainer.mkTrainRow 1 (Num 2);
   trainer.mkTrainRow 2 (Num 1); trainer.mkTrainRow 2 NaN;
   trainer.mkTrainRow 3 (Num 2)].

(** ** [src/features/weather.py] *)

Module weather.

Open Scope string_scope.

(** The dictionary, in the order of its literal (the order in which
    [.items()] yields it). *)
Definition CIRCUIT_COORDINATES : list (string * (Q * Q)) :=
  [
   ("Bahrain", (260325 # 10000, 505106 # 10000));
   ("Saudi Arabia", (216319 # 10000, 391044 # 10000));
   ("Jeddah", (216319 # 10000, 391044 # 10000));
   ("Australia", (((-378497)%Z # 10000), 1449680 # 10000));
   ("Melbourne", (((-378497)%Z # 10000), 1449680 # 10000));
   ("Japan", (348431 # 10000, 1365407 # 10000));
   ("Suzuka", (348431 # 10000, 1365407 # 10000));
   ("China", (313389 # 10000, 1212197 # 10000));
   ("Shanghai", (313389 # 10000, 1212197 # 10000));
   ("Miami", (259581 # 10000, ((-802389)%Z # 10000)));
   ("Imola", (443439 # 10000, 117167 # 10000));
   ("Emilia Romagna", (443439 # 10000, 117167 # 10000));
   ("Monaco", (437347 # 10000, 74206 # 10000));
   ("Monte Carlo", (437347 # 10000, 74206 # 10000));
   ("Canada", (455000 # 10000, ((-735228)%Z # 10000)));
   ("Montreal", (455000 # 10000, ((-735228)%Z # 10000)));
   ("Spain", (415700 # 10000, 22611 # 10000));
   ("Barcelona", (415700 # 10000, 22611 # 10000));
   ("Austria", (472197 # 10000, 147647 # 10000));
   ("Spielberg", (472197 # 10000, 147647 # 10000));
   ("United Kingdom", (520786 # 10000, ((-10169)%Z # 10000)));
   ("Silverstone", (520786 # 10000, ((-10169)%Z # 10000)));
   ("Hungary", (475789 # 10000, 192486 # 10000));
   ("Budapest", (475789 # 10000, 192486 # 10000));
   ("Belgium", (504372 # 10000, 59714 # 10000));
   ("Spa", (504372 # 10000, 59714 # 10000));
   ("Netherlands", (523888 # 10000, 45409 # 10000));
   ("Zandvoort", (523888 # 10000, 45409 # 10000));
   ("Italy", (456156 # 10000, 92811 # 10000));
   ("Monza", (456156 # 10000, 92811 # 10000));
   ("Azerbaijan", (403725 # 10000, 498533 # 10000));
   ("Baku", (403725 # 10000, 498533 # 10000));
   ("Singapore", (12914 # 10000, 1038644 # 10000));
   ("Marina Bay", (12914 # 10000, 1038644 # 10000));
   ("United States", (301328 # 10000, ((-976411)%Z # 10000)));
   ("Austin", (301328 # 10000, ((-976411)%Z # 10000)));
   ("Mexico", (194042 # 10000, ((-990907)%Z # 10000)));
   ("Mexico City", (194042 # 10000, ((-990907)%Z # 10000)));
   ("Brazil", (((-237036)%Z # 10000), ((-466997)%Z # 10000)));
   ("São Paulo", (((-237036)%Z # 10000), ((-466997)%Z # 10000)));
   ("Interlagos", (((-237036)%Z # 10000), ((-466997)%Z # 10000)));
   ("Las Vegas", (361147 # 10000, ((-1151728)%Z # 10000)));
   ("Qatar", (254900 # 10000, 514542 # 10000));
   ("Lusail", (254900 # 10000, 514542 # 10000));
   ("Abu Dhabi", (244672 # 10000, 546031 # 10000));
   ("Yas Marina", (244672 # 10000, 546031 # 10000))
  ].

(** [key in d] and [d[key]] on a dictionary with distinct keys. *)
Definition dict_get {V : Type} (d : list (string * V)) (key : string)
    : option V :=
  option_map snd (find (fun kv => String.eqb (fst kv) key) d).

(** The test of the partial match.  The one key with a letter beyond
    ASCII, "São Paulo", has it in lower case already, so [pystr.lower]
    is [str.lower] on every key; on [circuit_name] it is [str.lower]
    when the name has no capital letter beyond ASCII. *)
Definition partial_match (key circuit_name : string) : bool :=
  pystr.contains (pystr.lower key) (pystr.lower circuit_name)
  || pystr.contains (pystr.lower circuit_name) (pystr.lower key).

Definition default_coordinates : Q * Q :=
  (515074 # 10000, (-1278)%Z # 10000).

Definition get_circuit_coordinates (circuit_name : string) : Q * Q :=
  match dict_get CIRCUIT_COORDINATES circuit_name with
  | Some coords => coords
  | None =>
      match find (fun kv => partial_match (fst kv) circuit_name)
                 CIRCUIT_COORDINATES with
      | Some kv => snd kv
      | None => default_coordinates
      end
  end.

(** The dictionary that [get_weather_forecast] returns. *)
Record Weather : Type := mkWeather {
  temperature : Q;
  rain_probability : Q;
  description : string
}.

(** One entry of [data['list']] in the answer of the forecast API; a
    field is [None] when reading it raises (a missing key, an empty
    ['weather'] list), and [f_pop] is [None] when the key ['pop'] is
    missing. *)
Record Forecast : Type := mkForecast {
  f_dt : option Q;
  f_temp : option Q;
  f_pop : option Q;
  f_description : option string
}.

(** The answer of the current-weather API: [data['main']['temp']],
    [data['weather'][0]['main']], [data['weather'][0]['description']]. *)
Record Current : Type := mkCurrent {
  c_temp : option Q;
  c_main : option string;
  c_description : option string
}.

Record Response (A : Type) : Type := mkResponse {
  status_code : Z;
  data : A
}.

(** The world that the function reads: the environment variable, the
    clock and the two endpoints.  Times are seconds on one time line (the
    datetimes are naive); an endpoint answers [None] when [requests.get]
    or [response.json()] raises; the forecast answer holds
    [data.get('list', [])]. *)
Class WeatherApi : Type := {
  OPENWEATHER_API_KEY : option string;
  now : Q;
  get_forecast : Q -> Q -> option (Response (list Forecast));
  get_current : Q -> Q -> option (Response Current)
}.

Definition default_weather (description : string) : Weather :=
  mkWeather 25 0 description.

(** The body of [for forecast in forecasts]; the state is
    [closest_forecast] with [min_diff], [None] standing for the initial
    [None] and [inf].  The outer [None] is a raised exception. *)
Definition closest_step (target_datetime : Q)
    (state : option (Forecast * Q)) (forecast : Forecast)
    : option (option (Forecast * Q)) :=
  match f_dt forecast with
  | None => None
  | Some forecast_dt =>
      let diff := Qabs (forecast_dt - target_datetime) in
      match state with
      | None => Some (Some (forecast, diff))
      | Some (_, min_diff) =>
          if negb (Qle_bool min_diff diff)
          then Some (Some (forecast, diff))
          else Some state
      end
  end.

Fixpoint closest_loop (target_datetime : Q) (forecasts : list Forecast)
    (state : option (Forecast * Q)) : option (option (Forecast * Q)) :=
  match forecasts with
  | [] => Some state
  | forecast :: rest =>
      match closest_step target_datetime state forecast with
      | None => None
      | Some state' => closest_loop target_datetime rest state'
      end
  end.

Section WithApi.
Context {api : WeatherApi}.

(** The branch of the 5-day forecast: [None] when an exception is
    raised, [Some None] when the branch falls through to the current
    weather, [Some (Some w)] when it returns [w]. *)
Definition forecast_branch (lat lon target_datetime : Q)
    : option (option Weather) :=
  match get_forecast lat lon with
  | None => None
  | Some response =>
      if negb (status_code response =? 200)%Z
      then Some (Some (default_weather "Error"))
      else
        match closest_loop target_datetime (data response) None with
        | None => None
        | Some None => Some None
        | Some (Some (closest_forecast, _)) =>
            match f_temp closest_forecast,
                  f_description closest_forecast with
            | Some temp, Some description =>
                let rain_prob :=
                  match f_pop closest_forecast with
                  | Some pop => pop
                  | None => 0
                  end in
                Some (Some (mkWeather temp rain_prob description))
            | _, _ => None
            end
        end
  end.

(** The part after the forecast branch; [None] when an exception is
    raised. *)
Definition current_weather (lat lon : Q) : option Weather :=
  match get_current lat lon with
  | None => None
  | Some response =>
      if negb (status_code response =? 200)%Z
      then Some (default_weather "Error")
      else
        match c_temp (data response), c_main (data response),
              c_description (data response) with
        | Some temp, Some main, Some description =>
            let weather_main := pystr.lower main in
            let rain_prob :=
              if pystr.contains "rain" weather_main then 1 else 0 in
            Some (mkWeather temp rain_prob description)
        | _, _, _ => None
        end
  end.

Definition get_weather_forecast (lat lon : Q)
    (target_datetime : option Q) : Weather :=
  let no_key :=
    match OPENWEATHER_API_KEY with
    | None => true
    | Some k => String.eqb k ""
    end in
  if no_key then default_weather "Unknown"
  else
    let future :=
      match target_datetime with
      | Some t => if negb (Qle_bool t now) then Some t else None
      | None => None
      end in
    let body :=
      match future with
      | Some t =>
          match forecast_branch lat lon t with
          | None => None
          | Some (Some w) => Some w
          | Some None => current_weather lat lon
          end
      | None => current_weather lat lon
      end in
    match body with
    | Some w => w
    | None => default_weather "Error"
    end.

Definition get_race_weather (circuit_name : string)
    (race_datetime : option Q) : Weather :=
  let '(lat, lon) := get_circuit_coordinates circuit_name in
  get_weather_forecast lat lon race_datetime.

End WithApi.

End weather.

(** [key] and [name] are related by the partial match: one occurs in
    the other when the case of the letters is ignored. *)
Definition overlaps (key name : string) : Prop :=
  occurs_in (pystr.lower key) (pystr.lower name)
  \/ occurs_in (pystr.lower name) (pystr.lower key).

(** The distance in time between a forecast and the target. *)
Definition time_distance (target : Q) (forecast : weather.Forecast)
    : option Q :=
  option_map (fun forecast_dt => Qabs (forecast_dt - target))
             (weather.f_dt forecast).

(** The report made of a forecast entry. *)
Definition report_of (forecast : weather.Forecast) : option weather.Weather :=
  match weather.f_temp forecast, weather.f_description forecast with
  | Some temp, Some description =>
      Some (weather.mkWeather temp
              (match weather.f_pop forecast with
               | Some pop => pop
               | None => 0
               end) description)
  | _, _ => None
  end.

(** Three forecasts around the target time 1000: the second and the
    third are equally close. *)
Definition sample_forecasts : list weather.Forecast :=
  [weather.mkForecast (Some 400) (Some 20) (Some (1 # 10)) (Some "clear sky");
   weather.mkForecast (Some 900) (Some 21) (Some (6 # 10)) (Some "light rain");
   weather.mkForecast (Some 1100) (Some 22) None (Some "few clouds")]%string.

Definition sample_weather_api : weather.WeatherApi :=
  {| weather.OPENWEATHER_API_KEY := Some "key"%string;
     weather.now := 500;
     weather.get_forecast := fun _ _ =>
       Some (weather.mkResponse 200 sample_forecasts);
     weather.get_current := fun _ _ =>
       Some (weather.mkResponse 200
               (weather.mkCurrent (Some 19) (Some "Rain"%string)
                  (Some "moderate rain"%string))) |}.

(** ** [src/features/processor.py] *)

Module processor.

(** One row of [session.results] as the extractor reads it: [row_index]
    is the row label (the [driver_code] of the loop), [row_GridPosition]
    is the entry of the row in the column ['GridPosition'], [nan] when
    it is missing; it is read only when the results have that column. *)
Record ResultsRow : Type := mkResultsRow {
  row_index : string;
  row_FullName : string;
  row_Abbreviation : string;
  row_TeamName : string;
  row_GridPosition : pyfloat;
  row_Position : pyfloat
}.

(** The session as the extractor reads it: the session of the
    calculators, [session.event] and [session.results], whose reading
    can raise.  [has_GridPosition] tells whether ['GridPosition'] is a
    column of the results: the rows of [iterrows] all have the columns
    of the frame as their labels. *)
Record SessionView : Type := mkSessionView {
  session : fastf1.Session;
  session_event : fastf1.Event;
  session_results : result (list ResultsRow);
  has_GridPosition : bool
}.

(** The dictionary [feat]. *)
Record Features : Type := mkFeatures {
  feat_Driver : string;
  feat_RoundNumber : Z;
  feat_Circuit : string;
  feat_TrackTemp : pyfloat;
  feat_OvertakeDifficulty : Z;
  feat_DriverAvgPos : pyfloat;
  feat_DriverDNFRate : pyfloat;
  feat_QualiDeltaTeammate : pyfloat;
  feat_ReliabilityScore : pyfloat;
  feat_GridPosition : pyfloat;
  feat_RacePace : option pyfloat;
  feat_TireDegradation : option pyfloat;
  feat_TopSpeed : option pyfloat;
  feat_RainProbability : option pyfloat;
  feat_TargetPosition : pyfloat
}.

Section WithApi.
Context {api : fastf1.LapsApi} {numpy : np.Api}.

(** [teammate_row.index[0] if not teammate_row.empty else None] *)
Definition teammate_of (results : list ResultsRow)
    (team_name driver_code : string) : option string :=
  let teammate_row :=
    filter (fun r => String.eqb (row_TeamName r) team_name
                     && negb (String.eqb (row_index r) driver_code))
           results in
  match teammate_row with
  | [] => None
  | first :: _ => Some (row_index first)
  end.

(** The body of [for driver_code, row in results.iterrows()]. *)
Definition features_of_row (view : SessionView)
    (driver_history constructor_history : list ResultRow)
    (practice_session : option fastf1.Session)
    (results : list ResultsRow) (row : ResultsRow) : result Features :=
  let round_num := fastf1.RoundNumber (session_event view) in
  let circuit_name := fastf1.EventName (session_event view) in
  let track_temp := track.calculate_track_temp_avg (session view) in
  let overtake_diff := track.get_track_overtake_difficulty circuit_name in
  let driver_code := row_index row in
  let driver_abbr := row_Abbreviation row in
  let team_name := row_TeamName row in
  let d_hist :=
    filter (fun h => String.eqb (Driver h) driver_abbr) driver_history in
  let avg_pos :=
    driver.calculate_driver_season_avg_position d_hist round_num
      driver.default_window in
  let dnf_rate := driver.calculate_driver_dnf_rate d_hist round_num in
  let teammate_code := teammate_of results team_name driver_code in
  delta_teammate <-
    driver.calculate_qualifying_delta_to_teammate (session view)
      driver_code teammate_code ;;
  let '(race_pace, tire_deg, top_speed, rain_prob) :=
    match practice_session with
    | Some _ =>
        practice.calculate_race_pace practice_session driver_abbr
          practice.default_min_laps
    | None => (None, None, None, None)
    end in
  let c_hist :=
    filter (fun h => String.eqb (TeamName h) team_name)
           constructor_history in
  let rel_score :=
    constructor.calculate_reliability_score c_hist round_num
      constructor.default_window in
  Ok (mkFeatures driver_code round_num circuit_name track_temp
        overtake_diff avg_pos dnf_rate delta_teammate rel_score
        (if has_GridPosition view then row_GridPosition row else Num 0)
        race_pace tire_deg top_speed rain_prob (row_Position row)).

Fixpoint extract_loop (view : SessionView)
    (driver_history constructor_history : list ResultRow)
    (practice_session : option fastf1.Session)
    (results rows : list ResultsRow) (features : list Features)
    : result (list Features) :=
  match rows with
  | [] => Ok features
  | row :: rest =>
      feat <- features_of_row view driver_history constructor_history
                practice_session results row ;;
      extract_loop view driver_history constructor_history
        practice_session results rest (features ++ [feat])
  end.

Definition extract_features_for_session (view : SessionView)
    (driver_history constructor_history : list ResultRow)
    (practice_session : option fastf1.Session) : result (list Features) :=
  match session_results view with
  | Raise _ => Ok []
  | Ok results =>
      extract_loop view driver_history constructor_history
        practice_session results results []
  end.
End WithApi.

End processor.

(** The row has a teammate among the results: another row of its team
    whose label is not empty. *)
Definition has_teammate (results : list processor.ResultsRow)
    (row : processor.ResultsRow) : bool :=
  negb (driver.falsy
          (processor.teammate_of results (processor.row_TeamName row)
             (processor.row_index row))).

(** The history rows that concern the results: those of a listed
    driver and those of a listed team. *)
Definition same_driver_rows (results : list processor.ResultsRow)
    (history history' : list ResultRow) : Prop :=
  forall row, In row results ->
    filter (fun h => String.eqb (Driver h) (processor.row_Abbreviation row))
           history
    = filter (fun h => String.eqb (Driver h) (processor.row_Abbreviation row))
             history'.

Definition same_team_rows (results : list processor.ResultsRow)
    (history history' : list ResultRow) : Prop :=
  forall row, In row results ->
    filter (fun h => String.eqb (TeamName h) (processor.row_TeamName row))
           history
    = filter (fun h => String.eqb (TeamName h) (processor.row_TeamName row))
             history'.

(** A qualifying result of three drivers: two team-mates and a driver
    alone in their team.  The second row has no grid position. *)
Definition sample_results : list processor.ResultsRow :=
  [processor.mkResultsRow "16" "Charles Leclerc" "LEC" "Ferrari"
     (Num 1) (Num 1);
   processor.mkResultsRow "55" "Carlos Sainz" "SAI" "Ferrari"
     NaN (Num 2);
   processor.mkResultsRow "1" "Max Verstappen" "VER" "Red Bull"
     (Num 3) NaN]%string.

(** The results with their ['GridPosition'] column, and the same results
    without it. *)
Definition sample_view (s : fastf1.Session) : processor.SessionView :=
  processor.mkSessionView s
    (fastf1.mkEvent "Monaco Grand Prix" 4 (Some "conventional"%string))
    (Ok sample_results) true.

Definition sample_view_without_grid (s : fastf1.Session)
    : processor.SessionView :=
  processor.mkSessionView s
    (fastf1.mkEvent "Monaco Grand Prix" 4 (Some "conventional"%string))
    (Ok sample_results) false.

(** ** [Predictor.predict_next_session] of [src/pipeline/predict.py] *)

Module next_session.

Import fastf1 predict.

(** The row returned by [get_next_event]: [EventName],
    [EventDate.year], and the values of [.get('Location')] and
    [.get('Session5Date')], [None] when missing. *)
Record NextEvent : Type := mkNextEvent {
  next_EventName : string;
  next_year : Z;
  next_Location : option string;
  next_Session5Date : option Q
}.

(** What the method returns: [None], the dictionary of one driver, or
    the list of all predictions. *)
Inductive Outcome : Type :=
| NoPrediction
| DriverPrediction (p : Prediction)
| RacePrediction (all_preds : list Prediction).

Section WithWorld.
Context {api : LapsApi} {numpy : np.Api} {provider : SessionProvider}
        {weather_api : weather.WeatherApi}.

(** The prediction for the upcoming event without session data, made
    where qualifying is not finished and in the [except] branch. *)
Definition predict_upcoming (self : Predictor)
    (driver_name : option string) (year : Z) (event_name : string)
    : result Outcome :=
  match driver_name with
  | Some name =>
      if String.eqb name ""
      then all_preds <- predict_race self year event_name None None ;;
           Ok (RacePrediction all_preds)
      else pred <- predict_driver self name year event_name None None None ;;
           Ok (DriverPrediction pred)
  | None =>
      all_preds <- predict_race self year event_name None None ;;
      Ok (RacePrediction all_preds)
  end.

(** The body of the [try]. *)
Definition try_body (self : Predictor) (next_event : NextEvent)
    (driver_name : option string) (weather_override : option pyfloat)
    : result Outcome :=
  let event_name := next_EventName next_event in
  let year := next_year next_event in
  let session_q := get_session_data year event_name "Q" false false in
  has <- has_results session_q ;;
  let driver_list :=
    if has
    then map Abbreviation (session_results session_q)
    else fallback_drivers in
  if has then
    let weather_override :=
      match weather_override with
      | Some w => Some w
      | None =>
          let circuit_name :=
            match next_Location next_event with
            | Some location => location
            | None => event_name
            end in
          let race_datetime := next_Session5Date next_event in
          let weather_data :=
            weather.get_race_weather circuit_name race_datetime in
          Some (Num (weather.rain_probability weather_data))
      end in
    all_preds <- predict_race self year event_name (Some driver_list)
                   weather_override ;;
    match driver_name with
    | Some name =>
        if String.eqb name "" then Ok (RacePrediction all_preds)
        else
          match find (fun p => match Driver p with
                               | Some d => String.eqb d name
                               | None => false
                               end) all_preds with
          | Some driver_pred => Ok (DriverPrediction driver_pred)
          | None => Ok NoPrediction
          end
    | None => Ok (RacePrediction all_preds)
    end
  else predict_upcoming self driver_name year event_name.

Definition predict_next_session (self : Predictor)
    (next_event : option NextEvent) (driver_name : option string)
    (weather_override : option pyfloat) : result Outcome :=
  match next_event with
  | None => Ok NoPrediction
  | Some next_event =>
      match try_body self next_event driver_name weather_override with
      | Ok outcome => Ok outcome
      | Raise _ =>
          predict_upcoming self driver_name (next_year next_event)
            (next_EventName next_event)
      end
  end.

End WithWorld.

End next_session.

(** A provider whose qualifying session has the results of two
    drivers. *)
Definition sample_results_provider : predict.SessionProvider :=
  {| predict.get_session_data :=
       fun _ _ _ _ _ =>
         Some (fastf1.mkSession (Ok []) false None
                 (Some (fastf1.mkEvent "Monaco Grand Prix" 8
                          (Some "conventional"%string)))
                 (Some [fastf1.mkClassified "NOR" (Num 1);
                        fastf1.mkClassified "VER" (Num 2)]%string)) |}.

Definition sample_next_event : next_session.NextEvent :=
  next_session.mkNextEvent "Monaco Grand Prix" 2025 (Some "Monaco"%string)
    None.

(** A qualifying result of the twenty fallback drivers, the first of
    the list last on the grid, and a predictor whose race score is 20
    minus the grid position. *)
Definition sample_grid_results : list fastf1.Classified :=
  map (fun di => fastf1.mkClassified (fst di)
                   (Num (inject_Z (20 - Z.of_nat (snd di)))))
      (combine predict.fallback_drivers (seq 0 20)).

Definition sample_grid_provider : predict.SessionProvider :=
  {| predict.get_session_data :=
       fun _ _ _ _ _ =>
         Some (fastf1.mkSession (Ok []) false None
                 (Some (fastf1.mkEvent "Monaco Grand Prix" 8
                          (Some "conventional"%string)))
                 (Some sample_grid_results)) |}.

Definition sample_grid_predictor : predict.Predictor :=
  predict.mkPredictor (fun _ => Ok 3) (fun _ => Ok sprint.Points)
    (fun features =>
       match predict.r_GridPosition features with
       | Num grid => Ok (20 - grid)
       | NaN => Ok 0
       end) [] false.

(** The event formats of sprint weekends: the three named by the
    comment above the test in [predict_driver] ("'sprint' or
    'sprint_shootout' or 'sprint_qualifying' implies sprint"). *)
Definition is_sprint_format (format : string) : bool :=
  existsb (String.eqb format)
    ["sprint"; "sprint_shootout"; "sprint_qualifying"]%string.


(** A session with two weather samples, one of them without a track
    temperature. *)
Definition sample_one_reading : fastf1.Session :=
  fastf1.mkSession (Ok []) false
    (Some [fastf1.mkWeatherSample false NaN;
           fastf1.mkWeatherSample true (Num (301 # 10))])
    None None.

(* ================================================================== *)
(** * Part II: properties                                              *)
(* ================================================================== *)

Unset Implicit Arguments.

(** ** Strings *)

Section StringFacts.
Open Scope string_scope.

Lemma prefix_iff (a s : string) :
  String.prefix a s = true <-> exists post, s = a ++ post.
Proof.
  revert s; induction a as [|c a IH]; intros s; simpl.
  - split; [intros _; now exists s | intros _; now destruct s].
  - destruct s as [|d s]; simpl.
    + split; [discriminate | intros [post H]; discriminate].
    + destruct (ascii_dec c d) as [->|Hne].
      * rewrite IH. split; intros [post H]; exists post; congruence.
      * split; [discriminate | intros [post H]; congruence].
Qed.

Lemma contains_unfold (sub s : string) :
  pystr.contains sub s =
  String.prefix sub s ||
  match s with
  | EmptyString => false
  | String _ s' => pystr.contains sub s'
  end.
Proof. destruct s; reflexivity. Qed.

(** [sub in s] holds exactly when [s] is [pre ++ sub ++ post]. *)
Lemma contains_iff (sub s : string) :
  pystr.contains sub s = true <-> exists pre post, s = pre ++ sub ++ post.
Proof.
  induction s as [|c s IH]; rewrite contains_unfold, orb_true_iff, prefix_iff.
  - split.
    + intros [[post H]|H]; [now exists "", post | discriminate].
    + intros [pre [post H]]. left. destruct pre; [now exists post|discriminate].
  - rewrite IH. split.
    + intros [[post H]|[pre [post H]]].
      * now exists "", post.
      * exists (String c pre), post. simpl. now rewrite H.
    + intros [pre [post H]]. destruct pre as [|d pre]; simpl in H.
      * left. now exists post.
      * right. exists pre, post. congruence.
Qed.
End StringFacts.

(** ** Sorting, [tail] and means *)

Section SortFacts.
Context {A : Type}.
Variable key : A -> Z.

Lemma insert_asc_perm x l : Permutation (pd.insert_asc key x l) (x :: l).
Proof.
  induction l as [|y l IH]; simpl; [reflexivity|].
  destruct (key x <=? key y)%Z; [reflexivity|].
  rewrite IH. apply perm_swap.
Qed.

Lemma sort_values_perm l : Permutation (pd.sort_values key l) l.
Proof.
  induction l as [|x l IH]; simpl; [reflexivity|].
  rewrite insert_asc_perm. now constructor.
Qed.

Lemma insert_asc_sorted x l :
  ascending key l -> ascending key (pd.insert_asc key x l).
Proof.
  unfold ascending. induction 1 as [|y l Hs IH Hy]; simpl.
  - repeat constructor.
  - destruct (key x <=? key y)%Z eqn:E.
    + apply Z.leb_le in E. constructor; [now constructor|].
      constructor; [exact E|].
      eapply Forall_impl; [|exact Hy]. simpl; intros; lia.
    + apply Z.leb_gt in E. constructor; [exact IH|].
      eapply Permutation_Forall; [symmetry; apply insert_asc_perm|].
      constructor; [lia | exact Hy].
Qed.

Lemma sort_values_sorted l : ascending key (pd.sort_values key l).
Proof.
  induction l as [|x l IH]; simpl; [constructor | now apply insert_asc_sorted].
Qed.
End SortFacts.

Lemma empty_true_iff {A} (l : list A) : pd.empty l = true <-> l = [].
Proof. destruct l; simpl; split; congruence. Qed.

Lemma empty_false_iff {A} (l : list A) : pd.empty l = false <-> l <> [].
Proof. destruct l; simpl; split; congruence. Qed.

(** For a window [n >= 0], [tail n] is a suffix of [min n (length l)]
    rows. *)
Lemma tail_suffix {A} (n : Z) (l : list A) :
  (0 <= n)%Z ->
  exists older,
    l = older ++ pd.tail n l /\
    List.length (pd.tail n l) = Nat.min (Z.to_nat n) (List.length l).
Proof.
  intros Hn. unfold pd.tail.
  destruct (n =? 0)%Z eqn:E0.
  - apply Z.eqb_eq in E0; subst. exists l. now rewrite app_nil_r.
  - apply Z.eqb_neq in E0.
    replace (0 <? n)%Z with true by (symmetry; apply Z.ltb_lt; lia).
    exists (firstn (List.length l - Z.to_nat n) l).
    rewrite firstn_skipn, length_skipn. split; [reflexivity | lia].
Qed.

Lemma Qsum_from (l : list Q) (a : Q) :
  fold_left Qplus l a == a + pd.Qsum l.
Proof.
  unfold pd.Qsum. revert a.
  induction l as [|x l IH]; intros a; simpl; [ring|].
  rewrite (IH (a + x)), (IH (0 + x)). ring.
Qed.

Lemma Qsum_cons (x : Q) (l : list Q) : pd.Qsum (x :: l) == x + pd.Qsum l.
Proof. unfold pd.Qsum at 1; simpl. rewrite Qsum_from. ring. Qed.

(** [Series.mean] is [nan] on a column without numbers and the
    arithmetic mean of the numbers otherwise. *)
Lemma pd_mean_spec (col : list pyfloat) :
  match pd.dropna col with
  | [] => pd.mean col = NaN
  | vs => exists m, pd.mean col = Num m /\
                    m == pd.Qsum vs / inject_Z (Z.of_nat (List.length vs))
  end.
Proof.
  unfold pd.mean. destruct (pd.dropna col) as [|v vs]; [reflexivity|].
  eexists; split; [reflexivity|]. apply Qred_correct.
Qed.

(** ** Driver features *)

(** The loop of [calculate_driver_dnf_rate] counts the rows on which its
    test holds. *)
Lemma count_dnfs_filter (rows : list ResultRow) :
  driver.count_dnfs rows =
  Z.of_nat (List.length (filter (fun r => driver.counts_as_dnf (Status r)) rows)).
Proof.
  unfold driver.count_dnfs.
  enough (H : forall acc,
             fold_left (fun dnfs row =>
                          if driver.counts_as_dnf (Status row)
                          then (dnfs + 1)%Z else dnfs) rows acc =
             (acc + Z.of_nat (List.length
                (filter (fun r => driver.counts_as_dnf (Status r)) rows)))%Z)
    by (rewrite H; lia).
  induction rows as [|r rows IH]; intros acc; simpl; [lia|].
  rewrite IH. destruct (driver.counts_as_dnf (Status r)); cbn [List.length]; lia.
Qed.

Lemma counts_as_dnf_iff (status : string) :
  driver.counts_as_dnf status = true <->
  status <> "Finished"%string /\
  ~ (exists pre post, status = (pre ++ "+" ++ post)%string).
Proof.
  unfold driver.counts_as_dnf. simpl existsb.
  rewrite andb_true_iff, !negb_true_iff, orb_false_r.
  rewrite <- contains_iff.
  destruct (String.eqb_spec status "Finished");
    destruct (pystr.contains "+" status); intuition congruence.
Qed.

Lemma filter_ext_length {A} (f g : A -> bool) (l : list A) :
  (forall x, f x = g x) -> List.length (filter f l) = List.length (filter g l).
Proof. intros H. now rewrite (filter_ext f g H). Qed.

Lemma filter_nil_iff {A} (f : A -> bool) (l : list A) :
  filter f l = [] <-> forall x, In x l -> f x = false.
Proof.
  induction l as [|y l IH]; simpl.
  - split; [intros _ x [] | reflexivity].
  - destruct (f y) eqn:E; split.
    + discriminate.
    + intros H. specialize (H y (or_introl eq_refl)). congruence.
    + intros H x [->|Hx]; [exact E | now apply IH].
    + intros H. apply IH. intros x Hx. apply H. now right.
Qed.

Lemma prior_nil (rows : list ResultRow) (current_round : Z) :
  (forall r, In r rows -> ~ (RoundNumber r < current_round)%Z) ->
  filter (fun r => (RoundNumber r <? current_round)%Z) rows = [].
Proof.
  intros H. apply filter_nil_iff. intros r Hr.
  apply Z.ltb_ge. specialize (H r Hr). lia.
Qed.

Lemma prior_not_nil (rows : list ResultRow) (current_round : Z) :
  (exists r, In r rows /\ (RoundNumber r < current_round)%Z) ->
  filter (fun r => (RoundNumber r <? current_round)%Z) rows <> [].
Proof.
  intros [r [Hr Hlt]] E.
  assert (Hin : In r (filter (fun r => (RoundNumber r <? current_round)%Z) rows))
    by (apply filter_In; split; [exact Hr | now apply Z.ltb_lt]).
  rewrite E in Hin. exact Hin.
Qed.

Lemma sort_values_not_nil {A} (key : A -> Z) (l : list A) :
  l <> [] -> pd.sort_values key l <> [].
Proof.
  intros Hl E. apply Hl. apply Permutation_nil.
  rewrite <- E. apply sort_values_perm.
Qed.

(** C2. [calculate_driver_season_avg_position] is [nan] when no entry
    precedes the current round; otherwise, for a window [>= 0], it is the
    arithmetic mean of the positions of the last [window] (or fewer)
    prior entries in ascending round order, entries without a position
    being skipped (and [nan] when none of them has one); on the history
    round 1 -> 3, round 2 -> 1, round 3 -> 5 before round 4 it is 3. *)
Theorem avg_position_is_mean_of_recent :
  forall (driver_results : list ResultRow) (current_round window : Z),
    let prior :=
      filter (fun r => (RoundNumber r <? current_round)%Z) driver_results in
    let avg :=
      driver.calculate_driver_season_avg_position
        driver_results current_round window in
    ((forall r, In r driver_results -> ~ (RoundNumber r < current_round)%Z) ->
     avg = NaN)
    /\
    ((0 <= window)%Z ->
     (exists r, In r driver_results /\ (RoundNumber r < current_round)%Z) ->
     exists older recent,
       Permutation (older ++ recent) prior /\
       ascending RoundNumber (older ++ recent) /\
       List.length recent = Nat.min (Z.to_nat window) (List.length prior) /\
       match pd.dropna (map Position recent) with
       | [] => avg = NaN
       | vs =>
           exists m, avg = Num m /\
                     m == pd.Qsum vs / inject_Z (Z.of_nat (List.length vs))
       end)
    /\
    (forall d1 d2 d3 s1 s2 s3 t1 t2 t3,
       driver.calculate_driver_season_avg_position
         [mkResultRow d1 1 (Num 3) s1 t1;
          mkResultRow d2 2 (Num 1) s2 t2;
          mkResultRow d3 3 (Num 5) s3 t3] 4 driver.default_window = Num 3).
Proof.
  intros rows cr w prior avg. subst avg.
  unfold driver.calculate_driver_season_avg_position. fold prior.
  split; [|split].
  - intros H. subst prior. now rewrite (@prior_nil _ _ H).
  - intros Hw Hex.
    pose proof (@prior_not_nil _ _ Hex) as Hne. fold prior in Hne.
    pose proof (sort_values_not_nil RoundNumber prior Hne) as Hs.
    apply empty_false_iff in Hs. rewrite Hs.
    destruct (tail_suffix w (pd.sort_values RoundNumber prior) Hw)
      as [older [Hsplit Hlen]].
    exists older, (pd.tail w (pd.sort_values RoundNumber prior)).
    rewrite <- Hsplit. repeat split.
    + apply sort_values_perm.
    + apply sort_values_sorted.
    + rewrite Hlen.
      now rewrite (Permutation_length (sort_values_perm RoundNumber prior)).
    + apply pd_mean_spec.
  - reflexivity.
Qed.

Lemma avg_position_is_mean_of_recent_witness :
  ((forall r, In r sample_history -> ~ (RoundNumber r < 1)%Z) /\
   driver.calculate_driver_season_avg_position sample_history 1 5 = NaN)
  /\
  (0 <= 2)%Z /\
  (exists r, In r sample_history /\ (RoundNumber r < 4)%Z) /\
  exists older recent,
    Permutation (older ++ recent)
      (filter (fun r => (RoundNumber r <? 4)%Z) sample_history) /\
    ascending RoundNumber (older ++ recent) /\
    List.length recent = 2%nat /\
    match pd.dropna (map Position recent) with
    | [] => driver.calculate_driver_season_avg_position sample_history 4 2
            = NaN
    | vs =>
        exists m,
          driver.calculate_driver_season_avg_position sample_history 4 2
          = Num m /\
          m == pd.Qsum vs / inject_Z (Z.of_nat (List.length vs))
    end.
Proof.
  assert (Hnone : forall r, In r sample_history -> ~ (RoundNumber r < 1)%Z).
  { intros r [<-|[<-|[<-|[<-|[]]]]]; simpl; lia. }
  assert (Hex : exists r, In r sample_history /\ (RoundNumber r < 4)%Z)
    by (eexists; split; [left; reflexivity | reflexivity]).
  split.
  - split; [exact Hnone|].
    exact (proj1 (avg_position_is_mean_of_recent sample_history 1 5) Hnone).
  - split; [lia|]. split; [exact Hex|].
    exact (proj1 (proj2 (avg_position_is_mean_of_recent sample_history 4 2))
             ltac:(lia) Hex).
Defined.

(** C3. [calculate_driver_dnf_rate] is exactly 0 when no entry precedes
    the current round, and otherwise [k / n], [n] the number of prior
    entries and [k] the number of those whose status is not ["Finished"]
    and has no ["+"] in it. *)
Theorem dnf_rate_is_fraction :
  forall (driver_results : list ResultRow) (current_round : Z),
    let prior :=
      filter (fun r => (RoundNumber r <? current_round)%Z) driver_results in
    let rate := driver.calculate_driver_dnf_rate driver_results current_round in
    ((forall r, In r driver_results -> ~ (RoundNumber r < current_round)%Z) ->
     rate = Num 0)
    /\
    (forall is_dnf : ResultRow -> bool,
       (forall r, is_dnf r = true <->
                  Status r <> "Finished"%string /\
                  ~ (exists pre post, Status r = (pre ++ "+" ++ post)%string)) ->
       (exists r, In r driver_results /\ (RoundNumber r < current_round)%Z) ->
       exists m,
         rate = Num m /\
         m == inject_Z (Z.of_nat (List.length (filter is_dnf prior)))
              / inject_Z (Z.of_nat (List.length prior))).
Proof.
  intros rows cr prior rate. subst rate.
  unfold driver.calculate_driver_dnf_rate. fold prior. split.
  - intros H. subst prior. now rewrite (@prior_nil _ _ H).
  - intros is_dnf Hspec Hex.
    pose proof (@prior_not_nil _ _ Hex) as Hne. fold prior in Hne.
    apply empty_false_iff in Hne. rewrite Hne.
    eexists; split; [reflexivity|].
    unfold fl. rewrite Qred_correct, count_dnfs_filter.
    rewrite (@filter_ext_length _ is_dnf
               (fun r => driver.counts_as_dnf (Status r))); [reflexivity|].
    intros r. specialize (Hspec r).
    pose proof (counts_as_dnf_iff (Status r)) as Hc.
    destruct (is_dnf r), (driver.counts_as_dnf (Status r)); intuition congruence.
Qed.

Lemma dnf_rate_is_fraction_witness :
  ((forall r, In r sample_history -> ~ (RoundNumber r < 1)%Z) /\
   driver.calculate_driver_dnf_rate sample_history 1 = Num 0)
  /\
  (forall r, driver.counts_as_dnf (Status r) = true <->
             Status r <> "Finished"%string /\
             ~ (exists pre post, Status r = (pre ++ "+" ++ post)%string)) /\
  (exists r, In r sample_history /\ (RoundNumber r < 5)%Z) /\
  exists m,
    driver.calculate_driver_dnf_rate sample_history 5 = Num m /\ m == 2 # 4.
Proof.
  assert (Hnone : forall r, In r sample_history -> ~ (RoundNumber r < 1)%Z).
  { intros r [<-|[<-|[<-|[<-|[]]]]]; simpl; lia. }
  assert (Hspec : forall r,
             driver.counts_as_dnf (Status r) = true <->
             Status r <> "Finished"%string /\
             ~ (exists pre post, Status r = (pre ++ "+" ++ post)%string))
    by (intros r; apply counts_as_dnf_iff).
  assert (Hex : exists r, In r sample_history /\ (RoundNumber r < 5)%Z)
    by (eexists; split; [left; reflexivity | reflexivity]).
  split.
  - split; [exact Hnone|].
    exact (proj1 (dnf_rate_is_fraction sample_history 1) Hnone).
  - split; [exact Hspec|]. split; [exact Hex|].
    destruct (proj2 (dnf_rate_is_fraction sample_history 5)
                (fun r => driver.counts_as_dnf (Status r)) Hspec Hex)
      as [m [Hm Heq]].
    exists m. split; [exact Hm|]. rewrite Heq. reflexivity.
Defined.

(** ** Constructor features *)

(** C10. With no standings table ([None]) or an empty one,
    [calculate_constructor_standing] evaluates [np.nan] in a module that
    never binds [np]: it raises [NameError] and returns no value, whatever
    the team and the round. *)
Theorem standing_raises_without_table :
  forall (team_name : string) (current_round : Z),
    constructor.calculate_constructor_standing None team_name current_round
    = Raise (NameError "np") /\
    constructor.calculate_constructor_standing (Some []) team_name current_round
    = Raise (NameError "np") /\
    (forall standings v,
       standings = None \/ standings = Some [] ->
       constructor.calculate_constructor_standing
         standings team_name current_round <> Ok v).
Proof.
  intros team_name current_round. split; [reflexivity|]. split; [reflexivity|].
  intros standings v [-> | ->]; discriminate.
Qed.

Lemma standing_raises_without_table_witness :
  (@None (list StandingRow) = None \/ @None (list StandingRow) = Some []) /\
  constructor.calculate_constructor_standing None "Ferrari" 1 <> Ok (Num 0).
Proof.
  split; [now left|].
  exact (proj2 (proj2 (standing_raises_without_table "Ferrari" 1))
           None (Num 0) (or_introl eq_refl)).
Defined.

(** The claim C5 as stated fails: at the first round an empty table
    gives no 0, and a table without a row for the team and the previous
    round gives no [nan]. *)
Lemma standing_first_round_or_nan_counterexample :
  constructor.calculate_constructor_standing (Some []) "Ferrari" 1
  <> Ok (Num 0) /\
  constructor.calculate_constructor_standing
    (Some [mkStandingRow 1 "Ferrari" (Num 2)]) "Mercedes" 2 <> Ok NaN.
Proof. split; discriminate. Qed.

(** C5, amended. On a non-empty standings table,
    [calculate_constructor_standing] returns 0 at the first round of the
    season (previous round below 1); from the second round on it returns
    the position of the first row of the table for this team and the
    previous round, when there is one. *)
Theorem standing_on_nonempty_table :
  forall (df : list StandingRow) (team_name : string) (current_round : Z),
    df <> [] ->
    ((current_round - 1 < 1)%Z ->
     constructor.calculate_constructor_standing (Some df) team_name current_round
     = Ok (Num 0))
    /\
    (forall before row after,
       (1 <= current_round - 1)%Z ->
       df = before ++ row :: after ->
       standing_RoundNumber row = (current_round - 1)%Z ->
       standing_TeamName row = team_name ->
       (forall r, In r before ->
                  ~ (standing_RoundNumber r = (current_round - 1)%Z /\
                     standing_TeamName r = team_name)) ->
       constructor.calculate_constructor_standing (Some df) team_name current_round
       = Ok (standing_Position row)).
Proof.
  intros df team cr Hne. unfold constructor.calculate_constructor_standing.
  apply empty_false_iff in Hne. rewrite Hne. split.
  - intros H. apply Z.ltb_lt in H. now rewrite H.
  - intros before row after Hr Hdf Hround Hteam Hfirst.
    replace (cr - 1 <? 1)%Z with false by (symmetry; apply Z.ltb_ge; lia).
    rewrite Hdf, filter_app.
    replace (filter _ before) with (@nil StandingRow).
    + simpl. rewrite Hround, Z.eqb_refl, Hteam, String.eqb_refl. reflexivity.
    + symmetry. apply filter_nil_iff. intros r Hin.
      specialize (Hfirst r Hin). apply andb_false_iff.
      destruct (Z.eqb_spec (standing_RoundNumber r) (cr - 1));
        destruct (String.eqb_spec (standing_TeamName r) team); tauto.
Qed.

Lemma standing_on_nonempty_table_witness :
  sample_standings <> [] /\ (1 - 1 < 1)%Z /\ (1 <= 2 - 1)%Z /\
  constructor.calculate_constructor_standing (Some sample_standings)
    "Mercedes" 1 = Ok (Num 0) /\
  constructor.calculate_constructor_standing (Some sample_standings)
    "Mercedes" 2 = Ok (Num 1).
Proof.
  assert (Hne : sample_standings <> []) by discriminate.
  split; [exact Hne|]. split; [lia|]. split; [lia|]. split.
  - apply (proj1 (standing_on_nonempty_table sample_standings "Mercedes" 1
                    Hne)). lia.
  - apply (proj2 (standing_on_nonempty_table sample_standings "Mercedes" 2
                    Hne)
             [mkStandingRow 1 "Ferrari" (Num 2)]
             (mkStandingRow 1 "Mercedes" (Num 1))
             [mkStandingRow 2 "Mercedes" (Num 3)]);
      try reflexivity; try lia.
    intros r [<-|[]] [_ H]. discriminate H.
Defined.

Section LowerFacts.
Open Scope string_scope.

Lemma lower_app (a b : string) :
  pystr.lower (a ++ b) = pystr.lower a ++ pystr.lower b.
Proof. induction a as [|c a IH]; simpl; [reflexivity | now rewrite IH]. Qed.

Lemma lower_split (s a b : string) :
  pystr.lower s = a ++ b ->
  exists s1 s2, s = s1 ++ s2 /\ pystr.lower s1 = a /\ pystr.lower s2 = b.
Proof.
  revert s; induction a as [|c a IH]; intros s H.
  - exists "", s. auto.
  - destruct s as [|d s]; [discriminate|]. simpl in H.
    injection H as Hc Hs. destruct (IH s Hs) as (s1 & s2 & -> & H1 & H2).
    exists (String d s1), s2. simpl. now rewrite Hc, H1.
Qed.

(** [kw in s.lower()] holds exactly when some substring of [s] is [kw]
    up to the case of its letters. *)
Lemma contains_lower_iff (kw s : string) :
  pystr.contains kw (pystr.lower s) = true <->
  exists pre mid post, s = pre ++ mid ++ post /\ pystr.lower mid = kw.
Proof.
  rewrite contains_iff. split.
  - intros (pre' & post' & H).
    destruct (lower_split _ _ _ H) as (pre & rest & -> & _ & Hrest).
    destruct (lower_split _ _ _ Hrest) as (mid & post & -> & Hmid & _).
    now exists pre, mid, post.
  - intros (pre & mid & post & -> & Hmid).
    exists (pystr.lower pre), (pystr.lower post).
    now rewrite !lower_app, Hmid.
Qed.
End LowerFacts.

Lemma is_mechanical_iff (status : string) :
  constructor.is_mechanical status = true <-> names_mechanical_failure status.
Proof.
  unfold constructor.is_mechanical, names_mechanical_failure.
  rewrite !orb_true_iff, !contains_lower_iff. split.
  - intros [[[H|H]|H]|H]; eexists; (split; [|exact H]); simpl; auto.
  - intros (kw & Hin & H). simpl in Hin.
    destruct Hin as [<-|[<-|[<-|[<-|[]]]]]; auto.
Qed.

Lemma count_failures_filter (rows : list ResultRow) :
  constructor.count_failures rows =
  Z.of_nat (List.length
              (filter (fun r => constructor.is_mechanical (Status r)) rows)).
Proof.
  unfold constructor.count_failures.
  enough (H : forall acc,
             fold_left (fun failures row =>
                          if constructor.is_mechanical (Status row)
                          then (failures + 1)%Z else failures) rows acc =
             (acc + Z.of_nat (List.length
                (filter (fun r => constructor.is_mechanical (Status r)) rows)))%Z)
    by (rewrite H; lia).
  induction rows as [|r rows IH]; intros acc; simpl; [lia|].
  rewrite IH. destruct (constructor.is_mechanical (Status r));
    cbn [List.length]; lia.
Qed.

(** A fraction [k / n] with [0 <= k <= n] and [0 < n] lies in [0, 1]. *)
Lemma fraction_in_unit (k n : Z) :
  (0 <= k <= n)%Z -> (0 < n)%Z ->
  0 <= inject_Z k / inject_Z n /\ inject_Z k / inject_Z n <= 1.
Proof.
  intros [Hk Hkn] Hn.
  assert (Hn' : 0 < inject_Z n) by (unfold Qlt; simpl; lia).
  split.
  - apply Qle_shift_div_l; [exact Hn'|]. rewrite Qmult_0_l.
    unfold Qle; simpl; lia.
  - apply Qle_shift_div_r; [exact Hn'|]. rewrite Qmult_1_l.
    unfold Qle; simpl; lia.
Qed.

(** C6. [calculate_reliability_score] lies in [0, 1]; it is exactly 1
    when no entry precedes the current round; otherwise, for a positive
    window, it is 1 minus the fraction of the entries naming a mechanical
    failure among the last [window * 2] (or fewer) prior entries in
    ascending round order. *)
Theorem reliability_score_spec :
  forall (constructor_results : list ResultRow) (current_round window : Z),
    let prior :=
      filter (fun r => (RoundNumber r <? current_round)%Z)
             constructor_results in
    let score :=
      constructor.calculate_reliability_score
        constructor_results current_round window in
    (exists q, score = Num q /\ 0 <= q /\ q <= 1)
    /\
    ((forall r, In r constructor_results ->
                ~ (RoundNumber r < current_round)%Z) ->
     score = Num 1)
    /\
    ((0 < window)%Z ->
     (exists r, In r constructor_results /\
                (RoundNumber r < current_round)%Z) ->
     exists older recent,
       Permutation (older ++ recent) prior /\
       ascending RoundNumber (older ++ recent) /\
       List.length recent
       = Nat.min (Z.to_nat (window * 2)) (List.length prior) /\
       forall is_failure : ResultRow -> bool,
         (forall r, is_failure r = true <->
                    names_mechanical_failure (Status r)) ->
         exists q,
           score = Num q /\
           q == 1 - inject_Z (Z.of_nat (List.length (filter is_failure recent)))
                    / inject_Z (Z.of_nat (List.length recent))).
Proof.
  intros rows cr w prior score. subst score.
  unfold constructor.calculate_reliability_score. fold prior.
  split; [|split].
  - destruct (pd.empty (pd.sort_values RoundNumber prior));
      [exists 1; repeat split; discriminate|].
    set (recent := pd.tail (w * 2) (pd.sort_values RoundNumber prior)).
    destruct (Z.eqb_spec (Z.of_nat (List.length recent)) 0) as [E|E];
      [exists 1; repeat split; discriminate|].
    eexists; split; [reflexivity|]. rewrite Qred_correct.
    rewrite count_failures_filter.
    destruct (fraction_in_unit
                (Z.of_nat (List.length
                   (filter (fun r => constructor.is_mechanical (Status r))
                           recent)))
                (Z.of_nat (List.length recent))) as [H0 H1].
    + split; [lia|]. apply Nat2Z.inj_le, filter_length_le.
    + lia.
    + split; lra.
  - intros H. subst prior. now rewrite (@prior_nil _ _ H).
  - intros Hw Hex.
    pose proof (@prior_not_nil _ _ Hex) as Hne. fold prior in Hne.
    pose proof (sort_values_not_nil RoundNumber prior Hne) as Hs.
    apply empty_false_iff in Hs. rewrite Hs.
    destruct (tail_suffix (w * 2) (pd.sort_values RoundNumber prior))
      as [older [Hsplit Hlen]]; [lia|].
    set (recent := pd.tail (w * 2) (pd.sort_values RoundNumber prior)) in *.
    exists older, recent. rewrite <- Hsplit.
    rewrite (Permutation_length (sort_values_perm RoundNumber prior)) in Hlen.
    split; [apply sort_values_perm|]. split; [apply sort_values_sorted|].
    split; [exact Hlen|]. intros is_failure Hspec.
    assert (Hpos : (0 < List.length recent)%nat).
    { rewrite Hlen. destruct prior; [congruence|]. simpl List.length. lia. }
    destruct (Z.eqb_spec (Z.of_nat (List.length recent)) 0) as [E|E]; [lia|].
    eexists; split; [reflexivity|].
    rewrite Qred_correct, count_failures_filter.
    rewrite (@filter_ext_length _ is_failure
               (fun r => constructor.is_mechanical (Status r))); [reflexivity|].
    intros r. specialize (Hspec r).
    pose proof (is_mechanical_iff (Status r)) as Hc.
    destruct (is_failure r), (constructor.is_mechanical (Status r));
      intuition congruence.
Qed.

Lemma reliability_score_spec_witness :
  ((forall r, In r sample_team_history -> ~ (RoundNumber r < 1)%Z) /\
   constructor.calculate_reliability_score sample_team_history 1 10 = Num 1)
  /\
  (0 < 1)%Z /\
  (exists r, In r sample_team_history /\ (RoundNumber r < 3)%Z) /\
  constructor.calculate_reliability_score sample_team_history 3 1
  = Num (1 # 2) /\
  exists older recent,
    Permutation (older ++ recent)
      (filter (fun r => (RoundNumber r <? 3)%Z) sample_team_history) /\
    List.length recent = 2%nat.
Proof.
  assert (Hnone : forall r,
             In r sample_team_history -> ~ (RoundNumber r < 1)%Z).
  { intros r [<-|[<-|[<-|[<-|[]]]]]; simpl; lia. }
  assert (Hex : exists r,
             In r sample_team_history /\ (RoundNumber r < 3)%Z)
    by (eexists; split; [left; reflexivity | reflexivity]).
  split.
  - split; [exact Hnone|].
    exact (proj1 (proj2 (reliability_score_spec sample_team_history 1 10))
             Hnone).
  - split; [lia|]. split; [exact Hex|]. split; [reflexivity|].
    destruct (proj2 (proj2 (reliability_score_spec sample_team_history 3 1))
                ltac:(lia) Hex)
      as (older & recent & Hperm & _ & Hlen & _).
    exists older, recent. split; [exact Hperm | exact Hlen].
Defined.

(** ** The teammate delta *)

Section DeltaFacts.
Import fastf1.
Context {api : LapsApi} {numpy : np.Api}.

(** C8, amended. Without a teammate the result is 0.0 for every session.
    With a teammate, when the lap table of the session can be read, the
    function returns without raising: 0.0 when either driver has no lap
    or a fastest lap time is missing, and otherwise the fastest lap time
    of the driver minus that of the teammate. *)
Theorem qualifying_delta_on_loaded_laps :
  forall (session : Session) (driver : string) (teammate : option string),
    (teammate = None \/ teammate = Some ""%string ->
     driver.calculate_qualifying_delta_to_teammate
       session driver teammate = Ok (Num 0))
    /\
    (forall (mate : string) (session_laps : Laps),
       teammate = Some mate -> mate <> ""%string ->
       laps session = Ok session_laps ->
       let d_laps := pick_drivers session_laps driver in
       let t_laps := pick_drivers session_laps mate in
       exists delta,
         driver.calculate_qualifying_delta_to_teammate
           session driver teammate = Ok delta /\
         (d_laps = [] \/ t_laps = [] -> delta = Num 0) /\
         (d_laps <> [] -> t_laps <> [] ->
          match fastest_time d_laps, fastest_time t_laps with
          | Some d_time, Some t_time =>
              exists q, delta = Num q /\ q == d_time - t_time
          | _, _ => delta = Num 0
          end)).
Proof.
  intros session driver teammate.
  unfold driver.calculate_qualifying_delta_to_teammate. split.
  - intros [-> | ->]; reflexivity.
  - intros mate session_laps -> Hmate Hlaps.
    simpl driver.falsy.
    replace (String.eqb mate "") with false
      by (symmetry; now apply String.eqb_neq).
    rewrite Hlaps. simpl bind.
    unfold fastest_time.
    destruct (pick_drivers session_laps driver) as [|d0 d_rest].
    { eexists; split; [reflexivity|]. split; [reflexivity | congruence]. }
    destruct (pick_drivers session_laps mate) as [|t0 t_rest].
    { eexists; split; [reflexivity|]. split; [reflexivity | congruence]. }
    simpl orb. cbv iota.
    destruct (pick_fastest (d0 :: d_rest)) as [d_fastest|];
      [|eexists; split; [reflexivity|];
        split; [intros [?|?]; discriminate | reflexivity]].
    destruct (pick_fastest (t0 :: t_rest)) as [t_fastest|];
      [|eexists; split; [reflexivity|];
        split; [intros [?|?]; discriminate
               | intros _ _; now destruct (LapTime d_fastest)]].
    destruct (LapTime d_fastest) as [d_time|];
      [|eexists; split; [reflexivity|];
        split; [intros [?|?]; discriminate | reflexivity]].
    destruct (LapTime t_fastest) as [t_time|];
      eexists; (split; [reflexivity|]);
      (split; [intros [?|?]; discriminate|]); intros _ _.
    + eexists; split; [reflexivity | apply Qred_correct].
    + reflexivity.
Qed.

End DeltaFacts.

(** The claim C8 as stated fails: with a teammate given, a session whose
    lap data was not loaded makes [session.laps] raise, and the function
    has no handler. *)
Lemma qualifying_delta_never_raises_counterexample :
  driver.calculate_qualifying_delta_to_teammate
    (api := fastf1_reference.api) sample_unloaded "16" (Some "55"%string)
  = Raise DataNotLoadedError.
Proof. reflexivity. Qed.

Lemma qualifying_delta_on_loaded_laps_witness :
  ((@None string = None \/ @None string = Some ""%string) /\
   driver.calculate_qualifying_delta_to_teammate
     (api := fastf1_reference.api) sample_unloaded "16" None = Ok (Num 0))
  /\
  "55"%string <> ""%string /\
  (exists session_laps, fastf1.laps sample_qualifying = Ok session_laps) /\
  exists delta,
    driver.calculate_qualifying_delta_to_teammate
      (api := fastf1_reference.api) sample_qualifying "16"
      (Some "55"%string) = Ok delta /\
    exists q, delta = Num q /\ q == -1.
Proof.
  split; [split; [now left|]|].
  - exact (proj1 (qualifying_delta_on_loaded_laps
                    (api := fastf1_reference.api)
                    sample_unloaded "16"%string None) (or_introl eq_refl)).
  - split; [discriminate|]. split; [eexists; reflexivity|].
    destruct (proj2 (qualifying_delta_on_loaded_laps
                       (api := fastf1_reference.api)
                       sample_qualifying "16"%string (Some "55"%string))
                "55"%string _ eq_refl ltac:(discriminate) eq_refl)
      as (delta & Hd & _ & Hcase).
    exists delta. split; [exact Hd|].
    destruct (Hcase ltac:(discriminate) ltac:(discriminate)) as (q & Hq & E).
    exists q. split; [exact Hq|]. rewrite E. reflexivity.
Defined.

(** ** Least squares *)

Section LeastSquares.

Lemma Qsum_nil : pd.Qsum [] == 0.
Proof. reflexivity. Qed.


Lemma count_cons {A} (x : A) (l : list A) :
  inject_Z (Z.of_nat (List.length (x :: l)))
  == 1 + inject_Z (Z.of_nat (List.length l)).
Proof.
  cbn [List.length]. rewrite Nat2Z.inj_succ, <- Z.add_1_l, inject_Z_plus.
  reflexivity.
Qed.

Lemma count_nonneg {A} (l : list A) :
  0 <= inject_Z (Z.of_nat (List.length l)).
Proof. unfold Qle; simpl; lia. Qed.



















End LeastSquares.

(** ** Practice pace *)

Section PracticeFacts.
Import fastf1.
Context {api : LapsApi}.















End PracticeFacts.






(** The claim C4 as stated fails: when an exception interrupts the
    calculation, the rain component of the result is [None], neither the
    rain probability already computed (here one half) nor 0.0. *)
Lemma race_pace_degraded_rain_counterexample :
  practice.rain_probability sample_unloaded = Num (1 # 2) /\
  practice.race_pace_body (api := fastf1_reference.api) (numpy := np_exact.api)
    sample_unloaded "VER" practice.default_min_laps
  = Raise DataNotLoadedError /\
  practice.calculate_race_pace
      (api := fastf1_reference.api) (numpy := np_exact.api)
    (Some sample_unloaded) "VER" practice.default_min_laps
  = (None, None, None, None) /\
  snd (practice.calculate_race_pace
      (api := fastf1_reference.api) (numpy := np_exact.api)
         (Some sample_unloaded) "VER" practice.default_min_laps)
  <> Some (practice.rain_probability sample_unloaded) /\
  snd (practice.calculate_race_pace
      (api := fastf1_reference.api) (numpy := np_exact.api)
         (Some sample_unloaded) "VER" practice.default_min_laps)
  <> Some (Num 0).
Proof. repeat split; discriminate. Qed.

(** C4, amended. Whenever an exception is raised inside the [try] block
    of [calculate_race_pace] (as when reading the laps of the session
    raises), it is caught and the result is [(None, None, None, None)]:
    all four components, the rain probability too; when none is raised
    the result is that of the block. *)
Theorem race_pace_exception_gives_all_none :
  forall {api : fastf1.LapsApi} {numpy : np.Api}
         (session : fastf1.Session) (driver : string) (min_laps : Z),
    (forall e,
       practice.race_pace_body session driver min_laps = Raise e ->
       practice.calculate_race_pace (Some session) driver min_laps
       = (None, None, None, None))
    /\
    (forall e,
       fastf1.laps session = Raise e ->
       practice.race_pace_body session driver min_laps = Raise e /\
       practice.calculate_race_pace (Some session) driver min_laps
       = (None, None, None, None))
    /\
    (forall t,
       practice.race_pace_body session driver min_laps = Ok t ->
       practice.calculate_race_pace (Some session) driver min_laps = t).
Proof.
  intros api numpy session driver min_laps.
  unfold practice.calculate_race_pace. split; [|split].
  - intros e H. now rewrite H.
  - intros e H. unfold practice.race_pace_body. rewrite H. now split.
  - intros t H. now rewrite H.
Qed.

Lemma race_pace_exception_gives_all_none_witness :
  fastf1.laps sample_unloaded = Raise DataNotLoadedError /\
  practice.race_pace_body (api := fastf1_reference.api) (numpy := np_exact.api)
    sample_unloaded "VER" 5 = Raise DataNotLoadedError /\
  practice.calculate_race_pace
      (api := fastf1_reference.api) (numpy := np_exact.api)
    (Some sample_unloaded) "VER" 5 = (None, None, None, None) /\
  practice.race_pace_body (api := fastf1_reference.api) (numpy := np_exact.api)
    sample_qualifying "VER" 5
  = Ok (None, None, None, Some (Num 0)) /\
  practice.calculate_race_pace
      (api := fastf1_reference.api) (numpy := np_exact.api)
    (Some sample_qualifying) "VER" 5 = (None, None, None, Some (Num 0)).
Proof.
  split; [reflexivity|]. split; [reflexivity|]. split; [|split].
  - exact (proj1 (race_pace_exception_gives_all_none
                    (api := fastf1_reference.api) (numpy := np_exact.api)
                    sample_unloaded "VER"%string 5%Z)
             DataNotLoadedError eq_refl).
  - reflexivity.
  - exact (proj2 (proj2 (race_pace_exception_gives_all_none
                           (api := fastf1_reference.api) (numpy := np_exact.api)
                           sample_qualifying "VER"%string 5%Z))
             _ eq_refl).
Defined.

(** ** Race ranking *)

Section RankingFacts.
Import predict.

Lemma insert_desc_perm p l : Permutation (insert_desc p l) (p :: l).
Proof.
  induction l as [|y l IH]; simpl; [reflexivity|].
  destruct (Qle_bool (Race_Score y) (Race_Score p)); [reflexivity|].
  rewrite IH. apply perm_swap.
Qed.

Lemma sort_by_race_score_perm l : Permutation (sort_by_race_score l) l.
Proof.
  induction l as [|x l IH]; simpl; [reflexivity|].
  rewrite insert_desc_perm. now constructor.
Qed.

Lemma insert_desc_sorted p l : descending l -> descending (insert_desc p l).
Proof.
  unfold descending. induction 1 as [|y l Hs IH Hy]; simpl.
  - repeat constructor.
  - destruct (Qle_bool (Race_Score y) (Race_Score p)) eqn:E.
    + apply Qle_bool_iff in E. constructor; [now constructor|].
      constructor; [exact E|].
      eapply Forall_impl; [|exact Hy]. simpl; intros a Ha.
      now apply Qle_trans with (Race_Score y).
    + assert (Hlt : Race_Score p < Race_Score y).
      { apply Qnot_le_lt. intros H. apply Qle_bool_iff in H. congruence. }
      constructor; [exact IH|].
      eapply Permutation_Forall; [symmetry; apply insert_desc_perm|].
      constructor; [now apply Qlt_le_weak | exact Hy].
Qed.

Lemma sort_by_race_score_sorted l : descending (sort_by_race_score l).
Proof.
  induction l as [|x l IH]; simpl; [constructor | now apply insert_desc_sorted].
Qed.

(** Predictions of one score keep their order (stability). *)
Lemma insert_desc_stable (s : Q) p l :
  filter (fun x => Qeq_bool (Race_Score x) s) (insert_desc p l)
  = filter (fun x => Qeq_bool (Race_Score x) s) (p :: l).
Proof.
  induction l as [|y l IH]; [reflexivity|].
  cbn [insert_desc].
  destruct (Qle_bool (Race_Score y) (Race_Score p)) eqn:E; [reflexivity|].
  cbn [filter] in *. rewrite IH.
  destruct (Qeq_bool (Race_Score p) s) eqn:Ep; [|reflexivity].
  destruct (Qeq_bool (Race_Score y) s) eqn:Ey; [|reflexivity].
  apply Qeq_bool_iff in Ep, Ey.
  assert (Hle : Race_Score y <= Race_Score p) by (rewrite Ep, Ey; apply Qle_refl).
  apply Qle_bool_iff in Hle. congruence.
Qed.

Lemma sort_by_race_score_stable (s : Q) l :
  filter (fun x => Qeq_bool (Race_Score x) s) (sort_by_race_score l)
  = filter (fun x => Qeq_bool (Race_Score x) s) l.
Proof.
  induction l as [|x l IH]; [reflexivity|].
  cbn [sort_by_race_score fold_right]. rewrite insert_desc_stable.
  cbn [filter]. fold (sort_by_race_score l). now rewrite IH.
Qed.

Lemma sort_by_race_score_fixed l : descending l -> sort_by_race_score l = l.
Proof.
  induction 1 as [|y l Hs IH Hy]; [reflexivity|].
  cbn [sort_by_race_score fold_right]. fold (sort_by_race_score l).
  rewrite IH. destruct l as [|z l]; [reflexivity|].
  cbn [insert_desc]. inversion Hy as [|? ? Hz _]; subst.
  apply Qle_bool_iff in Hz. now rewrite Hz.
Qed.

Lemma assign_ranks_nth (start : Z) l (i : nat) :
  nth_error (assign_ranks start l) i
  = option_map (fun p => set_Predicted_Position p (start + Z.of_nat i + 1))
               (nth_error l i).
Proof.
  revert start i; induction l as [|p l IH]; intros start [|i];
    cbn [assign_ranks nth_error option_map]; try reflexivity.
  - do 2 f_equal. lia.
  - rewrite IH. destruct (nth_error l i); cbn [option_map]; [|reflexivity].
    do 2 f_equal. lia.
Qed.

Lemma assign_ranks_positions (start : Z) l :
  map Predicted_Position (assign_ranks start l)
  = map (fun i => Some (start + Z.of_nat i)%Z) (seq 1 (List.length l)).
Proof.
  revert start; induction l as [|p l IH]; intros start; [reflexivity|].
  cbn [assign_ranks map List.length seq Predicted_Position
       set_Predicted_Position].
  f_equal. rewrite IH, <- (seq_shift (List.length l) 1), map_map.
  apply map_ext. intros i. f_equal. lia.
Qed.

Lemma assign_ranks_scores (start : Z) l :
  map Race_Score (assign_ranks start l) = map Race_Score l.
Proof.
  revert start; induction l as [|p l IH]; intros start; simpl;
    [reflexivity | now rewrite IH].
Qed.

Lemma assign_ranks_length (start : Z) l :
  List.length (assign_ranks start l) = List.length l.
Proof.
  revert start; induction l as [|p l IH]; intros start; simpl;
    [reflexivity | now rewrite IH].
Qed.

Lemma assign_ranks_twice (start : Z) l :
  assign_ranks start (assign_ranks start l) = assign_ranks start l.
Proof.
  revert start; induction l as [|p l IH]; intros start; simpl;
    [reflexivity | now rewrite IH].
Qed.

Lemma descending_scores l :
  descending l <-> StronglySorted (fun a b => b <= a) (map Race_Score l).
Proof.
  unfold descending. induction l as [|p l IH]; simpl.
  - split; constructor.
  - split; intros H; inversion H as [|? ? Hs Hall]; subst;
      (constructor; [now apply IH|]).
    + rewrite Forall_forall in *. intros x Hx.
      apply in_map_iff in Hx. destruct Hx as (q & <- & Hq). now apply Hall.
    + rewrite Forall_forall in *. intros q Hq. apply Hall. now apply in_map.
Qed.

Lemma assign_ranks_sorted (start : Z) l :
  descending l -> descending (assign_ranks start l).
Proof. rewrite !descending_scores, assign_ranks_scores. tauto. Qed.

(** A list sorted downwards that is a permutation of a strictly
    decreasing list is that list. *)
Lemma descending_perm_unique (l1 l2 : list Q) :
  StronglySorted (fun a b => b <= a) l1 ->
  StronglySorted (fun a b => b < a) l2 ->
  Permutation l1 l2 -> l1 = l2.
Proof.
  intros H1; revert l2; induction H1 as [|a l1 Hs1 IH Ha];
    intros l2 H2 Hp.
  - apply Permutation_nil in Hp. now subst.
  - destruct H2 as [|b l2 Hs2 Hb].
    + apply Permutation_sym, Permutation_nil in Hp. discriminate.
    + assert (Hab : a = b).
      { assert (Hina : In a (b :: l2))
          by (eapply Permutation_in; [exact Hp | now left]).
        assert (Hinb : In b (a :: l1))
          by (eapply Permutation_in; [symmetry; exact Hp | now left]).
        destruct Hina as [->|Hina]; [reflexivity|].
        destruct Hinb as [->|Hinb]; [reflexivity|].
        rewrite Forall_forall in Ha, Hb.
        specialize (Ha b Hinb). specialize (Hb a Hina). lra. }
      subst b. f_equal. apply IH; [exact Hs2|].
      now apply Permutation_cons_inv with a.
Qed.

End RankingFacts.

Lemma scores_19_to_0_decreasing :
  StronglySorted (fun a b => b < a) scores_19_to_0.
Proof. repeat constructor. Qed.

(** The sort and the enumeration that end [predict_race]. *)
Lemma rank_predictions_spec :
  forall predictions : list predict.Prediction,
    let ranked := predict.rank_predictions predictions in
    (exists sorted,
       Permutation sorted predictions /\
       descending sorted /\
       (forall s,
          filter (fun x => Qeq_bool (predict.Race_Score x) s) sorted
          = filter (fun x => Qeq_bool (predict.Race_Score x) s) predictions) /\
       List.length ranked = List.length sorted /\
       (forall i p,
          nth_error sorted i = Some p ->
          nth_error ranked i
          = Some (predict.set_Predicted_Position p (Z.of_nat i + 1))))
    /\
    map predict.Predicted_Position ranked
    = map (fun i => Some (Z.of_nat i)) (seq 1 (List.length predictions))
    /\
    predict.rank_predictions ranked = ranked
    /\
    (Permutation (map predict.Race_Score predictions) scores_19_to_0 ->
     forall p, In p ranked ->
       (predict.Race_Score p = 19 -> predict.Predicted_Position p = Some 1%Z) /\
       (predict.Race_Score p = 0 -> predict.Predicted_Position p = Some 20%Z)).
Proof.
  intros predictions ranked. subst ranked. unfold predict.rank_predictions.
  set (sorted := predict.sort_by_race_score predictions).
  assert (Hperm : Permutation sorted predictions)
    by apply sort_by_race_score_perm.
  assert (Hdesc : descending sorted) by apply sort_by_race_score_sorted.
  split; [|split; [|split]].
  - exists sorted. split; [exact Hperm|]. split; [exact Hdesc|].
    split; [intros s; apply sort_by_race_score_stable|].
    split; [apply assign_ranks_length|].
    intros i p Hi. rewrite assign_ranks_nth, Hi. reflexivity.
  - rewrite assign_ranks_positions, (Permutation_length Hperm).
    reflexivity.
  - rewrite (sort_by_race_score_fixed _ (assign_ranks_sorted 0 _ Hdesc)).
    apply assign_ranks_twice.
  - intros Hscores p Hin.
    assert (Heq : map predict.Race_Score sorted = scores_19_to_0).
    { apply descending_perm_unique.
      - now apply descending_scores.
      - exact scores_19_to_0_decreasing.
      - rewrite <- Hscores. now apply Permutation_map. }
    apply In_nth_error in Hin. destruct Hin as [i Hi].
    rewrite assign_ranks_nth in Hi.
    destruct (nth_error sorted i) as [p0|] eqn:E0; [|discriminate].
    injection Hi as <-.
    assert (Hs : nth_error scores_19_to_0 i = Some (predict.Race_Score p0))
      by (rewrite <- Heq; now apply map_nth_error).
    cbn [predict.set_Predicted_Position predict.Race_Score
         predict.Predicted_Position].
    do 20 (destruct i as [|i];
           [injection Hs as Hs; rewrite <- Hs;
            split; intros H; first [discriminate H | reflexivity]|]).
    destruct i; discriminate Hs.
Qed.

Section PredictRaceFacts.
Import predict.
Context {api : fastf1.LapsApi} {numpy : np.Api} {provider : SessionProvider}.

Lemma predict_all_each (self : Predictor) (year : Z) (event_name : string)
    (session_q practice_session : option fastf1.Session)
    (weather_override : option pyfloat) (driver_list : list string)
    (acc ps : list Prediction) :
  predict_all self year event_name session_q practice_session
    weather_override driver_list acc = Ok ps ->
  exists preds,
    ps = acc ++ preds /\
    Forall2 (fun d p => predict_one self year event_name session_q
                          practice_session weather_override d = Ok p)
            driver_list preds.
Proof.
  revert acc; induction driver_list as [|d l IH]; intros acc H;
    cbn [predict_all] in H.
  - injection H as <-. exists []. split; [now rewrite app_nil_r | constructor].
  - destruct (predict_one self year event_name session_q practice_session
                weather_override d) as [p|e] eqn:E; [|discriminate H].
    cbn [bind] in H. destruct (IH _ H) as (preds & -> & Hall).
    exists (p :: preds). split; [now rewrite <- app_assoc|].
    constructor; assumption.
Qed.

(** What [has_results] answers. *)
Lemma has_results_cases (session_q : option fastf1.Session) :
  (has_results session_q = Ok true /\ session_results session_q <> []) \/
  has_results session_q = Ok false \/
  (has_results session_q = Raise (AttributeError "empty") /\
   exists s, session_q = Some s /\ fastf1.results s = None).
Proof.
  unfold has_results, session_results.
  destruct session_q as [s|]; [|now right; left].
  destruct (fastf1.results s) as [[|r rs]|] eqn:E.
  - now right; left.
  - left. split; [reflexivity | discriminate].
  - right; right. split; [reflexivity|]. now exists s.
Qed.

Lemma has_results_nonempty (session_q : option fastf1.Session) :
  has_results session_q = Ok true -> session_results session_q <> [].
Proof.
  destruct (has_results_cases session_q) as [[_ H]|[H|[H _]]];
    [intros _; exact H | congruence | congruence].
Qed.

(** The first driver's prediction fails when the results cannot be
    tested or the qualifying estimator fails. *)
Lemma predict_all_raises_first (self : Predictor) (year : Z)
    (event_name : string) (session_q practice_session : option fastf1.Session)
    (weather_override : option pyfloat) (d : string) (l : list string)
    (acc : list Prediction) (e : exn) :
  (forall f, quali_model self f = Raise e) ->
  predict_all self year event_name session_q practice_session
    weather_override (d :: l) acc
  = match has_results session_q with
    | Ok _ => Raise e
    | Raise e' => Raise e'
    end.
Proof.
  intros H. cbn [predict_all]. unfold predict_one.
  destruct (has_results session_q) as [has|e']; [|reflexivity].
  cbn [bind]. unfold predict_driver.
  destruct (calculate_driver_stats self d) as [[? ?] ?].
  destruct (match practice_session with
            | Some _ => _
            | None => _
            end) as [[[? ?] ?] ?].
  rewrite H. reflexivity.
Qed.

Lemma predict_one_inv (self : Predictor) (year : Z) (event_name : string)
    (session_q practice_session : option fastf1.Session)
    (weather_override : option pyfloat) (d : string) (p : Prediction) :
  predict_one self year event_name session_q practice_session
    weather_override d = Ok p ->
  exists has p0,
    has_results session_q = Ok has /\
    predict_driver self d year event_name
      (if has
       then match filter (fun r => String.eqb (fastf1.Abbreviation r) d)
                         (session_results session_q) with
            | first :: _ => Some (fastf1.Position first)
            | [] => None
            end
       else None) practice_session weather_override = Ok p0 /\
    p = set_Driver p0 d.
Proof.
  unfold predict_one.
  destruct (has_results session_q) as [has|e]; [|discriminate]. cbn [bind].
  destruct (predict_driver _ _ _ _ _ _ _) as [p0|e] eqn:E; [|discriminate].
  cbn [bind]. intros H. injection H as <-. now exists has, p0.
Qed.

Lemma predict_one_driver (self : Predictor) (year : Z) (event_name : string)
    (session_q practice_session : option fastf1.Session)
    (weather_override : option pyfloat) (d : string) (p : Prediction) :
  predict_one self year event_name session_q practice_session
    weather_override d = Ok p ->
  Driver p = Some d.
Proof.
  intros H. destruct (predict_one_inv _ _ _ _ _ _ _ _ H)
    as (has & p0 & _ & _ & ->). reflexivity.
Qed.

Lemma assign_ranks_drivers (start : Z) (l : list Prediction) :
  map Driver (assign_ranks start l) = map Driver l.
Proof.
  revert start; induction l as [|p l IH]; intros start; simpl;
    [reflexivity | now rewrite IH].
Qed.

Lemma assign_ranks_In (start : Z) (l : list Prediction) (p : Prediction) :
  In p (assign_ranks start l) ->
  exists p0 i, In p0 l /\ p = set_Predicted_Position p0 i /\
               (start < i <= start + Z.of_nat (List.length l))%Z.
Proof.
  revert start; induction l as [|x l IH]; intros start; [intros []|].
  cbn [assign_ranks List.length]. intros [<-|Hin].
  - exists x, (start + 1)%Z. split; [now left|]. split; [reflexivity | lia].
  - destruct (IH _ Hin) as (p0 & i & H0 & -> & Hi).
    exists p0, i. split; [now right|]. split; [reflexivity | lia].
Qed.

Lemma rank_predictions_drivers (l : list Prediction) :
  Permutation (map Driver (rank_predictions l)) (map Driver l).
Proof.
  unfold rank_predictions. rewrite assign_ranks_drivers.
  apply Permutation_map, sort_by_race_score_perm.
Qed.

Lemma Forall2_drivers (f : string -> result Prediction)
    (l : list string) (preds : list Prediction) :
  (forall d p, f d = Ok p -> Driver p = Some d) ->
  Forall2 (fun d p => f d = Ok p) l preds ->
  map Driver preds = map Some l.
Proof.
  intros Hf. induction 1 as [|d p l preds Hp _ IH]; [reflexivity|].
  cbn [map]. now rewrite IH, (Hf _ _ Hp).
Qed.

(** A race prediction that returns is the ranking of the predictions of
    the loop over the drivers. *)
Lemma predict_race_inv (self : Predictor) (year : Z) (event_name : string)
    (driver_list : option (list string)) (weather_override : option pyfloat)
    (ranked : list Prediction) :
  predict_race self year event_name driver_list weather_override
  = Ok ranked ->
  let session_q := get_session_data year event_name "Q" false false in
  let practice_session :=
    match get_session_data year event_name "FP2" true true with
    | Some s => Some s
    | None => get_session_data year event_name "FP1" true true
    end in
  exists drivers preds,
    drivers <> [] /\
    match driver_list with
    | Some ((_ :: _) as given) => drivers = given
    | _ =>
        exists has,
          has_results session_q = Ok has /\
          drivers = if has
                    then map fastf1.Abbreviation (session_results session_q)
                    else fallback_drivers
    end /\
    predict_all self year event_name session_q practice_session
      weather_override drivers [] = Ok preds /\
    ranked = rank_predictions preds /\
    Forall2 (fun d p => predict_one self year event_name session_q
                          practice_session weather_override d = Ok p)
      drivers preds.
Proof.
  unfold predict_race. intros H. cbv zeta.
  destruct (match driver_list with
            | Some ((_ :: _) as given) => Ok given
            | _ => _
            end) as [drivers|e] eqn:Ed; [|discriminate H].
  cbn [bind] in H.
  destruct (predict_all _ _ _ _ _ _ drivers _) as [ps|e] eqn:E;
    [|discriminate H].
  cbn [bind] in H. injection H as <-.
  destruct (predict_all_each _ _ _ _ _ _ _ _ _ E) as (preds & -> & Hall).
  exists drivers, preds.
  assert (Hcase : match driver_list with
                  | Some ((_ :: _) as given) => drivers = given
                  | _ =>
                      exists has,
                        has_results
                          (get_session_data year event_name "Q" false false)
                        = Ok has /\
                        drivers
                        = if has
                          then map fastf1.Abbreviation
                                 (session_results
                                    (get_session_data year event_name "Q"
                                       false false))
                          else fallback_drivers
                  end).
  { destruct driver_list as [[|d ds]|].
    - destruct (has_results _) as [has|e]; [|discriminate Ed].
      cbn [bind] in Ed. injection Ed as <-. now exists has.
    - now injection Ed as <-.
    - destruct (has_results _) as [has|e]; [|discriminate Ed].
      cbn [bind] in Ed. injection Ed as <-. now exists has. }
  split; [|split; [exact Hcase|]].
  - destruct driver_list as [[|d ds]|];
      try (destruct Hcase as (has & Hhas & ->);
           destruct has;
           [apply has_results_nonempty in Hhas;
            destruct (session_results _); [now elim Hhas | discriminate]
           |discriminate]).
    subst drivers. discriminate.
  - split; [exact E|]. split; [reflexivity | exact Hall].
Qed.

End PredictRaceFacts.

(** C1. The ranking that [predict_race] returns is the list of the
    predictions made for its drivers, in the order of the driver list,
    sorted by race score, higher first, predictions of equal score in
    their input order, the prediction at index [i] receiving
    [Predicted_Position = i + 1], so that the positions read 1, 2, ...
    down the list; ranking the returned list again changes nothing; and
    when the scores are 19, 18, ..., 0 in any order, the prediction with
    score 19 is at position 1 and the one with score 0 at position 20. *)
Theorem ranking_by_race_score :
  forall {api : fastf1.LapsApi} {numpy : np.Api}
         {provider : predict.SessionProvider}
         (self : predict.Predictor) (year : Z) (event_name : string)
         (driver_list : option (list string))
         (weather_override : option pyfloat)
         (ranked : list predict.Prediction),
    predict.predict_race self year event_name driver_list weather_override
    = Ok ranked ->
    let session_q := predict.get_session_data year event_name "Q" false false in
    let practice_session :=
      match predict.get_session_data year event_name "FP2" true true with
      | Some s => Some s
      | None => predict.get_session_data year event_name "FP1" true true
      end in
    exists (drivers : list string) (predictions : list predict.Prediction),
      (forall d ds, driver_list = Some (d :: ds) -> drivers = d :: ds) /\
      predict.predict_all self year event_name session_q practice_session
        weather_override drivers [] = Ok predictions /\
      map predict.Driver predictions = map Some drivers /\
      (exists sorted,
         Permutation sorted predictions /\
         descending sorted /\
         (forall s,
            filter (fun x => Qeq_bool (predict.Race_Score x) s) sorted
            = filter (fun x => Qeq_bool (predict.Race_Score x) s)
                     predictions) /\
         List.length ranked = List.length sorted /\
         (forall i p,
            nth_error sorted i = Some p ->
            nth_error ranked i
            = Some (predict.set_Predicted_Position p (Z.of_nat i + 1))))
      /\
      map predict.Predicted_Position ranked
      = map (fun i => Some (Z.of_nat i)) (seq 1 (List.length predictions))
      /\
      predict.rank_predictions ranked = ranked
      /\
      (Permutation (map predict.Race_Score predictions) scores_19_to_0 ->
       forall p, In p ranked ->
         (predict.Race_Score p = 19 ->
          predict.Predicted_Position p = Some 1%Z) /\
         (predict.Race_Score p = 0 ->
          predict.Predicted_Position p = Some 20%Z)).
Proof.
  intros api numpy provider self year event_name driver_list weather_override
         ranked H session_q practice_session.
  destruct (predict_race_inv self year event_name driver_list
              weather_override ranked H)
    as (drivers & predictions & _ & Hcase & Hall & -> & Heach).
  fold session_q practice_session in Hall, Heach.
  exists drivers, predictions.
  split; [intros d ds ->; exact Hcase|]. split; [exact Hall|].
  split.
  { apply (Forall2_drivers
             (predict.predict_one self year event_name session_q
                practice_session weather_override)); [|exact Heach].
    intros d p Hp. exact (predict_one_driver _ _ _ _ _ _ _ _ Hp). }
  exact (rank_predictions_spec predictions).
Qed.

Lemma ranking_by_race_score_witness :
  exists ranked first last,
    predict.predict_race (api := fastf1_reference.api) (numpy := np_exact.api)
      (provider := sample_grid_provider) sample_grid_predictor 2024 "Monaco"
      (Some predict.fallback_drivers) None = Ok ranked /\
    nth_error ranked 0 = Some first /\
    predict.Driver first = Some "OCO"%string /\
    predict.Race_Score first = 19 /\
    predict.Predicted_Position first = Some 1%Z /\
    nth_error ranked 19 = Some last /\
    predict.Driver last = Some "VER"%string /\
    predict.Race_Score last = 0 /\
    predict.Predicted_Position last = Some 20%Z.
Proof.
  eexists. eexists. eexists.
  split; [vm_compute; reflexivity|].
  split; [reflexivity|]. split; [reflexivity|]. split; [reflexivity|].
  match goal with
  | |- predict.Predicted_Position ?first = _ /\
       nth_error ?ranked _ = _ /\ _ =>
      destruct (ranking_by_race_score (api := fastf1_reference.api)
                  (numpy := np_exact.api) (provider := sample_grid_provider)
                  sample_grid_predictor 2024%Z "Monaco"%string
                  (Some predict.fallback_drivers) None ranked
                  ltac:(vm_compute; reflexivity))
        as (drivers & predictions & Hgiven & Hall & _ & _ & _ & _ & Hscores);
      rewrite (Hgiven _ _ eq_refl) in Hall;
      vm_compute in Hall; injection Hall as <-;
      assert (Hperm : Permutation
                        (map predict.Race_Score
                           ltac:(match type of Hscores with
                                 | Permutation (map _ ?l) _ -> _ => exact l
                                 end))
                        scores_19_to_0)
        by (apply Permutation_sym;
            exact (Permutation_rev scores_19_to_0));
      pose proof (Hscores Hperm) as Hpos
  end.
  split; [|split; [reflexivity|split; [reflexivity|split; [reflexivity|]]]].
  - apply (Hpos _ ltac:(left; reflexivity)). reflexivity.
  - apply (Hpos _ ltac:(do 19 right; left; reflexivity)). reflexivity.
Defined.

(** ** Sprint classification *)

Lemma is_sprint_weekend_iff (session : option fastf1.Session) :
  predict.is_sprint_weekend session = true
  <-> event_format session = Some "sprint"%string.
Proof.
  unfold predict.is_sprint_weekend, event_format.
  destruct session as [s|]; [|split; discriminate].
  destruct (fastf1.event s) as [ev|]; [|split; discriminate].
  destruct (fastf1.EventFormat ev) as [f|]; [|split; discriminate].
  rewrite String.eqb_eq. split; congruence.
Qed.

(** In every prediction returned by [predict_driver], the sprint
    classification is the output of the sprint model (one of [Top3],
    [Points], [NoPoints]) when the format of the event of the qualifying
    session is ["sprint"], and ["N/A"] in every other case, the format
    being unavailable included. *)
Lemma sprint_class_follows_format_test :
  forall {api : fastf1.LapsApi} {numpy : np.Api}
         {provider : predict.SessionProvider}
         (self : predict.Predictor) (driver_name : string) (season : Z)
         (grand_prix : string) (actual_quali_pos : option pyfloat)
         (practice_session : option fastf1.Session)
         (weather_override : option pyfloat) (pred : predict.Prediction),
    predict.predict_driver self driver_name season grand_prix
      actual_quali_pos practice_session weather_override = Ok pred ->
    let format :=
      event_format
        (predict.get_session_data season grand_prix "Q" true true) in
    (format = Some "sprint"%string ->
     exists features c,
       predict.sprint_model self features = Ok c /\
       predict.Sprint_Class pred = predict.Class c /\
       In c [sprint.Top3; sprint.Points; sprint.NoPoints])
    /\
    (format <> Some "sprint"%string ->
     predict.Sprint_Class pred = predict.NotApplicable).
Proof.
  intros api numpy provider self driver_name season grand_prix actual_quali_pos
         practice_session weather_override pred H format.
  subst format. rewrite <- is_sprint_weekend_iff.
  unfold predict.predict_driver in H.
  destruct (predict.calculate_driver_stats self driver_name)
    as [[driver_avg_pos driver_dnf_rate] rel_score].
  destruct (match practice_session with
            | Some _ => _
            | None => _
            end) as [[[race_pace tire_deg] top_speed] rain_prob].
  set (quali_features := predict.mkQualiFeatures _ _ _ _ _ _) in H.
  destruct (predict.quali_model self quali_features) as [q_pred|e];
    [|discriminate H].
  cbn [bind] in H.
  destruct (predict.is_sprint_weekend
              (predict.get_session_data season grand_prix "Q" true true)).
  - destruct (predict.sprint_model self quali_features) as [c|e] eqn:Es;
      [|discriminate H].
    cbn [bind] in H.
    destruct (predict.race_model self _) as [r_pred|e]; [|discriminate H].
    cbn [bind] in H. injection H as <-. split; [|intros C; now elim C].
    intros _. exists quali_features, c. split; [exact Es|].
    split; [reflexivity|]. destruct c; simpl; auto.
  - cbn [bind] in H.
    destruct (predict.race_model self _) as [r_pred|e]; [|discriminate H].
    cbn [bind] in H. injection H as <-. split; [discriminate|].
    reflexivity.
Qed.

(** C9. The sprint classification follows the test
    [EventFormat == 'sprint'] and nothing else: on a sprint weekend whose
    format is ["sprint_shootout"] or ["sprint_qualifying"], formats that
    the comment above the test names as sprint weekends, every
    prediction reports ["N/A"], whatever the sprint model would
    answer. *)
Theorem sprint_class_missing_on_later_sprint_formats :
  forall {api : fastf1.LapsApi} {numpy : np.Api}
         {provider : predict.SessionProvider}
         (self : predict.Predictor) (driver_name : string) (season : Z)
         (grand_prix : string) (actual_quali_pos : option pyfloat)
         (practice_session : option fastf1.Session)
         (weather_override : option pyfloat) (pred : predict.Prediction)
         (format : string),
    predict.predict_driver self driver_name season grand_prix
      actual_quali_pos practice_session weather_override = Ok pred ->
    event_format (predict.get_session_data season grand_prix "Q" true true)
    = Some format ->
    is_sprint_format format = true ->
    format <> "sprint"%string ->
    predict.Sprint_Class pred = predict.NotApplicable.
Proof.
  intros api numpy provider self driver_name season grand_prix
         actual_quali_pos practice_session weather_override pred format
         H Hformat _ Hne.
  apply (proj2 (sprint_class_follows_format_test self driver_name season
                  grand_prix actual_quali_pos practice_session
                  weather_override pred H)).
  rewrite Hformat. congruence.
Qed.

Lemma sprint_class_missing_on_later_sprint_formats_witness :
  exists pred features c,
    predict.predict_driver (api := fastf1_reference.api) (numpy := np_exact.api)
      (provider := sample_provider "sprint_qualifying")
      sample_predictor "VER" 2024 "Miami" None None None = Ok pred /\
    is_sprint_format "sprint_qualifying" = true /\
    predict.sprint_model sample_predictor features = Ok c /\
    predict.Sprint_Class pred = predict.NotApplicable.
Proof.
  eexists. exists (predict.mkQualiFeatures NaN 0 NaN NaN NaN NaN).
  exists sprint.Points.
  split; [reflexivity|]. split; [reflexivity|]. split; [reflexivity|].
  apply (sprint_class_missing_on_later_sprint_formats
           (api := fastf1_reference.api) (numpy := np_exact.api)
           (provider := sample_provider "sprint_qualifying")
           sample_predictor "VER"%string 2024%Z "Miami"%string
           None None None _ "sprint_qualifying"%string eq_refl eq_refl
           eq_refl).
  discriminate.
Defined.

(* ================================================================== *)
(** * Part III: further properties of the code                         *)
(* ================================================================== *)

(** ** Means and bounds *)

Lemma Qsum_between (lo hi : Q) (vs : list Q) :
  Forall (fun v => lo <= v /\ v <= hi) vs ->
  inject_Z (Z.of_nat (List.length vs)) * lo <= pd.Qsum vs /\
  pd.Qsum vs <= inject_Z (Z.of_nat (List.length vs)) * hi.
Proof.
  induction 1 as [|v vs [Hlo Hhi] _ [IHlo IHhi]].
  - rewrite Qsum_nil. cbn [List.length Z.of_nat inject_Z].
    rewrite !Qmult_0_l. split; apply Qle_refl.
  - rewrite Qsum_cons, count_cons, !Qmult_plus_distr_l, !Qmult_1_l. lra.
Qed.

Lemma mean_between (lo hi : Q) (vs : list Q) :
  vs <> [] -> Forall (fun v => lo <= v /\ v <= hi) vs ->
  lo <= pd.Qsum vs / inject_Z (Z.of_nat (List.length vs)) /\
  pd.Qsum vs / inject_Z (Z.of_nat (List.length vs)) <= hi.
Proof.
  intros Hne Hall. destruct (Qsum_between lo hi vs Hall) as [Hlo Hhi].
  assert (Hn : 0 < inject_Z (Z.of_nat (List.length vs))).
  { destruct vs; [congruence|]. unfold Qlt; simpl; lia. }
  split.
  - apply Qle_shift_div_l; [exact Hn|]. rewrite Qmult_comm. exact Hlo.
  - apply Qle_shift_div_r; [exact Hn|]. rewrite Qmult_comm. exact Hhi.
Qed.

Lemma dropna_In (col : list pyfloat) (q : Q) :
  In q (pd.dropna col) <-> In (Num q) col.
Proof.
  induction col as [|[x|] col IH]; simpl.
  - tauto.
  - rewrite IH. split; intros [H|H]; auto; left; congruence.
  - rewrite IH. split; [auto | intros [H|H]; [discriminate | exact H]].
Qed.

(** [Series.mean] of a column whose numbers lie in [lo, hi] lies there
    too, when it is a number. *)
Lemma pd_mean_within (lo hi : Q) (col : list pyfloat) :
  Forall (within lo hi) col -> within lo hi (pd.mean col).
Proof.
  intros Hall. unfold pd.mean.
  destruct (pd.dropna col) as [|v vs] eqn:E; [exact I|].
  unfold fl, within. rewrite Qred_correct. apply mean_between; [discriminate|].
  rewrite <- E. apply Forall_forall. intros q Hq. apply dropna_In in Hq.
  rewrite Forall_forall in Hall. exact (Hall _ Hq).
Qed.

Lemma tail_In {A} (n : Z) (l : list A) (x : A) :
  In x (pd.tail n l) -> In x l.
Proof.
  unfold pd.tail. destruct (n =? 0)%Z; [intros []|].
  destruct (0 <? n)%Z; intros H.
  - rewrite <- (firstn_skipn (List.length l - Z.to_nat n) l).
    apply in_or_app; right; exact H.
  - rewrite <- (firstn_skipn (Z.to_nat (- n)) l).
    apply in_or_app; right; exact H.
Qed.

Lemma fraction_zero_iff (k n : Z) :
  (0 < n)%Z -> (Qred (inject_Z k / inject_Z n) = 0 <-> k = 0%Z).
Proof.
  intros Hn.
  assert (Hn' : 0 < inject_Z n) by (unfold Qlt; simpl; lia).
  split.
  - intros H. assert (E : inject_Z k / inject_Z n == 0)
      by (rewrite <- (Qred_correct (inject_Z k / inject_Z n)), H; reflexivity).
    apply Qmult_integral in E. destruct E as [E|E].
    + unfold Qeq in E; simpl in E. lia.
    + pose proof (Qinv_lt_0_compat _ Hn') as Hi. rewrite E in Hi.
      exfalso. revert Hi. apply Qlt_irrefl.
  - intros ->. apply (Qred_complete (inject_Z 0 / inject_Z n) 0).
    unfold Qdiv. apply Qmult_0_l.
Qed.

Lemma fraction_one_iff (k n : Z) :
  (0 < n)%Z -> (Qred (inject_Z k / inject_Z n) = 1 <-> k = n).
Proof.
  intros Hn.
  assert (Hn' : ~ inject_Z n == 0) by (unfold Qeq; simpl; lia).
  split.
  - intros H. assert (E : inject_Z k / inject_Z n == 1)
      by (rewrite <- (Qred_correct (inject_Z k / inject_Z n)), H; reflexivity).
    assert (E' : inject_Z k == inject_Z n).
    { rewrite <- (Qmult_1_l (inject_Z n)), <- E. field. exact Hn'. }
    unfold Qeq in E'; simpl in E'. lia.
  - intros ->. apply (Qred_complete (inject_Z n / inject_Z n) 1).
    field. exact Hn'.
Qed.

(** ** Driver features, continued *)

Lemma counts_as_dnf_false_iff (status : string) :
  driver.counts_as_dnf status = false <-> classified_finish status.
Proof.
  unfold classified_finish.
  pose proof (counts_as_dnf_iff status) as H.
  destruct (driver.counts_as_dnf status).
  - split; [discriminate|]. intros C. exfalso.
    destruct (proj1 H eq_refl) as [H1 H2]. destruct C; auto.
  - split; [intros _ | reflexivity].
    destruct (String.eqb_spec status "Finished") as [E|E]; [now left|].
    right. rewrite <- contains_iff.
    destruct (pystr.contains "+" status) eqn:Ec; [reflexivity|].
    exfalso. assert (false = true); [|discriminate].
    apply H. split; [exact E|]. rewrite <- contains_iff, Ec. discriminate.
Qed.

(** X1. The DNF rate is always a number between 0 and 1; it is 0 exactly
    when every entry before the current round is a classified finish,
    and 1 exactly when there are such entries and none of them is. *)
Theorem dnf_rate_bounds :
  forall (driver_results : list ResultRow) (current_round : Z),
    let rate := driver.calculate_driver_dnf_rate driver_results current_round in
    (exists q, rate = Num q /\ 0 <= q /\ q <= 1)
    /\
    (rate = Num 0 <->
     forall r, In r driver_results -> (RoundNumber r < current_round)%Z ->
               classified_finish (Status r))
    /\
    (rate = Num 1 <->
     (exists r, In r driver_results /\ (RoundNumber r < current_round)%Z) /\
     forall r, In r driver_results -> (RoundNumber r < current_round)%Z ->
               ~ classified_finish (Status r)).
Proof.
  intros rows cr rate. subst rate.
  unfold driver.calculate_driver_dnf_rate.
  remember (filter (fun r => (RoundNumber r <? cr)%Z) rows) as prior eqn:Ep.
  assert (Hprior : forall r, In r prior <->
                             In r rows /\ (RoundNumber r < cr)%Z).
  { intros r. subst prior. rewrite filter_In, Z.ltb_lt. tauto. }
  clear Ep. rewrite count_dnfs_filter.
  remember (filter (fun r => driver.counts_as_dnf (Status r)) prior)
    as dnfs eqn:Ed.
  assert (Hle : (List.length dnfs <= List.length prior)%nat)
    by (subst dnfs; apply filter_length_le).
  destruct (pd.empty prior) eqn:Hemp.
  - apply empty_true_iff in Hemp. split; [|split].
    + exists 0. repeat split; [apply Qle_refl | discriminate].
    + split; [|reflexivity]. intros _ r Hr Hlt.
      assert (Hin : In r prior) by (apply Hprior; now split).
      rewrite Hemp in Hin. destruct Hin.
    + split; [discriminate|]. intros [[r [Hr Hlt]] _].
      assert (Hin : In r prior) by (apply Hprior; now split).
      rewrite Hemp in Hin. destruct Hin.
  - apply empty_false_iff in Hemp.
    assert (Hpos : (0 < Z.of_nat (List.length prior))%Z).
    { destruct prior; [congruence|]. cbn [List.length]. lia. }
    unfold fl. split; [|split].
    + eexists; split; [reflexivity|]. rewrite Qred_correct.
      apply fraction_in_unit; lia.
    + split.
      * intros H. injection H as H. apply fraction_zero_iff in H; [|exact Hpos].
        intros r Hr Hlt. apply counts_as_dnf_false_iff.
        assert (Hd : dnfs = [])
          by (destruct dnfs; [reflexivity | cbn [List.length] in H; lia]).
        rewrite Ed, filter_nil_iff in Hd.
        apply Hd, Hprior. now split.
      * intros H. f_equal. apply fraction_zero_iff; [exact Hpos|].
        assert (Hd : dnfs = []).
        { subst dnfs. apply filter_nil_iff. intros r Hr.
          apply counts_as_dnf_false_iff. apply Hprior in Hr. now apply H. }
        rewrite Hd. reflexivity.
    + split.
      * intros H. injection H as H. apply fraction_one_iff in H; [|exact Hpos].
        apply Nat2Z.inj in H. split.
        { destruct prior as [|r prior'']; [discriminate|].
          exists r. apply Hprior. now left. }
        intros r Hr Hlt Hc. apply counts_as_dnf_false_iff in Hc.
        assert (Hin : In r prior) by (apply Hprior; now split).
        subst dnfs. clear - H Hin Hc.
        induction prior as [|x l IH]; [exact Hin|].
        simpl in H. destruct (driver.counts_as_dnf (Status x)) eqn:Ex.
        { simpl in H. destruct Hin as [->|Hin]; [congruence|]. apply IH; auto. }
        { pose proof (filter_length_le
                        (fun r => driver.counts_as_dnf (Status r)) l).
          simpl in H. lia. }
      * intros [_ H]. f_equal. apply fraction_one_iff; [exact Hpos|].
        subst dnfs. do 2 f_equal.
        assert (Hall : forall r, In r prior ->
                   driver.counts_as_dnf (Status r) = true).
        { intros r Hr. apply Hprior in Hr. destruct Hr as [Hr Hlt].
          specialize (H r Hr Hlt). rewrite <- counts_as_dnf_false_iff in H.
          now destruct (driver.counts_as_dnf (Status r)). }
        clear - Hall. induction prior as [|x l IH]; [reflexivity|].
        simpl. rewrite (Hall x (or_introl eq_refl)). f_equal.
        apply IH. intros r Hr. apply Hall. now right.
Qed.

Lemma dnf_rate_bounds_witness :
  (forall r, In r sample_history -> (RoundNumber r < 2)%Z ->
             classified_finish (Status r)) /\
  driver.calculate_driver_dnf_rate sample_history 2 = Num 0.
Proof.
  assert (H : forall r, In r sample_history -> (RoundNumber r < 2)%Z ->
                        classified_finish (Status r)).
  { intros r [<-|[<-|[<-|[<-|[]]]]] Hlt; simpl in Hlt; try lia.
    now left. }
  split; [exact H|].
  exact (proj2 (proj1 (proj2 (dnf_rate_bounds sample_history 2))) H).
Defined.

(** X2. The average position is [nan] or lies between any two bounds that
    enclose the positions of the entries before the current round: later
    entries and entries without a position never move it outside. *)
Theorem avg_position_within_range :
  forall (driver_results : list ResultRow) (current_round window : Z)
         (lo hi : Q),
    (forall r, In r driver_results -> (RoundNumber r < current_round)%Z ->
               within lo hi (Position r)) ->
    within lo hi
      (driver.calculate_driver_season_avg_position
         driver_results current_round window).
Proof.
  intros rows cr w lo hi H.
  unfold driver.calculate_driver_season_avg_position.
  destruct (pd.empty _); [exact I|].
  apply pd_mean_within, Forall_forall. intros x Hx.
  apply in_map_iff in Hx. destruct Hx as (r & <- & Hr).
  apply tail_In in Hr.
  apply (Permutation_in _ (sort_values_perm RoundNumber _)) in Hr.
  apply filter_In in Hr. destruct Hr as [Hr Hlt].
  apply H; [exact Hr | now apply Z.ltb_lt].
Qed.

Lemma avg_position_within_range_witness :
  (forall r, In r sample_history -> (RoundNumber r < 4)%Z ->
             within 3 5 (Position r)) /\
  within 3 5 (driver.calculate_driver_season_avg_position sample_history 4 5).
Proof.
  assert (H : forall r, In r sample_history -> (RoundNumber r < 4)%Z ->
                        within 3 5 (Position r)).
  { intros r [<-|[<-|[<-|[<-|[]]]]] Hlt; simpl in *; try lia;
      try exact I; split; discriminate. }
  split; [exact H|].
  exact (avg_position_within_range sample_history 4 5 3 5 H).
Defined.

(** X3. The teammate delta is antisymmetric: when the delta of a driver
    to a teammate is [x], the delta of the teammate to the driver is
    [-x]; and the delta of a driver to themselves is 0.0 whenever the
    laps can be read. *)
Theorem qualifying_delta_antisymmetric :
  forall {api : fastf1.LapsApi} (session : fastf1.Session) (a b : string),
    a <> ""%string -> b <> ""%string ->
    (forall x,
       driver.calculate_qualifying_delta_to_teammate session a (Some b)
       = Ok (Num x) ->
       exists y,
         driver.calculate_qualifying_delta_to_teammate session b (Some a)
         = Ok (Num y) /\ y == - x)
    /\
    (forall session_laps,
       fastf1.laps session = Ok session_laps ->
       driver.calculate_qualifying_delta_to_teammate session a (Some a)
       = Ok (Num 0)).
Proof.
  intros api session a b Ha Hb.
  unfold driver.calculate_qualifying_delta_to_teammate. simpl driver.falsy.
  replace (String.eqb a "") with false by (symmetry; now apply String.eqb_neq).
  replace (String.eqb b "") with false by (symmetry; now apply String.eqb_neq).
  split.
  - intros x. destruct (fastf1.laps session) as [session_laps|e];
      [|discriminate]. cbn [bind].
    rewrite (orb_comm (pd.empty (fastf1.pick_drivers session_laps b))).
    destruct (pd.empty (fastf1.pick_drivers session_laps a)
              || pd.empty (fastf1.pick_drivers session_laps b)).
    { intros H; injection H as <-. exists 0. split; reflexivity. }
    destruct (fastf1.pick_fastest (fastf1.pick_drivers session_laps a))
      as [fa|];
      destruct (fastf1.pick_fastest (fastf1.pick_drivers session_laps b))
      as [fb|];
      try (intros H; injection H as <-; exists 0; split; reflexivity).
    destruct (fastf1.LapTime fa) as [ta|];
      destruct (fastf1.LapTime fb) as [tb|];
      try (intros H; injection H as <-; exists 0; split; reflexivity).
    intros H. assert (Hx : Qred (ta - tb) = x) by (unfold fl in H; congruence).
    exists (Qred (tb - ta)). split; [reflexivity|].
    rewrite <- Hx, !Qred_correct. ring.
  - intros session_laps ->. cbn [bind]. rewrite orb_diag.
    destruct (pd.empty (fastf1.pick_drivers session_laps a)); [reflexivity|].
    destruct (fastf1.pick_fastest (fastf1.pick_drivers session_laps a))
      as [fa|]; [|reflexivity].
    destruct (fastf1.LapTime fa) as [ta|]; [|reflexivity].
    unfold fl. do 2 f_equal. apply (Qred_complete (ta - ta) 0). ring.
Qed.

Lemma qualifying_delta_antisymmetric_witness :
  "16"%string <> ""%string /\ "55"%string <> ""%string /\
  driver.calculate_qualifying_delta_to_teammate
    (api := fastf1_reference.api) sample_qualifying "16" (Some "55"%string)
  = Ok (Num (-1)) /\
  (exists y,
     driver.calculate_qualifying_delta_to_teammate
       (api := fastf1_reference.api) sample_qualifying "55"
       (Some "16"%string) = Ok (Num y) /\ y == - (-1)) /\
  driver.calculate_qualifying_delta_to_teammate
    (api := fastf1_reference.api) sample_qualifying "16" (Some "16"%string)
  = Ok (Num 0).
Proof.
  assert (Ha : "16"%string <> ""%string) by discriminate.
  assert (Hb : "55"%string <> ""%string) by discriminate.
  split; [exact Ha|]. split; [exact Hb|]. split; [reflexivity|]. split.
  - exact (proj1 (qualifying_delta_antisymmetric
                    (api := fastf1_reference.api)
                    sample_qualifying "16" "55" Ha Hb) (-1) eq_refl).
  - exact (proj2 (qualifying_delta_antisymmetric
                    (api := fastf1_reference.api)
                    sample_qualifying "16" "55" Ha Hb) _ eq_refl).
Defined.

(** ** Constructor features, continued *)

Lemma filter_all {A} (f : A -> bool) (l : list A) :
  (forall x, In x l -> f x = true) -> filter f l = l.
Proof.
  induction l as [|x l IH]; intros H; simpl; [reflexivity|].
  rewrite (H x (or_introl eq_refl)). f_equal. apply IH.
  intros y Hy. apply H. now right.
Qed.

(** X4. A team none of whose entries before the current round names a
    mechanical failure has reliability exactly 1.0, whatever the window;
    a team all of whose prior entries name one has, for a positive window,
    reliability exactly 0.0. *)
Theorem reliability_score_extremes :
  forall (constructor_results : list ResultRow) (current_round window : Z),
    let score :=
      constructor.calculate_reliability_score
        constructor_results current_round window in
    ((forall r, In r constructor_results ->
                (RoundNumber r < current_round)%Z ->
                ~ names_mechanical_failure (Status r)) ->
     score = Num 1)
    /\
    ((0 < window)%Z ->
     (exists r, In r constructor_results /\
                (RoundNumber r < current_round)%Z) ->
     (forall r, In r constructor_results ->
                (RoundNumber r < current_round)%Z ->
                names_mechanical_failure (Status r)) ->
     score = Num 0).
Proof.
  intros rows cr w score. subst score.
  unfold constructor.calculate_reliability_score.
  set (prior := filter (fun r => (RoundNumber r <? cr)%Z) rows).
  set (recent := pd.tail (w * 2) (pd.sort_values RoundNumber prior)).
  assert (Hrecent : forall r, In r recent ->
                              In r rows /\ (RoundNumber r < cr)%Z).
  { intros r Hr. apply tail_In in Hr.
    apply (Permutation_in _ (sort_values_perm RoundNumber _)) in Hr.
    apply filter_In in Hr. rewrite Z.ltb_lt in Hr. exact Hr. }
  rewrite count_failures_filter. split.
  - intros H. destruct (pd.empty _); [reflexivity|].
    destruct (Z.of_nat (List.length recent) =? 0)%Z; [reflexivity|].
    replace (filter (fun r => constructor.is_mechanical (Status r)) recent)
      with (@nil ResultRow).
    + unfold fl. f_equal.
      apply (Qred_complete (1 - inject_Z 0 / _) 1).
      unfold Qdiv. change (inject_Z 0) with 0. rewrite Qmult_0_l. ring.
    + symmetry. apply filter_nil_iff. intros r Hr.
      destruct (Hrecent r Hr) as [Hin Hlt]. specialize (H r Hin Hlt).
      rewrite <- is_mechanical_iff in H.
      now destruct (constructor.is_mechanical (Status r)).
  - intros Hw Hex H.
    pose proof (@prior_not_nil _ _ Hex) as Hne. fold prior in Hne.
    pose proof (sort_values_not_nil RoundNumber prior Hne) as Hs.
    apply empty_false_iff in Hs. rewrite Hs.
    destruct (tail_suffix (w * 2) (pd.sort_values RoundNumber prior))
      as [older [_ Hlen]]; [lia|]. fold recent in Hlen.
    rewrite (Permutation_length (sort_values_perm RoundNumber prior)) in Hlen.
    assert (Hpos : (0 < Z.of_nat (List.length recent))%Z).
    { rewrite Hlen. destruct prior; [congruence|]. cbn [List.length]. lia. }
    replace (Z.of_nat (List.length recent) =? 0)%Z with false
      by (symmetry; apply Z.eqb_neq; lia).
    rewrite filter_all.
    + unfold fl. f_equal.
      apply (Qred_complete (1 - _ / _) 0).
      field. unfold Qeq; simpl; lia.
    + intros r Hr. destruct (Hrecent r Hr) as [Hin Hlt].
      apply is_mechanical_iff. now apply H.
Qed.

Lemma reliability_score_extremes_witness :
  (forall r, In r sample_team_history -> (RoundNumber r < 1)%Z ->
             ~ names_mechanical_failure (Status r)) /\
  constructor.calculate_reliability_score sample_team_history 1 10 = Num 1 /\
  (0 < 1)%Z /\
  (exists r, In r (skipn 1 (firstn 3 sample_team_history)) /\
             (RoundNumber r < 3)%Z) /\
  (forall r, In r (skipn 1 (firstn 3 sample_team_history)) ->
             (RoundNumber r < 3)%Z ->
             names_mechanical_failure (Status r)) /\
  constructor.calculate_reliability_score
    (skipn 1 (firstn 3 sample_team_history)) 3 1 = Num 0.
Proof.
  assert (H1 : forall r, In r sample_team_history -> (RoundNumber r < 1)%Z ->
                         ~ names_mechanical_failure (Status r)).
  { intros r [<-|[<-|[<-|[<-|[]]]]] Hlt; simpl in Hlt; lia. }
  assert (Hex : exists r, In r (skipn 1 (firstn 3 sample_team_history)) /\
                          (RoundNumber r < 3)%Z)
    by (eexists; split; [left; reflexivity | reflexivity]).
  assert (H2 : forall r, In r (skipn 1 (firstn 3 sample_team_history)) ->
                         (RoundNumber r < 3)%Z ->
                         names_mechanical_failure (Status r)).
  { intros r [<-|[<-|[]]] _; apply is_mechanical_iff; reflexivity. }
  split; [exact H1|]. split.
  - exact (proj1 (reliability_score_extremes sample_team_history 1 10) H1).
  - split; [lia|]. split; [exact Hex|]. split; [exact H2|].
    exact (proj2 (reliability_score_extremes
                    (skipn 1 (firstn 3 sample_team_history)) 3 1)
             ltac:(lia) Hex H2).
Defined.

(** X5. [calculate_constructor_standing] raises in exactly three cases,
    always the [NameError] of the unbound [np]: no table, an empty table,
    or, from the second round on, a table without a row for the team and
    the previous round.  A value it returns is 0 at the first round and
    otherwise the position of a row for that team and the previous
    round, never another team's or another round's. *)
Theorem standing_raises_exactly_when :
  forall (standings : option (list StandingRow)) (team_name : string)
         (current_round : Z),
    let result :=
      constructor.calculate_constructor_standing
        standings team_name current_round in
    (forall e, result = Raise e -> e = NameError "np")
    /\
    ((exists e, result = Raise e) <->
     standings = None \/ standings = Some [] \/
     ((1 <= current_round - 1)%Z /\
      exists df, standings = Some df /\
                 forall r, In r df ->
                           ~ standing_row_of team_name (current_round - 1) r))
    /\
    (forall v, result = Ok v ->
       ((current_round - 1 < 1)%Z /\ v = Num 0) \/
       exists df r,
         standings = Some df /\ In r df /\
         standing_row_of team_name (current_round - 1) r /\
         v = standing_Position r).
Proof.
  intros standings team cr result. subst result.
  unfold constructor.calculate_constructor_standing, constructor.np_nan.
  destruct standings as [df|].
  2:{ split; [intros e H; congruence|]. split; [|discriminate].
      split; [auto | intros _; eexists; reflexivity]. }
  destruct df as [|r0 df'].
  { split; [intros e H; simpl in H; congruence|]. split; [|discriminate].
    split; [auto | intros _; eexists; reflexivity]. }
  set (df := r0 :: df'). simpl pd.empty. cbv iota.
  destruct (Z.ltb_spec (cr - 1) 1) as [Hlt|Hge].
  { split; [discriminate|]. split.
    - split; [intros [e H]; discriminate|].
      intros [H|[H|[H _]]]; [discriminate | discriminate | lia].
    - intros v H. injection H as <-. left. split; [exact Hlt | reflexivity]. }
  set (matches := fun r => (standing_RoundNumber r =? cr - 1)%Z
                           && String.eqb (standing_TeamName r) team).
  assert (Hm : forall r, matches r = true <-> standing_row_of team (cr - 1) r).
  { intros r. unfold matches, standing_row_of.
    rewrite andb_true_iff, Z.eqb_eq, String.eqb_eq. tauto. }
  destruct (filter matches df) as [|first rest] eqn:Ef.
  - split; [intros e H; congruence|]. split; [|discriminate].
    split; [|intros _; eexists; reflexivity].
    intros _. right. right. split; [exact Hge|].
    exists df. split; [reflexivity|]. intros r Hr Hrow.
    apply Hm in Hrow. rewrite filter_nil_iff in Ef.
    rewrite (Ef r Hr) in Hrow. discriminate.
  - assert (Hin : In first (filter matches df)) by (rewrite Ef; now left).
    apply filter_In in Hin. destruct Hin as [Hin Hmatch].
    split; [discriminate|]. split.
    + split; [intros [e H]; discriminate|].
      intros [H|[H|[_ (df0 & H & Hnone)]]]; try discriminate.
      injection H as <-. exfalso. apply (Hnone first Hin). now apply Hm.
    + intros v H. injection H as <-. right. exists df, first.
      split; [reflexivity|]. split; [exact Hin|].
      split; [now apply Hm | reflexivity].
Qed.

Lemma standing_raises_exactly_when_witness :
  (1 <= 3 - 1)%Z /\
  (forall r, In r sample_standings -> ~ standing_row_of "Ferrari" (3 - 1) r) /\
  (exists e,
     constructor.calculate_constructor_standing
       (Some sample_standings) "Ferrari" 3 = Raise e) /\
  constructor.calculate_constructor_standing
    (Some sample_standings) "Mercedes" 3 = Ok (Num 3).
Proof.
  assert (Hnone : forall r, In r sample_standings ->
                            ~ standing_row_of "Ferrari" (3 - 1) r).
  { intros r [<-|[<-|[<-|[]]]] [H1 H2]; simpl in *;
      first [lia | discriminate]. }
  split; [lia|]. split; [exact Hnone|]. split; [|reflexivity].
  apply (proj2 (proj1 (proj2 (standing_raises_exactly_when
                                (Some sample_standings) "Ferrari" 3)))).
  right. right. split; [lia|]. exists sample_standings.
  split; [reflexivity | exact Hnone].
Defined.

(** ** Practice pace, continued *)

Section PracticeMore.
Import fastf1.
Context {api : LapsApi} {numpy : np.Api}.

Lemma rain_probability_unit (session : Session) :
  exists q, practice.rain_probability session = Num q /\ 0 <= q /\ q <= 1.
Proof.
  unfold practice.rain_probability.
  destruct (weather_data session) as [weather|];
    [|exists 0; repeat split; [apply Qle_refl | discriminate]].
  destruct (Z.ltb_spec 0 (Z.of_nat (List.length weather))) as [Hpos|_];
    [|exists 0; repeat split; [apply Qle_refl | discriminate]].
  eexists; split; [reflexivity|]. rewrite Qred_correct.
  apply fraction_in_unit; [|exact Hpos].
  split; [lia|]. apply Nat2Z.inj_le, filter_length_le.
Qed.

(** The three shapes of a result of the [try] block. *)
Lemma race_pace_body_shape (session : Session) (driver : string)
    (min_laps : Z) (t : practice.pace_tuple) :
  practice.race_pace_body session driver min_laps = Ok t ->
  exists top_speed,
    (t = (None, None, top_speed, Some (practice.rain_probability session)))
    \/
    (exists pace deg,
       t = (Some pace, Some deg, top_speed,
            Some (practice.rain_probability session))).
Proof.
  unfold practice.race_pace_body.
  destruct (laps session) as [session_laps|e]; [|discriminate]. cbn [bind].
  destruct (pd.empty (pick_drivers session_laps driver)).
  { intros H; injection H as <-. exists None. now left. }
  destruct (pd.empty _).
  { intros H; injection H as <-. eexists. now left. }
  destruct (practice.stint_loop _ _ _ _) as [[avgs slopes]|e];
    [|discriminate]. cbn [bind].
  destruct avgs as [|a avgs]; intros H; injection H as <-; eexists.
  - now left.
  - right. now do 2 eexists.
Qed.

Lemma calculate_race_pace_shape (session : option Session) (driver : string)
    (min_laps : Z) :
  practice.calculate_race_pace session driver min_laps
  = (None, None, None, None)
  \/
  exists s top_speed,
    session = Some s /\
    (practice.calculate_race_pace session driver min_laps
     = (None, None, top_speed, Some (practice.rain_probability s))
     \/
     exists pace deg,
       practice.calculate_race_pace session driver min_laps
       = (Some pace, Some deg, top_speed,
          Some (practice.rain_probability s))).
Proof.
  unfold practice.calculate_race_pace.
  destruct session as [s|]; [|now left].
  destruct (practice.race_pace_body s driver min_laps) as [t|e] eqn:E;
    [|now left].
  right. destruct (race_pace_body_shape s driver min_laps t E)
    as [top_speed [->|(pace & deg & ->)]]; exists s, top_speed;
    (split; [reflexivity|]); cbn [try_except]; [now left|].
  right. now exists pace, deg.
Qed.

End PracticeMore.

(** X6. Whatever the session and the driver, the rain probability that
    [calculate_race_pace] reports is either absent (no session, or an
    exception was caught) or a number between 0 and 1; it is 0 for a
    session without weather samples. *)
Theorem rain_probability_in_unit_interval :
  forall {api : fastf1.LapsApi} {numpy : np.Api}
         (session : option fastf1.Session)
         (driver : string) (min_laps : Z),
    match snd (practice.calculate_race_pace session driver min_laps) with
    | None => True
    | Some rain => number_within 0 1 rain
    end
    /\
    (forall s,
       fastf1.weather_data s = None \/ fastf1.weather_data s = Some [] ->
       practice.rain_probability s = Num 0).
Proof.
  intros api numpy session driver min_laps. split.
  - destruct (calculate_race_pace_shape session driver min_laps)
      as [->|(s & top & _ & [->|(pace & deg & ->)])];
      cbn [snd]; [exact I| |]; apply rain_probability_unit.
  - intros s [H|H]; unfold practice.rain_probability; rewrite H; reflexivity.
Qed.

Lemma rain_probability_in_unit_interval_witness :
  (fastf1.weather_data sample_qualifying = None \/
   fastf1.weather_data sample_qualifying = Some []) /\
  practice.rain_probability sample_qualifying = Num 0 /\
  practice.rain_probability sample_short_stints = Num (1 # 4).
Proof.
  split; [now left|]. split; [|reflexivity].
  exact (proj2 (rain_probability_in_unit_interval
                  (api := fastf1_reference.api) (numpy := np_exact.api)
                      None "VER"%string 5%Z)
           sample_qualifying (or_introl eq_refl)).
Defined.

(** X7. The race pace and the tyre degradation come together: in every
    result of [calculate_race_pace] both are present or both are absent;
    and whenever a pace is reported, so is the rain probability. *)
Theorem pace_and_degradation_together :
  forall {api : fastf1.LapsApi} {numpy : np.Api}
         (session : option fastf1.Session)
         (driver : string) (min_laps : Z),
    let '(race_pace, tire_deg, _, rain_prob) :=
      practice.calculate_race_pace session driver min_laps in
    (race_pace = None <-> tire_deg = None) /\
    (race_pace <> None -> rain_prob <> None).
Proof.
  intros api numpy session driver min_laps.
  destruct (calculate_race_pace_shape session driver min_laps)
    as [->|(s & top & _ & [->|(pace & deg & ->)])].
  - split; [tauto | congruence].
  - split; [tauto | congruence].
  - split; [split; discriminate | discriminate].
Qed.

Section PracticeLoop.
Import fastf1.
Context {api : LapsApi} {numpy : np.Api}.




(** A stint with fewer than [min_laps] laps leaves the loop unchanged. *)
Lemma stint_loop_short (min_laps : Z) (run : Laps) (stints : list Z)
    (acc : list pyfloat * list pyfloat) :
  (forall s, (Z.of_nat (List.length
                          (filter (fun l => (Stint l =? s)%Z) run))
              < min_laps)%Z) ->
  practice.stint_loop min_laps run stints acc = Ok acc.
Proof.
  intros Hshort. revert acc.
  induction stints as [|s stints IH]; intros [avgs slopes]; [reflexivity|].
  cbn [practice.stint_loop]. unfold practice.stint_step.
  replace (min_laps <=? _)%Z with false
    by (symmetry; apply Z.leb_gt; apply Hshort).
  cbn [bind]. apply IH.
Qed.

Lemma fold_max_spec (vs : list Q) (v : Q) :
  let m := fold_left (fun m x => if Qle_bool m x then x else m) vs v in
  In m (v :: vs) /\ Forall (fun x => x <= m) (v :: vs).
Proof.
  revert v; induction vs as [|x vs IH]; intros v; cbn zeta.
  - split; [now left | repeat constructor; apply Qle_refl].
  - cbn [fold_left].
    destruct (Qle_bool v x) eqn:E.
    + apply Qle_bool_iff in E. destruct (IH x) as [Hin Hall]. split.
      * right. exact Hin.
      * inversion Hall as [|? ? Hx Hrest]; subst.
        constructor; [now apply Qle_trans with x|]. now constructor.
    + assert (Hlt : x < v).
      { apply Qnot_le_lt. intros H. apply Qle_bool_iff in H. congruence. }
      destruct (IH v) as [Hin Hall]. split.
      * destruct Hin as [Hin|Hin]; [now left | now do 2 right].
      * inversion Hall as [|? ? Hv Hrest]; subst.
        constructor; [exact Hv|]. constructor; [|exact Hrest].
        apply Qle_trans with v; [now apply Qlt_le_weak | exact Hv].
Qed.

End PracticeLoop.



(** X9. When the laps can be read and the driver has valid laps but no
    stint with at least [min_laps] of them, no long run exists: race pace
    and tyre degradation are absent, while the top speed and the rain
    probability are still reported. *)
Theorem no_long_run_gives_no_pace :
  forall {api : fastf1.LapsApi} {numpy : np.Api}
         (session : fastf1.Session) (driver : string)
         (min_laps : Z) (session_laps : fastf1.Laps),
    fastf1.laps session = Ok session_laps ->
    fastf1.pick_drivers session_laps driver <> [] ->
    (forall stint,
       (Z.of_nat (List.length
                    (filter (fun l => (fastf1.Stint l =? stint)%Z)
                            (valid_laps session_laps driver)))
        < min_laps)%Z) ->
    practice.calculate_race_pace (Some session) driver min_laps
    = (None, None,
       practice.driver_top_speed session
         (fastf1.pick_drivers session_laps driver),
       Some (practice.rain_probability session)).
Proof.
  intros api numpy session driver min_laps session_laps Hlaps Hdriver Hshort.
  unfold practice.calculate_race_pace, practice.race_pace_body.
  rewrite Hlaps. cbn [bind]. apply empty_false_iff in Hdriver.
  rewrite Hdriver. unfold valid_laps in Hshort. cbv beta iota zeta.
  destruct (pd.empty (fastf1.pick_track_status _ "1")); [reflexivity|].
  rewrite (stint_loop_short min_laps _ _ _ Hshort). reflexivity.
Qed.

Lemma no_long_run_gives_no_pace_witness :
  fastf1.laps sample_short_stints = Ok sample_short_laps /\
  fastf1.pick_drivers (LapsApi := fastf1_reference.api)
    sample_short_laps "VER" <> [] /\
  (forall stint,
     (Z.of_nat (List.length
                  (filter (fun l => (fastf1.Stint l =? stint)%Z)
                          (valid_laps (api := fastf1_reference.api)
                             sample_short_laps "VER")))
      < 5)%Z) /\
  practice.calculate_race_pace
      (api := fastf1_reference.api) (numpy := np_exact.api)
    (Some sample_short_stints) "VER" 5
  = (None, None, Some (Num 325), Some (Num (1 # 4))).
Proof.
  assert (Hshort : forall stint,
            (Z.of_nat (List.length
                         (filter (fun l => (fastf1.Stint l =? stint)%Z)
                            (valid_laps (api := fastf1_reference.api)
                               sample_short_laps "VER")))
             < 5)%Z).
  { intros stint.
    eapply Z.le_lt_trans;
      [apply Nat2Z.inj_le, filter_length_le | vm_compute; reflexivity]. }
  split; [reflexivity|]. split; [discriminate|]. split; [exact Hshort|].
  exact (no_long_run_gives_no_pace
      (api := fastf1_reference.api) (numpy := np_exact.api)
           sample_short_stints "VER"%string 5%Z sample_short_laps eq_refl
           ltac:(discriminate) Hshort).
Defined.

(** X10. With a speed-trap column holding at least one reading, the top
    speed is the largest reading: it is one of the readings of the driver
    and no reading exceeds it; missing readings are skipped and the
    telemetry is not consulted. *)
Theorem top_speed_is_largest_trap_reading :
  forall {api : fastf1.LapsApi} (session : fastf1.Session)
         (laps : fastf1.Laps) (v : Q),
    fastf1.st_column session = true ->
    In (Num v) (map fastf1.ST laps) ->
    exists m,
      practice.driver_top_speed session laps = Some (Num m) /\
      In (Num m) (map fastf1.ST laps) /\
      forall x, In (Num x) (map fastf1.ST laps) -> x <= m.
Proof.
  intros api session laps v Hst Hv.
  unfold practice.driver_top_speed. rewrite Hst. unfold pd.max.
  apply dropna_In in Hv.
  destruct (pd.dropna (map fastf1.ST laps)) as [|v0 vs] eqn:E; [destruct Hv|].
  cbn [practice.isna is_nan].
  destruct (fold_max_spec vs v0) as [Hin Hall].
  eexists. split; [reflexivity|]. split.
  - apply dropna_In. rewrite E. exact Hin.
  - intros x Hx. apply dropna_In in Hx. rewrite E in Hx.
    rewrite Forall_forall in Hall. now apply Hall.
Qed.

Lemma top_speed_is_largest_trap_reading_witness :
  fastf1.st_column sample_short_stints = true /\
  In (Num 318) (map fastf1.ST sample_short_laps) /\
  exists m,
    practice.driver_top_speed (api := fastf1_reference.api)
      sample_short_stints sample_short_laps = Some (Num m) /\
    318 <= m.
Proof.
  assert (Hin : In (Num 318) (map fastf1.ST sample_short_laps))
    by (left; reflexivity).
  split; [reflexivity|]. split; [exact Hin|].
  destruct (top_speed_is_largest_trap_reading (api := fastf1_reference.api)
              sample_short_stints sample_short_laps 318 eq_refl Hin)
    as (m & Hm & _ & Hmax).
  exists m. split; [exact Hm | exact (Hmax 318 Hin)].
Defined.

(** ** Track features *)

(** A key of the table occurs in the name: the difficulty is the one of
    the table, not the default. *)
Ltac key_found key H :=
  cbn [snd]; split; [lia|]; split; [discriminate|];
  let Hn := fresh "Hn" in
  intros Hn; exfalso; apply (Hn key); [simpl; tauto | now apply H].

(** X11. The overtake difficulty is always between 1 and 10; it is the
    default 5 exactly when none of the circuit names of the table occurs
    in the given name. *)
Theorem overtake_difficulty_range :
  forall circuit_name : string,
    let d := track.get_track_overtake_difficulty circuit_name in
    (1 <= d <= 10)%Z
    /\
    (d = 5%Z <->
     forall key, In key (map fst track.OVERTAKE_DIFFICULTY) ->
                 ~ occurs_in key circuit_name).
Proof.
  intros name d. subst d. unfold track.get_track_overtake_difficulty.
  unfold occurs_in. cbn [track.OVERTAKE_DIFFICULTY find fst snd map].
  pose proof (contains_iff "Monaco" name) as H1.
  pose proof (contains_iff "Singapore" name) as H2.
  pose proof (contains_iff "Hungaroring" name) as H3.
  pose proof (contains_iff "Silverstone" name) as H4.
  pose proof (contains_iff "Spa-Francorchamps" name) as H5.
  pose proof (contains_iff "Monza" name) as H6.
  destruct (pystr.contains "Monaco" name);
    [key_found "Monaco"%string H1|].
  destruct (pystr.contains "Singapore" name);
    [key_found "Singapore"%string H2|].
  destruct (pystr.contains "Hungaroring" name);
    [key_found "Hungaroring"%string H3|].
  destruct (pystr.contains "Silverstone" name);
    [key_found "Silverstone"%string H4|].
  destruct (pystr.contains "Spa-Francorchamps" name);
    [key_found "Spa-Francorchamps"%string H5|].
  destruct (pystr.contains "Monza" name);
    [key_found "Monza"%string H6|].
  cbn [snd].
  split; [lia|]. split; [|reflexivity]. intros _ key Hkey Hocc.
  simpl in Hkey.
  destruct Hkey as [<-|[<-|[<-|[<-|[<-|[<-|[]]]]]]];
    [apply H1 in Hocc | apply H2 in Hocc | apply H3 in Hocc
     | apply H4 in Hocc | apply H5 in Hocc | apply H6 in Hocc];
    discriminate.
Qed.

(** X12. The average track temperature falls back to 25.0 when the
    session has no weather samples.  With samples it is [nan] exactly
    when no sample has a temperature, and the temperature of the sample
    when one sample alone has one. *)
Theorem track_temp_fallback_and_missing :
  forall (session : fastf1.Session),
    (fastf1.weather_data session = None \/
     fastf1.weather_data session = Some [] ->
     track.calculate_track_temp_avg session = Num 25)
    /\
    (forall weather,
       fastf1.weather_data session = Some weather -> weather <> [] ->
       (track.calculate_track_temp_avg session = NaN <->
        forall w, In w weather -> fastf1.TrackTemp w = NaN) /\
       (forall q,
          pd.dropna (map fastf1.TrackTemp weather) = [q] ->
          exists m,
            track.calculate_track_temp_avg session = Num m /\ m == q)).
Proof.
  intros session. unfold track.calculate_track_temp_avg. split.
  - intros [-> | ->]; reflexivity.
  - intros weather -> Hne. apply empty_false_iff in Hne. rewrite Hne.
    pose proof (pd_mean_spec (map fastf1.TrackTemp weather)) as Hmean.
    split; [split|].
    + intros Hnan w Hw.
      destruct (fastf1.TrackTemp w) as [q|] eqn:Ew; [|reflexivity].
      assert (Hin : In q (pd.dropna (map fastf1.TrackTemp weather))).
      { apply dropna_In. rewrite <- Ew. now apply in_map. }
      destruct (pd.dropna (map fastf1.TrackTemp weather)); [destruct Hin|].
      destruct Hmean as (m & Hm & _). congruence.
    + intros Hall.
      destruct (pd.dropna (map fastf1.TrackTemp weather)) as [|q vs] eqn:E;
        [exact Hmean|].
      assert (Hin : In (Num q) (map fastf1.TrackTemp weather))
        by (apply dropna_In; rewrite E; now left).
      apply in_map_iff in Hin. destruct Hin as (w & Hq & Hw).
      rewrite (Hall w Hw) in Hq. discriminate Hq.
    + intros q Hq. rewrite Hq in Hmean.
      destruct Hmean as (m & Hm & Heq). exists m. split; [exact Hm|].
      rewrite Heq. unfold pd.Qsum. cbn [fold_left List.length].
      change (inject_Z (Z.of_nat 1)) with 1. field.
Qed.

Lemma track_temp_fallback_and_missing_witness :
  (fastf1.weather_data sample_qualifying = None \/
   fastf1.weather_data sample_qualifying = Some []) /\
  track.calculate_track_temp_avg sample_qualifying = Num 25 /\
  fastf1.weather_data sample_one_reading
  = Some [fastf1.mkWeatherSample false NaN;
          fastf1.mkWeatherSample true (Num (301 # 10))] /\
  exists m,
    track.calculate_track_temp_avg sample_one_reading = Num m /\
    m == 301 # 10.
Proof.
  split; [now left|]. split.
  - exact (proj1 (track_temp_fallback_and_missing sample_qualifying)
             (or_introl eq_refl)).
  - split; [reflexivity|].
    exact (proj2 (proj2 (track_temp_fallback_and_missing sample_one_reading)
                    _ eq_refl ltac:(discriminate))
             (301 # 10) eq_refl).
Defined.

(** ** Sprint classes *)

(** X13. The sprint classes are the three intervals of the position
    ([<= 3], [> 3] and [<= 8], [> 8]) and the classification is monotone:
    a better position never gets a worse class. *)
Theorem sprint_categories_are_intervals :
  forall pos : Q,
    (sprint._categorize_position pos = sprint.Top3 <-> pos <= 3) /\
    (sprint._categorize_position pos = sprint.Points <-> 3 < pos /\ pos <= 8) /\
    (sprint._categorize_position pos = sprint.NoPoints <-> 8 < pos) /\
    (forall pos', pos <= pos' ->
       (class_rank (sprint._categorize_position pos)
        <= class_rank (sprint._categorize_position pos'))%nat).
Proof.
  intros pos.
  assert (Hcat : forall p,
            (p <= 3 /\ sprint._categorize_position p = sprint.Top3) \/
            (3 < p /\ p <= 8 /\ sprint._categorize_position p = sprint.Points) \/
            (8 < p /\ sprint._categorize_position p = sprint.NoPoints)).
  { intros p. unfold sprint._categorize_position.
    destruct (Qle_bool p 3) eqn:E3.
    - left. split; [now apply Qle_bool_iff | reflexivity].
    - assert (3 < p)
        by (apply Qnot_le_lt; intros H; apply Qle_bool_iff in H; congruence).
      destruct (Qle_bool p 8) eqn:E8.
      + right; left. split; [assumption|].
        split; [now apply Qle_bool_iff | reflexivity].
      + right; right. split; [|reflexivity].
        apply Qnot_le_lt; intros H'; apply Qle_bool_iff in H'; congruence. }
  destruct (Hcat pos) as [[H E]|[(H1 & H2 & E)|[H E]]]; rewrite E;
    (split; [|split; [|split]]);
    try (split; [first [reflexivity | discriminate] | intros; lra]);
    try (split; [intros; first [assumption | now split | discriminate]
                | intros; reflexivity]);
    try (split; [discriminate | intros [? ?]; lra]);
    intros pos' Hle;
    destruct (Hcat pos') as [[H' E']|[(H1' & H2' & E')|[H' E']]]; rewrite E';
    simpl; try lia; lra.
Qed.

(** ** Driver statistics at inference time *)

Lemma tail_not_nil {A} (n : Z) (l : list A) :
  (0 < n)%Z -> l <> [] -> pd.tail n l <> [].
Proof.
  intros Hn Hl E. destruct (tail_suffix n l) as [older [_ Hlen]]; [lia|].
  rewrite E in Hlen. destruct l; [congruence|]. simpl in Hlen. lia.
Qed.

Lemma fraction_below_one (k n : Z) :
  (0 <= k < n)%Z -> inject_Z k / inject_Z n < 1.
Proof.
  intros [Hk Hkn].
  apply Qlt_shift_div_r; [unfold Qlt; simpl; lia|].
  rewrite Qmult_1_l. unfold Qlt; simpl; lia.
Qed.

(** X14. The statistics that [calculate_driver_stats] derives from the
    history are always usable numbers: the average position is a number
    (never [nan]), and the DNF rate is a number in [0, 1); the average
    lies between any two bounds that enclose 5.0 and the target positions
    of the history. *)
Theorem driver_stats_are_numbers :
  forall (self : predict.Predictor) (driver_name : string),
    let stats := predict.calculate_driver_stats self driver_name in
    (exists a d,
       fst (fst stats) = Num a /\ snd (fst stats) = Num d /\
       0 <= d /\ d < 1)
    /\
    (forall lo hi,
       lo <= 5 -> 5 <= hi ->
       (forall r, In r (predict.history_df self) ->
                  within lo hi (predict.h_TargetPosition r)) ->
       number_within lo hi (fst (fst stats))).
Proof.
  intros self name stats. subst stats.
  unfold predict.calculate_driver_stats, predict.default_stats.
  assert (Hdefault :
            (exists a d : Q,
               fst (fst (Num 5, Num (1 # 10), Num (19 # 20))) = Num a /\
               snd (fst (Num 5, Num (1 # 10), Num (19 # 20))) = Num d /\
               0 <= d /\ d < 1) /\
            (forall lo hi : Q,
               lo <= 5 -> 5 <= hi ->
               (forall r, In r (predict.history_df self) ->
                          within lo hi (predict.h_TargetPosition r)) ->
               number_within lo hi
                 (fst (fst (Num 5, Num (1 # 10), Num (19 # 20)))))).
  { split.
    - exists 5, (1 # 10). repeat split; try discriminate; reflexivity.
    - intros lo hi Hlo Hhi _. exists 5. now repeat split. }
  destruct (pd.empty (predict.history_df self)); [exact Hdefault|].
  set (d_hist := filter _ (predict.history_df self)).
  destruct (pd.empty d_hist); [exact Hdefault|].
  set (r_hist := filter _ d_hist).
  destruct (pd.empty r_hist); [exact Hdefault|].
  set (targets := map predict.h_TargetPosition r_hist).
  set (valid_pos := filter (fun x => negb (is_nan x)) targets).
  destruct (pd.empty valid_pos) eqn:Hv; [exact Hdefault|].
  apply empty_false_iff in Hv. clear Hdefault. cbn [fst snd].
  assert (Hvalid : forall x, In x (pd.tail 5 valid_pos) ->
                             In x targets /\ exists q, x = Num q).
  { intros x Hx. apply tail_In, filter_In in Hx. destruct Hx as [Hx Hn].
    split; [exact Hx|]. destruct x as [q|]; [now exists q | discriminate]. }
  assert (Hmean : exists v vs, pd.dropna (pd.tail 5 valid_pos) = v :: vs).
  { pose proof (tail_not_nil 5 valid_pos ltac:(lia) Hv) as Ht.
    destruct (pd.tail 5 valid_pos) as [|x l]; [congruence|].
    destruct (Hvalid x (or_introl eq_refl)) as [_ [q ->]].
    simpl. now exists q, (pd.dropna l). }
  destruct Hmean as (v & vs & Hd).
  assert (Hcount : (0 <= Z.of_nat (List.length (filter is_nan targets))
                    < Z.of_nat (List.length r_hist))%Z).
  { split; [lia|].
    pose proof (filter_length is_nan targets) as Hsum.
    fold valid_pos in Hsum.
    assert (Hlen : List.length targets = List.length r_hist)
      by apply length_map.
    destruct valid_pos; [congruence|]. cbn [List.length] in Hsum. lia. }
  split.
  - unfold pd.mean. rewrite Hd. do 2 eexists. split; [reflexivity|].
    replace (0 <? Z.of_nat (List.length r_hist))%Z with true
      by (symmetry; apply Z.ltb_lt; lia).
    split; [reflexivity|]. rewrite Qred_correct. split.
    + apply fraction_in_unit; lia.
    + now apply fraction_below_one.
  - intros lo hi Hlo Hhi Hrange.
    unfold pd.mean. rewrite Hd. eexists. split; [reflexivity|].
    rewrite Qred_correct. apply mean_between; [discriminate|].
    rewrite <- Hd. apply Forall_forall. intros q Hq.
    apply dropna_In in Hq. destruct (Hvalid _ Hq) as [Hin _].
    apply in_map_iff in Hin. destruct Hin as (r & Hr & Hin).
    apply filter_In in Hin. destruct Hin as [Hin _].
    apply filter_In in Hin. destruct Hin as [Hin _].
    specialize (Hrange r Hin). rewrite Hr in Hrange. exact Hrange.
Qed.

Lemma driver_stats_are_numbers_witness :
  (1 <= 5 /\ 5 <= 5) /\
  (forall r, In r (predict.history_df sample_history_predictor) ->
             within 1 5 (predict.h_TargetPosition r)) /\
  predict.calculate_driver_stats sample_history_predictor "VER"
  = (Num 3, Num (1 # 3), Num (85 # 100)) /\
  number_within 1 5
    (fst (fst (predict.calculate_driver_stats sample_history_predictor "VER"))).
Proof.
  assert (H : forall r, In r (predict.history_df sample_history_predictor) ->
                        within 1 5 (predict.h_TargetPosition r)).
  { intros r [<-|[<-|[<-|[<-|[<-|[]]]]]]; simpl; try exact I;
      split; discriminate. }
  split; [split; discriminate|]. split; [exact H|]. split; [reflexivity|].
  exact (proj2 (driver_stats_are_numbers sample_history_predictor "VER")
           1 5 ltac:(discriminate) ltac:(discriminate) H).
Defined.

(** X15. The statistics of a driver depend only on the history rows of
    the driver's identifier (the number mapped to the abbreviation, or
    the given name itself): two histories with the same rows for that identifier
    give the same statistics, whatever the rows of the other drivers. *)
Theorem driver_stats_ignore_other_drivers :
  forall (driver_name : string),
  exists driver_id,
    (driver_id = driver_name \/ In (driver_name, driver_id) predict.driver_map)
    /\
    forall (self other : predict.Predictor),
      predict.history_has_ReliabilityScore self
      = predict.history_has_ReliabilityScore other ->
      filter (fun r => String.eqb (predict.h_Driver r) driver_id)
             (predict.history_df self)
      = filter (fun r => String.eqb (predict.h_Driver r) driver_id)
               (predict.history_df other) ->
      predict.calculate_driver_stats self driver_name
      = predict.calculate_driver_stats other driver_name.
Proof.
  intros name.
  set (id := match find (fun kv => String.eqb (fst kv) name)
                        predict.driver_map with
             | Some kv => snd kv
             | None => name
             end).
  exists id. split.
  - subst id.
    destruct (find _ predict.driver_map) as [[k v]|] eqn:E; [|now left].
    right. apply find_some in E. destruct E as [Hin Hk].
    apply String.eqb_eq in Hk. simpl in Hk. subst k. exact Hin.
  - intros self other Hflag Hrows.
    assert (Hskip : forall (h : list predict.HistoryRow) f
                           (d X : pyfloat * pyfloat * pyfloat),
               (if pd.empty h then d
                else if pd.empty (filter f h) then d else X)
               = (if pd.empty (filter f h) then d else X))
      by (intros [|r h] f d X; reflexivity).
    unfold predict.calculate_driver_stats. fold id.
    rewrite !Hskip, Hflag, Hrows. reflexivity.
Qed.

Lemma driver_stats_ignore_other_drivers_witness :
  exists driver_id,
    (driver_id = "VER"%string \/
     In ("VER"%string, driver_id) predict.driver_map) /\
    predict.calculate_driver_stats sample_history_predictor "VER"
    = predict.calculate_driver_stats
        (predict.mkPredictor (fun _ => Ok 3) (fun _ => Ok sprint.Points)
           (fun _ => Ok 15)
           (filter (fun r => String.eqb (predict.h_Driver r) "1")
                   sample_feature_history) true) "VER".
Proof.
  destruct (driver_stats_ignore_other_drivers "VER") as (id & Hid & H).
  exists id. split; [exact Hid|].
  apply H; [reflexivity|].
  destruct Hid as [->|Hin]; [reflexivity|].
  simpl in Hin.
  repeat (destruct Hin as [Hin|Hin]; [inversion Hin; subst; reflexivity|]).
  destruct Hin.
Defined.

(** ** [predict_driver], continued *)

Section PredictDriverFacts.
Import predict.
Context {api : fastf1.LapsApi} {numpy : np.Api} {provider : SessionProvider}.

(** What a returned prediction tells about the call. *)
Lemma predict_driver_inv (self : Predictor) (driver_name : string)
    (season : Z) (grand_prix : string) (actual_quali_pos : option pyfloat)
    (practice_session : option fastf1.Session)
    (weather_override : option pyfloat) (pred : Prediction) :
  predict_driver self driver_name season grand_prix actual_quali_pos
    practice_session weather_override = Ok pred ->
  let session := get_session_data season grand_prix "Q" true true in
  let pt := practice_tuple practice_session driver_name in
  exists qf rf q r,
    quali_model self qf = Ok q /\ race_model self rf = Ok r /\
    q_TrackTemp qf
    = match session with
      | Some s => track.calculate_track_temp_avg s
      | None => Num 30
      end /\
    q_OvertakeDifficulty qf = track.get_track_overtake_difficulty grand_prix /\
    q_QualiDeltaTeammate qf = Num 0 /\
    (q_DriverAvgPos qf, q_DriverDNFRate qf, q_ReliabilityScore qf)
    = calculate_driver_stats self driver_name /\
    Qualifying_Position pred
    = match actual_quali_pos with Some a => a | None => Num q end /\
    Grid_Position pred = Qualifying_Position pred /\
    Race_Score pred = r /\
    r_GridPosition rf = Grid_Position pred /\
    r_RacePace rf = Race_Pace pred /\
    r_TireDegradation rf = Tire_Degradation pred /\
    r_TopSpeed rf = Top_Speed pred /\
    r_RainProbability rf = Rain_Probability pred /\
    Race_Pace pred = or_nan (fst (fst (fst pt))) /\
    Tire_Degradation pred = or_nan (snd (fst (fst pt))) /\
    Top_Speed pred = or_nan (snd (fst pt)) /\
    Rain_Probability pred
    = match weather_override with
      | Some w => w
      | None => match snd pt with Some rain => rain | None => Num 0 end
      end /\
    Driver pred = None /\ Predicted_Position pred = None.
Proof.
  intros H session pt. subst session pt.
  unfold predict_driver in H. unfold practice_tuple.
  destruct (calculate_driver_stats self driver_name)
    as [[driver_avg_pos driver_dnf_rate] rel_score].
  destruct (match practice_session with
            | Some _ => _
            | None => _
            end) as [[[race_pace tire_deg] top_speed] rain_prob].
  set (qf := mkQualiFeatures _ _ _ _ _ _) in H.
  destruct (quali_model self qf) as [q|e] eqn:Eq; [|discriminate H].
  cbn [bind] in H.
  set (rf := mkRaceFeatures _ _ _ _ _ _ _ _ _ _ _) in H.
  destruct (if is_sprint_weekend _ then _ else _) as [s_pred|e];
    [|discriminate H]. cbn [bind] in H.
  destruct (race_model self rf) as [r|e] eqn:Er; [|discriminate H].
  cbn [bind] in H. injection H as <-.
  exists qf, rf, q, r. cbn.
  destruct (get_session_data season grand_prix "Q" true true);
    repeat split; try reflexivity; assumption.
Qed.

End PredictDriverFacts.

(** X16. A failure of the qualifying estimator makes [predict_driver]
    raise the same exception, also when the actual qualifying position is
    supplied; with a failing race estimator it returns no prediction;
    and outside sprint weekends the sprint estimator is not consulted:
    replacing it, even by a failing one, changes nothing. *)
Theorem predict_driver_estimator_failures :
  forall {api : fastf1.LapsApi} {numpy : np.Api}
         {provider : predict.SessionProvider}
         (self : predict.Predictor) (driver_name : string) (season : Z)
         (grand_prix : string) (actual_quali_pos : option pyfloat)
         (practice_session : option fastf1.Session)
         (weather_override : option pyfloat),
    (forall e,
       (forall f, predict.quali_model self f = Raise e) ->
       predict.predict_driver self driver_name season grand_prix
         actual_quali_pos practice_session weather_override = Raise e)
    /\
    (forall e,
       (forall f, predict.race_model self f = Raise e) ->
       forall pred,
         predict.predict_driver self driver_name season grand_prix
           actual_quali_pos practice_session weather_override <> Ok pred)
    /\
    (event_format (predict.get_session_data season grand_prix "Q" true true)
     <> Some "sprint"%string ->
     forall model,
       predict.predict_driver (with_sprint_model self model) driver_name
         season grand_prix actual_quali_pos practice_session weather_override
       = predict.predict_driver self driver_name season grand_prix
           actual_quali_pos practice_session weather_override).
Proof.
  intros api numpy provider self driver_name season grand_prix actual_quali_pos
         practice_session weather_override.
  split; [|split].
  - intros e H. unfold predict.predict_driver.
    destruct (predict.calculate_driver_stats self driver_name) as [[? ?] ?].
    destruct (match practice_session with
              | Some _ => _
              | None => _
              end) as [[[? ?] ?] ?].
    rewrite H. reflexivity.
  - intros e H pred Hpred.
    destruct (predict_driver_inv self driver_name season grand_prix
                actual_quali_pos practice_session weather_override pred Hpred)
      as (qf & rf & q & r & _ & Hr & _).
    rewrite H in Hr. discriminate Hr.
  - intros Hfmt model. rewrite <- is_sprint_weekend_iff in Hfmt.
    unfold predict.predict_driver, with_sprint_model.
    unfold predict.calculate_driver_stats.
    cbn [predict.quali_model predict.race_model predict.history_df
         predict.history_has_ReliabilityScore predict.sprint_model].
    destruct (predict.is_sprint_weekend _); [congruence | reflexivity].
Qed.

Lemma predict_driver_estimator_failures_witness :
  (forall f, predict.quali_model sample_broken_predictor f = Raise LinAlgError)
  /\
  predict.predict_driver (api := fastf1_reference.api) (numpy := np_exact.api)
    (provider := sample_provider "sprint")
    sample_broken_predictor "VER" 2024 "Miami" (Some (Num 1)) None None
  = Raise LinAlgError /\
  event_format
    (predict.get_session_data (SessionProvider := sample_provider "conventional")
       2024 "Miami" "Q" true true) <> Some "sprint"%string /\
  predict.predict_driver (api := fastf1_reference.api) (numpy := np_exact.api)
    (provider := sample_provider "conventional")
    (with_sprint_model sample_predictor (fun _ => Raise LinAlgError))
    "VER" 2024 "Miami" None None None
  = predict.predict_driver (api := fastf1_reference.api) (numpy := np_exact.api)
      (provider := sample_provider "conventional")
      sample_predictor "VER" 2024 "Miami" None None None.
Proof.
  assert (H : forall f,
             predict.quali_model sample_broken_predictor f = Raise LinAlgError)
    by reflexivity.
  assert (Hfmt : event_format
                   (predict.get_session_data
                      (SessionProvider := sample_provider "conventional")
                      2024 "Miami" "Q" true true) <> Some "sprint"%string)
    by discriminate.
  split; [exact H|]. split; [|split; [exact Hfmt|]].
  - exact (proj1 (predict_driver_estimator_failures
                    (api := fastf1_reference.api) (numpy := np_exact.api)
                    (provider := sample_provider "sprint")
                    sample_broken_predictor "VER"%string 2024%Z
                    "Miami"%string (Some (Num 1)) None None)
             LinAlgError H).
  - exact (proj2 (proj2 (predict_driver_estimator_failures
                           (api := fastf1_reference.api) (numpy := np_exact.api)
                           (provider := sample_provider "conventional")
                           sample_predictor "VER"%string 2024%Z
                           "Miami"%string None None None))
             Hfmt (fun _ => Raise LinAlgError)).
Defined.

(** X17. In a returned prediction the grid position is the qualifying
    position: the actual one when supplied, otherwise the output of the
    qualifying estimator on a feature row whose teammate delta is 0.0,
    whose track temperature is 30.0 when the qualifying session did not
    load and the session average otherwise, and whose driver statistics
    are those of the history.  The race score is the output of the race
    estimator on a row holding exactly the grid position, pace,
    degradation, top speed and rain probability echoed in the
    prediction. *)
Theorem predict_driver_features :
  forall {api : fastf1.LapsApi} {numpy : np.Api}
         {provider : predict.SessionProvider}
         (self : predict.Predictor) (driver_name : string) (season : Z)
         (grand_prix : string) (actual_quali_pos : option pyfloat)
         (practice_session : option fastf1.Session)
         (weather_override : option pyfloat) (pred : predict.Prediction),
    predict.predict_driver self driver_name season grand_prix
      actual_quali_pos practice_session weather_override = Ok pred ->
    predict.Grid_Position pred = predict.Qualifying_Position pred
    /\
    (forall a, actual_quali_pos = Some a ->
               predict.Qualifying_Position pred = a)
    /\
    (exists qf q,
       predict.quali_model self qf = Ok q /\
       (actual_quali_pos = None ->
        predict.Qualifying_Position pred = Num q) /\
       predict.q_QualiDeltaTeammate qf = Num 0 /\
       predict.q_TrackTemp qf
       = match predict.get_session_data season grand_prix "Q" true true with
         | Some s => track.calculate_track_temp_avg s
         | None => Num 30
         end /\
       predict.q_OvertakeDifficulty qf
       = track.get_track_overtake_difficulty grand_prix /\
       (predict.q_DriverAvgPos qf, predict.q_DriverDNFRate qf,
        predict.q_ReliabilityScore qf)
       = predict.calculate_driver_stats self driver_name)
    /\
    (exists rf,
       predict.race_model self rf = Ok (predict.Race_Score pred) /\
       predict.r_GridPosition rf = predict.Grid_Position pred /\
       predict.r_RacePace rf = predict.Race_Pace pred /\
       predict.r_TireDegradation rf = predict.Tire_Degradation pred /\
       predict.r_TopSpeed rf = predict.Top_Speed pred /\
       predict.r_RainProbability rf = predict.Rain_Probability pred).
Proof.
  intros api numpy provider self driver_name season grand_prix actual_quali_pos
         practice_session weather_override pred H.
  destruct (predict_driver_inv self driver_name season grand_prix
              actual_quali_pos practice_session weather_override pred H)
    as (qf & rf & q & r & Hq & Hr & Ht & Ho & Hd & Hs & Hqp & Hg & Hsc
        & Hrg & Hrp & Hrt & Hrs & Hrr & _).
  split; [exact Hg|]. split; [|split].
  - intros a ->. exact Hqp.
  - exists qf, q. split; [exact Hq|]. split; [intros ->; exact Hqp|].
    repeat split; assumption.
  - exists rf. rewrite Hsc. repeat split; assumption.
Qed.

Lemma predict_driver_features_witness :
  exists pred,
    predict.predict_driver (api := fastf1_reference.api) (numpy := np_exact.api)
      (provider := sample_no_provider)
      sample_history_predictor "VER" 2024 "Monaco" (Some (Num 2)) None None
    = Ok pred /\
    predict.Grid_Position pred = Num 2 /\
    exists qf q,
      predict.quali_model sample_history_predictor qf = Ok q /\
      predict.q_TrackTemp qf = Num 30 /\
      predict.q_OvertakeDifficulty qf = 10%Z.
Proof.
  eexists. split; [reflexivity|].
  destruct (predict_driver_features
      (api := fastf1_reference.api) (numpy := np_exact.api)
              (provider := sample_no_provider)
              sample_history_predictor "VER"%string 2024%Z "Monaco"%string
              (Some (Num 2)) None None _ eq_refl)
    as (Hg & Ha & (qf & q & Hq & _ & _ & Ht & Ho & _) & _).
  split; [rewrite Hg; exact (Ha _ eq_refl)|].
  exists qf, q. split; [exact Hq|]. split; [exact Ht | exact Ho].
Defined.

(** X18. The rain probability of a returned prediction is the weather
    override when one is given, and otherwise a number between 0 and 1
    (0.0 without a practice session); without a practice session the
    race pace, tyre degradation and top speed are [nan]. *)
Theorem predict_driver_weather_and_pace :
  forall {api : fastf1.LapsApi} {numpy : np.Api}
         {provider : predict.SessionProvider}
         (self : predict.Predictor) (driver_name : string) (season : Z)
         (grand_prix : string) (actual_quali_pos : option pyfloat)
         (practice_session : option fastf1.Session)
         (weather_override : option pyfloat) (pred : predict.Prediction),
    predict.predict_driver self driver_name season grand_prix
      actual_quali_pos practice_session weather_override = Ok pred ->
    (forall w, weather_override = Some w ->
               predict.Rain_Probability pred = w)
    /\
    (weather_override = None ->
     number_within 0 1 (predict.Rain_Probability pred))
    /\
    (practice_session = None ->
     predict.Race_Pace pred = NaN /\ predict.Tire_Degradation pred = NaN /\
     predict.Top_Speed pred = NaN /\
     (weather_override = None -> predict.Rain_Probability pred = Num 0)).
Proof.
  intros api numpy provider self driver_name season grand_prix actual_quali_pos
         practice_session weather_override pred H.
  destruct (predict_driver_inv self driver_name season grand_prix
              actual_quali_pos practice_session weather_override pred H)
    as (qf & rf & q & r & _ & _ & _ & _ & _ & _ & _ & _ & _
        & _ & _ & _ & _ & _ & Hp & Ht & Hs & Hrain & _).
  split; [|split].
  - intros w ->. exact Hrain.
  - intros ->. rewrite Hrain. unfold practice_tuple.
    destruct practice_session as [s|];
      [|exists 0; repeat split; [apply Qle_refl | discriminate]].
    destruct (calculate_race_pace_shape (Some s) driver_name
                practice.default_min_laps)
      as [->|(s' & top & _ & [->|(pace & deg & ->)])]; cbn [snd].
    + exists 0; repeat split; [apply Qle_refl | discriminate].
    + apply rain_probability_unit.
    + apply rain_probability_unit.
  - intros ->. rewrite Hp, Ht, Hs. cbn. repeat split.
    intros ->. exact Hrain.
Qed.

Lemma predict_driver_weather_and_pace_witness :
  exists pred,
    predict.predict_driver (api := fastf1_reference.api) (numpy := np_exact.api)
      (provider := sample_no_provider)
      sample_predictor "VER" 2024 "Monaco" None
      (Some sample_short_stints) None = Ok pred /\
    number_within 0 1 (predict.Rain_Probability pred) /\
    predict.Rain_Probability pred = Num (1 # 4).
Proof.
  eexists. split; [reflexivity|]. split; [|reflexivity].
  exact (proj1 (proj2 (predict_driver_weather_and_pace
                         (api := fastf1_reference.api) (numpy := np_exact.api)
                         (provider := sample_no_provider)
                         sample_predictor "VER"%string 2024%Z
                         "Monaco"%string None (Some sample_short_stints)
                         None _ eq_refl)) eq_refl).
Defined.

(** X19. A race prediction that returns holds exactly one entry per
    driver of the list it worked on: the given list when it is not empty;
    otherwise the drivers of the qualifying result when there is one, and
    the twenty fallback drivers when there is none.  It is never empty,
    and its predicted positions are 1, 2, ... in order. *)
Theorem predict_race_one_entry_per_driver :
  forall {api : fastf1.LapsApi} {numpy : np.Api}
         {provider : predict.SessionProvider}
         (self : predict.Predictor) (year : Z) (event_name : string)
         (driver_list : option (list string))
         (weather_override : option pyfloat)
         (ranked : list predict.Prediction),
    predict.predict_race self year event_name driver_list weather_override
    = Ok ranked ->
    let session_q := predict.get_session_data year event_name "Q" false false in
    ranked <> []
    /\
    map predict.Predicted_Position ranked
    = map (fun i => Some (Z.of_nat i)) (seq 1 (List.length ranked))
    /\
    (forall d ds, driver_list = Some (d :: ds) ->
       Permutation (map predict.Driver ranked) (map Some (d :: ds)))
    /\
    (driver_list = None \/ driver_list = Some [] ->
     (predict.has_results session_q = Ok true ->
      Permutation (map predict.Driver ranked)
        (map (fun r => Some (fastf1.Abbreviation r))
             (predict.session_results session_q)))
     /\
     (predict.has_results session_q = Ok false ->
      Permutation (map predict.Driver ranked)
        (map Some predict.fallback_drivers) /\
      List.length ranked = 20%nat)).
Proof.
  intros api numpy provider self year event_name driver_list weather_override
         ranked H session_q.
  destruct (predict_race_inv self year event_name driver_list
              weather_override ranked H)
    as (drivers & preds & Hne & Hcase & _ & -> & Hall).
  fold session_q in Hall, Hcase.
  assert (Hdrv : Permutation
                   (map predict.Driver (predict.rank_predictions preds))
                   (map Some drivers)).
  { rewrite rank_predictions_drivers.
    erewrite Forall2_drivers; [reflexivity | | exact Hall].
    intros d p Hp. exact (predict_one_driver _ _ _ _ _ _ _ _ Hp). }
  assert (Hlen : List.length (predict.rank_predictions preds)
                 = List.length drivers).
  { apply Permutation_length in Hdrv. now rewrite !length_map in Hdrv. }
  split; [|split; [|split]].
  - intros Hnil. rewrite Hnil in Hlen. cbn [List.length] in Hlen.
    destruct drivers; [now elim Hne | discriminate Hlen].
  - unfold predict.rank_predictions at 1.
    rewrite assign_ranks_positions.
    unfold predict.rank_predictions. rewrite assign_ranks_length.
    apply map_ext. intros i. f_equal.
  - intros d ds ->. now rewrite <- Hcase.
  - intros Hnone.
    assert (Hhas : exists has,
               predict.has_results session_q = Ok has /\
               drivers = if has
                         then map fastf1.Abbreviation
                                (predict.session_results session_q)
                         else predict.fallback_drivers)
      by (destruct Hnone as [-> | ->]; exact Hcase).
    destruct Hhas as (has & Hhas & ->).
    split; intros Hres; rewrite Hres in Hhas; injection Hhas as <-.
    + now rewrite map_map in Hdrv.
    + split; [exact Hdrv | exact Hlen].
Qed.

Lemma predict_race_one_entry_per_driver_witness :
  exists ranked,
    predict.predict_race (api := fastf1_reference.api) (numpy := np_exact.api)
      (provider := sample_no_provider)
      sample_predictor 2024 "Monaco" (Some ["NOR"; "VER"]%string) None
    = Ok ranked /\
    ranked <> [] /\
    Permutation (map predict.Driver ranked)
      (map Some ["NOR"; "VER"]%string).
Proof.
  eexists. split; [reflexivity|].
  destruct (predict_race_one_entry_per_driver (api := fastf1_reference.api)
              (numpy := np_exact.api) (provider := sample_no_provider)
              sample_predictor 2024%Z "Monaco"%string
              (Some ["NOR"; "VER"]%string) None _ eq_refl)
    as (Hne & _ & Hgiven & _).
  split; [exact Hne | exact (Hgiven _ _ eq_refl)].
Defined.

Lemma Forall2_in_right {A B : Type} (R : A -> B -> Prop) (l : list A)
    (l' : list B) (b : B) :
  Forall2 R l l' -> In b l' -> exists a, In a l /\ R a b.
Proof.
  induction 1 as [|x y l l' Hxy _ IH]; [intros []|].
  intros [<-|Hin]; [exists x; split; [now left | exact Hxy]|].
  destruct (IH Hin) as (a & Ha & HR). exists a. split; [now right | exact HR].
Qed.

Lemma Forall2_nth {A B : Type} (R : A -> B -> Prop) (l : list A)
    (l' : list B) (i : nat) (a : A) (b : B) :
  Forall2 R l l' -> nth_error l i = Some a -> nth_error l' i = Some b ->
  R a b.
Proof.
  intros H; revert i; induction H as [|x y l l' Hxy _ IH]; intros [|i];
    cbn [nth_error]; try discriminate.
  - intros Ha Hb. injection Ha as <-. injection Hb as <-. exact Hxy.
  - apply IH.
Qed.

Lemma predict_race_entry :
  forall {api : fastf1.LapsApi} {numpy : np.Api}
         {provider : predict.SessionProvider}
         (self : predict.Predictor) (year : Z) (event_name : string)
         (driver_list : option (list string))
         (weather_override : option pyfloat)
         (ranked : list predict.Prediction) (p : predict.Prediction),
    predict.predict_race self year event_name driver_list weather_override
    = Ok ranked ->
    In p ranked ->
    let session_q := predict.get_session_data year event_name "Q" false false in
    exists d i,
      predict.Driver p = Some d /\
      predict.Predicted_Position p = Some i /\
      (1 <= i <= Z.of_nat (List.length ranked))%Z /\
      predict.Grid_Position p = predict.Qualifying_Position p /\
      (forall w, weather_override = Some w ->
                 predict.Rain_Probability p = w) /\
      (predict.has_results session_q = Ok true ->
       forall r rs,
         filter (fun r => String.eqb (fastf1.Abbreviation r) d)
                (predict.session_results session_q) = r :: rs ->
         predict.Qualifying_Position p = fastf1.Position r).
Proof.
  intros api numpy provider self year event_name driver_list weather_override
         ranked p H Hin session_q.
  destruct (predict_race_inv self year event_name driver_list
              weather_override ranked H)
    as (drivers & preds & _ & _ & _ & -> & Hall).
  fold session_q in Hall.
  unfold predict.rank_predictions in Hin |- *.
  rewrite assign_ranks_length.
  apply assign_ranks_In in Hin. destruct Hin as (p0 & i & Hp0 & -> & Hi).
  assert (Hp0' : In p0 preds)
    by (eapply Permutation_in; [apply sort_by_race_score_perm | exact Hp0]).
  assert (Hlen : List.length (predict.sort_by_race_score preds)
                 = List.length preds)
    by (apply Permutation_length, sort_by_race_score_perm).
  destruct (Forall2_in_right _ _ _ _ Hall Hp0') as (d & _ & Hone).
  destruct (predict_one_inv _ _ _ _ _ _ _ _ Hone)
    as (has & pd0 & Hhas & E & ->).
  destruct (predict_driver_inv _ _ _ _ _ _ _ _ E)
    as (qf & rf & q & r & _ & _ & _ & _ & _ & _ & Hqp & Hg & _
        & _ & _ & _ & _ & _ & _ & _ & _ & Hrain & _).
  exists d, i.
  cbn [predict.Driver predict.Predicted_Position predict.Grid_Position
       predict.Qualifying_Position predict.Rain_Probability
       predict.set_Driver predict.set_Predicted_Position].
  split; [reflexivity|]. split; [reflexivity|].
  split; [lia|]. split; [exact Hg|]. split.
  - intros w ->. exact Hrain.
  - intros Hres r0 rs Hf. rewrite Hres in Hhas. injection Hhas as <-.
    rewrite Hf in Hqp. exact Hqp.
Qed.

(** X20. Every entry of a returned race prediction names its driver,
    starts from the grid position equal to its qualifying position,
    carries the weather override when one was given, and has a predicted
    position between 1 and the number of entries.  When the qualifying
    session has results, the qualifying position of a driver listed there
    is the position of the first result row with that abbreviation, not
    the estimator's output. *)
Theorem predict_race_entries :
  forall {api : fastf1.LapsApi} {numpy : np.Api}
         {provider : predict.SessionProvider}
         (self : predict.Predictor) (year : Z) (event_name : string)
         (driver_list : option (list string))
         (weather_override : option pyfloat)
         (ranked : list predict.Prediction) (p : predict.Prediction),
    predict.predict_race self year event_name driver_list weather_override
    = Ok ranked ->
    In p ranked ->
    let session_q := predict.get_session_data year event_name "Q" false false in
    exists d i,
      predict.Driver p = Some d /\
      predict.Predicted_Position p = Some i /\
      (1 <= i <= Z.of_nat (List.length ranked))%Z /\
      predict.Grid_Position p = predict.Qualifying_Position p /\
      (forall w, weather_override = Some w ->
                 predict.Rain_Probability p = w) /\
      (predict.has_results session_q = Ok true ->
       forall r rs,
         filter (fun r => String.eqb (fastf1.Abbreviation r) d)
                (predict.session_results session_q) = r :: rs ->
         predict.Qualifying_Position p = fastf1.Position r).
Proof.
  intros api numpy provider self year event_name driver_list weather_override
         ranked p H Hin.
  exact (predict_race_entry self year event_name driver_list
           weather_override ranked p H Hin).
Qed.

Lemma predict_race_entries_witness :
  exists ranked,
    predict.predict_race (api := fastf1_reference.api) (numpy := np_exact.api)
      (provider := sample_results_provider)
      sample_predictor 2025 "Monaco" None (Some (Num (3 # 10)))
    = Ok ranked /\
    map predict.Driver ranked = [Some "NOR"; Some "VER"]%string /\
    forall p, In p ranked ->
      predict.Rain_Probability p = Num (3 # 10) /\
      predict.Grid_Position p = predict.Qualifying_Position p /\
      (predict.Driver p = Some "VER"%string ->
       predict.Qualifying_Position p = Num 2).
Proof.
  eexists. split; [reflexivity|]. split; [reflexivity|].
  intros p Hin.
  destruct (predict_race_entries (api := fastf1_reference.api)
              (numpy := np_exact.api) (provider := sample_results_provider)
              sample_predictor 2025%Z "Monaco"%string None
              (Some (Num (3 # 10))) _ p eq_refl Hin)
    as (d & i & Hd & _ & _ & Hg & Hw & Hq).
  split; [exact (Hw _ eq_refl)|]. split; [exact Hg|].
  intros Hver. rewrite Hd in Hver. injection Hver as ->.
  exact (Hq eq_refl _ _ eq_refl).
Defined.

(** [predict_race] with a failing qualifying estimator. *)
Lemma predict_race_fails :
  forall {api : fastf1.LapsApi} {numpy : np.Api}
         {provider : predict.SessionProvider}
         (self : predict.Predictor) (year : Z) (event_name : string)
         (driver_list : option (list string))
         (weather_override : option pyfloat) (e : exn),
    (forall f, predict.quali_model self f = Raise e) ->
    let session_q := predict.get_session_data year event_name "Q" false false in
    predict.predict_race self year event_name driver_list weather_override
    = match session_q with
      | Some s =>
          match fastf1.results s with
          | Some _ => Raise e
          | None => Raise (AttributeError "empty")
          end
      | None => Raise e
      end.
Proof.
  intros api numpy provider self year event_name driver_list weather_override
         e H session_q.
  assert (Hall : forall d l acc practice_session,
             predict.predict_all self year event_name session_q
               practice_session weather_override (d :: l) acc
             = match session_q with
               | Some s =>
                   match fastf1.results s with
                   | Some _ => Raise e
                   | None => Raise (AttributeError "empty")
                   end
               | None => Raise e
               end).
  { intros d l acc practice_session.
    rewrite (predict_all_raises_first _ _ _ _ _ _ _ _ _ e H).
    unfold predict.has_results. destruct session_q as [s|]; [|reflexivity].
    now destruct (fastf1.results s). }
  unfold predict.predict_race. cbv zeta. fold session_q.
  clearbody session_q.
  assert (Hfin : forall d l practice_session,
             (predictions <-
                predict.predict_all self year event_name session_q
                  practice_session weather_override (d :: l) [] ;;
              Ok (predict.rank_predictions predictions))
             = match session_q with
               | Some s =>
                   match fastf1.results s with
                   | Some _ => Raise e
                   | None => Raise (AttributeError "empty")
                   end
               | None => Raise e
               end).
  { intros d l practice_session. rewrite Hall.
    destruct session_q as [s|]; [|reflexivity].
    now destruct (fastf1.results s). }
  destruct driver_list as [[|d ds]|]; [|cbn [bind]; apply Hfin|];
    (destruct (has_results_cases session_q) as [[Hres Hne]|[Hres|[Hres Hs]]];
     rewrite Hres; cbn [bind];
     [destruct (predict.session_results session_q) as [|r rs];
      [now elim Hne | cbn [map]; apply Hfin]
     |unfold predict.fallback_drivers; apply Hfin
     |destruct Hs as (s & -> & Hr); now rewrite Hr]).
Qed.

(** X21. When the qualifying estimator fails, [predict_race] never
    returns a ranking, whatever the driver list and the sessions are:
    the list it works on is never empty, and the first driver's
    prediction already fails.  It raises the estimator's exception,
    unless the results of the qualifying session hold [None]: then
    testing them raises an [AttributeError] before any estimator is
    called. *)
Theorem predict_race_propagates_failure :
  forall {api : fastf1.LapsApi} {numpy : np.Api}
         {provider : predict.SessionProvider}
         (self : predict.Predictor) (year : Z) (event_name : string)
         (driver_list : option (list string))
         (weather_override : option pyfloat) (e : exn),
    (forall f, predict.quali_model self f = Raise e) ->
    let session_q := predict.get_session_data year event_name "Q" false false in
    predict.predict_race self year event_name driver_list weather_override
    = match session_q with
      | Some s =>
          match fastf1.results s with
          | Some _ => Raise e
          | None => Raise (AttributeError "empty")
          end
      | None => Raise e
      end.
Proof.
  intros api numpy provider self year event_name driver_list weather_override
         e H.
  exact (predict_race_fails self year event_name driver_list
           weather_override e H).
Qed.

Lemma predict_race_propagates_failure_witness :
  predict.predict_race (api := fastf1_reference.api) (numpy := np_exact.api)
    (provider := sample_results_provider)
    sample_broken_predictor 2025 "Monaco" None None
  = Raise LinAlgError /\
  predict.predict_race (api := fastf1_reference.api) (numpy := np_exact.api)
    (provider := sample_provider "conventional")
    sample_broken_predictor 2024 "Miami" (Some ["VER"]%string) None
  = Raise (AttributeError "empty").
Proof.
  split.
  - apply (predict_race_propagates_failure (api := fastf1_reference.api)
             (numpy := np_exact.api) (provider := sample_results_provider)
             sample_broken_predictor 2025%Z "Monaco"%string None None
             LinAlgError).
    reflexivity.
  - apply (predict_race_propagates_failure (api := fastf1_reference.api)
             (numpy := np_exact.api)
             (provider := sample_provider "conventional")
             sample_broken_predictor 2024%Z "Miami"%string
             (Some ["VER"]%string) None LinAlgError).
    reflexivity.
Defined.

(** ** Training labels and ranking groups *)

Lemma relevance_cases (y : pyfloat) :
  match y with
  | NaN => race.relevance y = 0
  | Num q => (q <= 21 /\ race.relevance y = 21 - q)
             \/ (21 < q /\ race.relevance y = 0)
  end.
Proof.
  destruct y as [q|]; [|reflexivity].
  unfold race.relevance. cbv zeta.
  destruct (Qle_bool 0 (21 - q)) eqn:E.
  - left. apply Qle_bool_iff in E. split; [lra | reflexivity].
  - right. split; [|reflexivity].
    apply Qnot_le_lt. intros H. apply Bool.not_true_iff_false in E.
    apply E, Qle_bool_iff. lra.
Qed.

(** X22. The relevance label of a finishing position is never negative;
    it is 21 minus the position for positions up to 21 and 0 beyond; a
    missing position gets the label 0, like a 21st place.  Between two
    positions the better one never has the smaller label, and it has the
    strictly larger one when the worse position is at most 21. *)
Theorem relevance_labels_order :
  (forall y, 0 <= race.relevance y) /\
  race.relevance NaN == race.relevance (Num 21) /\
  (forall q, q <= 21 -> race.relevance (Num q) == 21 - q) /\
  (forall y, race.relevance y == 0 <->
             y = NaN \/ exists q, y = Num q /\ 21 <= q) /\
  (forall p q, p <= q -> race.relevance (Num q) <= race.relevance (Num p)) /\
  (forall p q, p < q -> q <= 21 ->
               race.relevance (Num q) < race.relevance (Num p)) /\
  (forall y, List.length (race.y_relevance y) = List.length y).
Proof.
  split; [|split; [|split; [|split; [|split; [|split]]]]].
  - intros y. pose proof (relevance_cases y) as H.
    destruct y as [q|]; [|rewrite H; lra].
    destruct H as [[H ->]|[H ->]]; lra.
  - reflexivity.
  - intros q Hq. pose proof (relevance_cases (Num q)) as H. cbv beta iota in H.
    destruct H as [[_ ->]|[H _]]; [reflexivity | lra].
  - intros y. pose proof (relevance_cases y) as H.
    destruct y as [q|].
    + destruct H as [[H ->]|[H ->]]; split.
      * intros H0. right. exists q. split; [reflexivity | lra].
      * intros [Hn|(q' & Hq' & Hge)]; [discriminate|].
        injection Hq' as ->. lra.
      * intros _. right. exists q. split; [reflexivity | lra].
      * intros _. reflexivity.
    + rewrite H. split; [now left | reflexivity].
  - intros p q Hpq.
    pose proof (relevance_cases (Num p)) as Hp.
    pose proof (relevance_cases (Num q)) as Hq. cbv beta iota in Hp, Hq.
    destruct Hp as [[Hp ->]|[Hp ->]], Hq as [[Hq ->]|[Hq ->]]; lra.
  - intros p q Hpq Hq21.
    pose proof (relevance_cases (Num p)) as Hp.
    pose proof (relevance_cases (Num q)) as Hq. cbv beta iota in Hp, Hq.
    destruct Hp as [[Hp ->]|[Hp ->]], Hq as [[Hq ->]|[Hq ->]]; lra.
  - intros y. apply length_map.
Qed.

Section GroupFacts.
Import trainer.

Lemma sort_values_fixed {A : Type} (key : A -> Z) (l : list A) :
  ascending key l -> pd.sort_values key l = l.
Proof.
  unfold ascending. induction 1 as [|x l Hs IH Hx]; [reflexivity|].
  cbn [pd.sort_values fold_right]. fold (pd.sort_values key l).
  rewrite IH. destruct l as [|y l]; [reflexivity|].
  cbn [pd.insert_asc]. inversion Hx as [|? ? Hy _]; subst.
  apply Z.leb_le in Hy. now rewrite Hy.
Qed.

Lemma run_lengths_positive (keys : list Z) :
  Forall (fun kn => (1 <= snd kn)%Z) (run_lengths keys).
Proof.
  induction keys as [|k rest IH]; cbn [run_lengths]; [constructor|].
  destruct (run_lengths rest) as [|[k' n] groups].
  - repeat constructor. cbn. lia.
  - inversion IH as [|? ? Hn Hg]; subst. cbn [snd] in Hn.
    destruct (k =? k')%Z.
    + constructor; [cbn; lia | exact Hg].
    + constructor; [cbn; lia|]. now constructor.
Qed.

Lemma run_lengths_expand (keys : list Z) :
  rounds_by_block (run_lengths keys) = keys.
Proof.
  unfold rounds_by_block.
  induction keys as [|k rest IH]; cbn [run_lengths]; [reflexivity|].
  pose proof (run_lengths_positive rest) as Hpos.
  destruct (run_lengths rest) as [|[k' n] groups].
  - cbn in IH |- *. now rewrite <- IH.
  - apply Forall_inv in Hpos. cbn [snd] in Hpos.
    cbn [map List.concat fst snd] in IH |- *.
    destruct (k =? k')%Z eqn:E.
    + apply Z.eqb_eq in E. subst k'.
      cbn [map List.concat fst snd].
      replace (Z.to_nat (n + 1)) with (S (Z.to_nat n)) by lia.
      cbn [repeat app]. now rewrite IH.
    + cbn [map List.concat fst snd]. change (Z.to_nat 1) with 1%nat.
      cbn [repeat app]. now rewrite IH.
Qed.

Lemma run_lengths_total (keys : list Z) :
  fold_right Z.add 0%Z (map snd (run_lengths keys))
  = Z.of_nat (List.length keys).
Proof.
  induction keys as [|k rest IH]; cbn [run_lengths]; [reflexivity|].
  cbn [List.length]. rewrite Nat2Z.inj_succ, <- IH.
  destruct (run_lengths rest) as [|[k' n] groups]; [reflexivity|].
  destruct (k =? k')%Z; cbn [map fold_right snd]; lia.
Qed.

Lemma run_lengths_keys (keys : list Z) (k : Z) :
  In k (map fst (run_lengths keys)) <-> In k keys.
Proof.
  induction keys as [|x rest IH]; cbn [run_lengths]; [reflexivity|].
  destruct (run_lengths rest) as [|[k' n] groups].
  - cbn in IH |- *. rewrite <- IH. tauto.
  - cbn [map fst In] in IH. destruct (x =? k')%Z eqn:E.
    + apply Z.eqb_eq in E. subst k'. cbn [map fst In]. rewrite <- IH. tauto.
    + cbn [map fst In]. rewrite <- IH. tauto.
Qed.

Lemma run_lengths_head (keys : list Z) (k n : Z) (groups : list (Z * Z)) :
  run_lengths keys = (k, n) :: groups -> exists rest, keys = k :: rest.
Proof.
  destruct keys as [|x rest]; cbn [run_lengths]; [discriminate|].
  destruct (run_lengths rest) as [|[k' n'] groups'].
  - intros H. injection H as <- _ _. now exists rest.
  - destruct (x =? k')%Z eqn:E; intros H; injection H as <- _ _.
    + apply Z.eqb_eq in E. subst. now exists rest.
    + now exists rest.
Qed.

Lemma run_lengths_distinct (keys : list Z) :
  ascending (fun k => k) keys ->
  StronglySorted Z.lt (map fst (run_lengths keys)).
Proof.
  unfold ascending. induction 1 as [|k rest Hs IH Hk]; cbn [run_lengths];
    [constructor|].
  destruct (run_lengths rest) as [|[k' n] groups] eqn:E.
  - repeat constructor.
  - cbn [map fst] in IH.
    destruct (k =? k')%Z eqn:Ek; cbn [map fst]; [exact IH|].
    apply Z.eqb_neq in Ek.
    destruct (run_lengths_head _ _ _ _ E) as (rest' & ->).
    inversion Hk as [|? ? Hkk' _]; subst.
    assert (Hlt : (k < k')%Z) by lia.
    constructor; [exact IH|].
    inversion IH as [|? ? _ Hall]; subst.
    constructor; [exact Hlt|].
    eapply Forall_impl; [|exact Hall]. cbv beta. intros a Ha. lia.
Qed.

Lemma count_occ_repeat (k x : Z) (n : nat) :
  count_occ Z.eq_dec (repeat x n) k = if (x =? k)%Z then n else 0%nat.
Proof.
  induction n as [|n IH]; cbn [repeat count_occ].
  - now destruct (x =? k)%Z.
  - destruct (Z.eq_dec x k) as [->|Hne].
    + rewrite IH, Z.eqb_refl. reflexivity.
    + rewrite IH. apply Z.eqb_neq in Hne. now rewrite Hne.
Qed.

Lemma count_occ_blocks (groups : list (Z * Z)) (k n : Z) :
  StronglySorted Z.lt (map fst groups) ->
  Forall (fun kn => (1 <= snd kn)%Z) groups ->
  In (k, n) groups ->
  Z.of_nat (count_occ Z.eq_dec (rounds_by_block groups) k) = n.
Proof.
  unfold rounds_by_block.
  induction groups as [|[k' n'] groups IH]; [intros _ _ []|].
  cbn [map fst snd List.concat]. intros Hs Hpos Hin.
  inversion Hs as [|? ? Hs' Hall]; subst.
  inversion Hpos as [|? ? Hn' Hpos']; subst. cbn [snd] in Hn'.
  rewrite count_occ_app, count_occ_repeat.
  destruct Hin as [Heq|Hin].
  - injection Heq as -> ->. rewrite Z.eqb_refl.
    assert (Hno : count_occ Z.eq_dec
                    (List.concat (map (fun kn => repeat (fst kn) (Z.to_nat (snd kn)))
                                 groups)) k = 0%nat).
    { apply count_occ_not_In. intros Hc.
      apply in_concat in Hc. destruct Hc as (blk & Hblk & Hk).
      apply in_map_iff in Hblk. destruct Hblk as ([k2 n2] & <- & H2).
      cbn [fst snd] in Hk. apply repeat_spec in Hk. subst k2.
      rewrite Forall_forall in Hall.
      assert (Hlt : (k < k)%Z)
        by (apply Hall; apply in_map_iff; now exists (k, n2)).
      lia. }
    rewrite Hno. lia.
  - assert (Hne : (k' =? k)%Z = false).
    { apply Z.eqb_neq. rewrite Forall_forall in Hall.
      assert (Hlt : (k' < k)%Z)
        by (apply Hall; apply in_map_iff; now exists (k, n)).
      lia. }
    rewrite Hne. cbn [Nat.add]. now apply IH.
Qed.

End GroupFacts.

(** X23. With a [RoundNumber] column, the groups given to the ranker
    hold one size per distinct round, in ascending order of the rounds;
    each size is the number of rows of its round, so every size is at
    least 1 and the sizes add up to the number of rows.  Read as
    consecutive blocks of rows, the groups give every row its own round
    exactly when the rows are in ascending order of round. *)
Theorem race_groups_partition_rows :
  forall train_data : list trainer.TrainRow,
    let rounds := map trainer.RoundNumber train_data in
    let groups := trainer.train_race_groups true train_data in
    Forall (fun n => (1 <= n)%Z) groups /\
    fold_right Z.add 0%Z groups = Z.of_nat (List.length train_data) /\
    StronglySorted Z.lt (map fst (trainer.groupby_size rounds)) /\
    (forall k, In k (map fst (trainer.groupby_size rounds)) <-> In k rounds) /\
    (forall k n, In (k, n) (trainer.groupby_size rounds) ->
                 n = Z.of_nat (count_occ Z.eq_dec rounds k)) /\
    (rounds_by_block (trainer.groupby_size rounds) = rounds <->
     ascending (fun k => k) rounds).
Proof.
  intros train_data rounds groups.
  unfold groups, trainer.train_race_groups. fold rounds.
  unfold trainer.groupby_size.
  pose proof (sort_values_perm (fun k : Z => k) rounds) as Hperm.
  pose proof (sort_values_sorted (fun k : Z => k) rounds) as Hsorted.
  split; [|split; [|split; [|split; [|split]]]].
  - pose proof (run_lengths_positive
                  (pd.sort_values (fun k : Z => k) rounds)) as H.
    rewrite Forall_forall in H |- *. intros n Hn.
    apply in_map_iff in Hn. destruct Hn as (kn & <- & Hkn). now apply H.
  - rewrite run_lengths_total, (Permutation_length Hperm).
    unfold rounds. now rewrite length_map.
  - now apply run_lengths_distinct.
  - intros k. rewrite run_lengths_keys.
    split; apply Permutation_in; [exact Hperm | now apply Permutation_sym].
  - intros k n Hin.
    rewrite <- (count_occ_blocks _ k n
                  (run_lengths_distinct _ Hsorted)
                  (run_lengths_positive _) Hin).
    rewrite run_lengths_expand. f_equal.
    apply Permutation_count_occ. now apply Permutation_sym.
  - rewrite run_lengths_expand. split.
    + intros H. rewrite <- H. exact Hsorted.
    + apply sort_values_fixed.
Qed.

Lemma race_groups_partition_rows_witness :
  trainer.train_race_groups true sample_one_season = [2; 2; 1]%Z /\
  ascending (fun k => k) (map trainer.RoundNumber sample_one_season) /\
  rounds_by_block
    (trainer.groupby_size (map trainer.RoundNumber sample_one_season))
  = map trainer.RoundNumber sample_one_season /\
  trainer.train_race_groups true sample_two_seasons = [4; 2]%Z /\
  rounds_by_block
    (trainer.groupby_size (map trainer.RoundNumber sample_two_seasons))
  <> map trainer.RoundNumber sample_two_seasons.
Proof.
  split; [reflexivity|].
  assert (Hasc : ascending (fun k => k)
                   (map trainer.RoundNumber sample_one_season)).
  { unfold ascending. repeat constructor; cbn; lia. }
  split; [exact Hasc|]. split; [|split; [reflexivity | discriminate]].
  exact (proj2 (proj2 (proj2 (proj2 (proj2 (proj2
           (race_groups_partition_rows sample_one_season)))))) Hasc).
Defined.

(** ** Weather *)

Section WeatherFacts.
Import weather.

Lemma find_first {A : Type} (f : A -> bool) (l : list A) (x : A) :
  find f l = Some x ->
  exists before after,
    l = (before ++ x :: after)%list /\ f x = true /\
    forall y, In y before -> f y = false.
Proof.
  induction l as [|a l IH]; [discriminate|]. cbn [find].
  destruct (f a) eqn:E.
  - intros H. injection H as ->. exists [], l.
    split; [reflexivity|]. split; [exact E | intros y []].
  - intros H. destruct (IH H) as (before & after & -> & Hx & Hb).
    exists (a :: before), after. split; [reflexivity|]. split; [exact Hx|].
    intros y [<-|Hy]; [exact E | now apply Hb].
Qed.

Lemma partial_match_iff (key name : string) :
  partial_match key name = true <-> overlaps key name.
Proof.
  unfold partial_match, overlaps, occurs_in.
  now rewrite orb_true_iff, !contains_iff.
Qed.

Lemma partial_match_false_iff (key name : string) :
  partial_match key name = false <-> ~ overlaps key name.
Proof.
  rewrite <- partial_match_iff. now destruct (partial_match key name).
Qed.

Lemma dict_get_In {V : Type} (d : list (string * V)) (key : string) (v : V) :
  dict_get d key = Some v -> In (key, v) d.
Proof.
  unfold dict_get. destruct (find _ d) as [[k v']|] eqn:E; [|discriminate].
  cbn. intros H. injection H as ->.
  apply find_some in E. destruct E as [Hin Hk]. cbn in Hk.
  apply String.eqb_eq in Hk. now subst.
Qed.

Lemma dict_get_None {V : Type} (d : list (string * V)) (key : string) :
  (forall v, ~ In (key, v) d) -> dict_get d key = None.
Proof.
  intros H. unfold dict_get.
  destruct (find _ d) as [[k v]|] eqn:E; [|reflexivity].
  apply find_some in E. destruct E as [Hin Hk]. cbn in Hk.
  apply String.eqb_eq in Hk. subst. now elim (H v).
Qed.

Lemma closest_loop_from (t : Q) (fs : list Forecast) :
  forall (f0 : Forecast) (d0 : Q) (res : option (Forecast * Q)),
    closest_loop t fs (Some (f0, d0)) = Some res ->
    exists f d,
      res = Some (f, d) /\
      ((f = f0 /\ d = d0 /\
        forall g, In g fs ->
                  exists dg, time_distance t g = Some dg /\ d0 <= dg)
       \/
       (exists before after,
          fs = (before ++ f :: after)%list /\ time_distance t f = Some d /\
          d < d0 /\
          (forall g, In g before ->
                     exists dg, time_distance t g = Some dg /\ d < dg) /\
          (forall g, In g after ->
                     exists dg, time_distance t g = Some dg /\ d <= dg))).
Proof.
  induction fs as [|g rest IH]; intros f0 d0 res; cbn [closest_loop].
  - intros H. injection H as <-. exists f0, d0. split; [reflexivity|].
    left. split; [reflexivity|]. split; [reflexivity | intros g []].
  - unfold closest_step.
    destruct (f_dt g) as [x|] eqn:Ex; [|discriminate]. cbv zeta.
    assert (Hg : time_distance t g = Some (Qabs (x - t)))
      by (unfold time_distance; now rewrite Ex).
    destruct (Qle_bool d0 (Qabs (x - t))) eqn:E; cbn [negb]; intros H.
    + apply Qle_bool_iff in E.
      destruct (IH _ _ _ H) as (f & d & -> & [(-> & -> & Hall)|Hright]).
      * exists f0, d0. split; [reflexivity|]. left.
        split; [reflexivity|]. split; [reflexivity|].
        intros g' [<-|Hin]; [now exists (Qabs (x - t)) | now apply Hall].
      * destruct Hright as (before & after & -> & Hf & Hlt & Hb & Ha).
        exists f, d. split; [reflexivity|]. right.
        exists (g :: before), after. split; [reflexivity|].
        split; [exact Hf|]. split; [exact Hlt|]. split; [|exact Ha].
        intros g' [<-|Hin]; [|now apply Hb].
        exists (Qabs (x - t)). split; [exact Hg | lra].
    + assert (Hlt : Qabs (x - t) < d0).
      { apply Qnot_le_lt. intros Hle. apply Qle_bool_iff in Hle.
        congruence. }
      destruct (IH _ _ _ H) as (f & d & -> & [(-> & -> & Hall)|Hright]).
      * exists g, (Qabs (x - t)). split; [reflexivity|]. right.
        exists [], rest. split; [reflexivity|]. split; [exact Hg|].
        split; [exact Hlt|]. split; [intros g' [] | exact Hall].
      * destruct Hright as (before & after & -> & Hf & Hlt' & Hb & Ha).
        exists f, d. split; [reflexivity|]. right.
        exists (g :: before), after. split; [reflexivity|].
        split; [exact Hf|]. split; [lra|]. split; [|exact Ha].
        intros g' [<-|Hin]; [|now apply Hb].
        exists (Qabs (x - t)). split; [exact Hg | exact Hlt'].
Qed.

Lemma closest_loop_total (t : Q) (fs : list Forecast)
    (state : option (Forecast * Q)) :
  Forall (fun f => f_dt f <> None) fs ->
  exists res, closest_loop t fs state = Some res.
Proof.
  intros H; revert state; induction H as [|g rest Hg _ IH]; intros state;
    cbn [closest_loop]; [now exists state|].
  unfold closest_step. destruct (f_dt g) as [x|]; [|now elim Hg].
  cbv zeta. destruct state as [[f0 d0]|]; [|apply IH].
  destruct (negb (Qle_bool d0 (Qabs (x - t)))); apply IH.
Qed.

Lemma closest_loop_first (t : Q) (fs : list Forecast)
    (res : option (Forecast * Q)) :
  fs <> [] ->
  closest_loop t fs None = Some res ->
  exists before f after d,
    res = Some (f, d) /\
    fs = (before ++ f :: after)%list /\ time_distance t f = Some d /\
    (forall g, In g before ->
               exists dg, time_distance t g = Some dg /\ d < dg) /\
    (forall g, In g after ->
               exists dg, time_distance t g = Some dg /\ d <= dg).
Proof.
  destruct fs as [|g rest]; [intros H; now elim H|]. intros _.
  cbn [closest_loop]. unfold closest_step.
  destruct (f_dt g) as [x|] eqn:Ex; [|discriminate]. cbv zeta.
  assert (Hg : time_distance t g = Some (Qabs (x - t)))
    by (unfold time_distance; now rewrite Ex).
  intros H.
  destruct (closest_loop_from _ _ _ _ _ H)
    as (f & d & -> & [(-> & -> & Hall)|Hright]).
  - exists [], g, rest, (Qabs (x - t)). split; [reflexivity|].
    split; [reflexivity|]. split; [exact Hg|].
    split; [intros g' [] | exact Hall].
  - destruct Hright as (before & after & -> & Hf & Hlt & Hb & Ha).
    exists (g :: before), f, after, d. split; [reflexivity|].
    split; [reflexivity|]. split; [exact Hf|]. split; [|exact Ha].
    intros g' [<-|Hin]; [|now apply Hb].
    exists (Qabs (x - t)). split; [exact Hg | exact Hlt].
Qed.

Lemma closest_loop_missing_dt (t : Q) (fs : list Forecast)
    (state : option (Forecast * Q)) :
  Exists (fun f => f_dt f = None) fs ->
  closest_loop t fs state = None.
Proof.
  intros H; revert state; induction fs as [|g rest IH]; intros state;
    [inversion H|].
  cbn [closest_loop]. unfold closest_step.
  destruct (f_dt g) as [x|] eqn:Ex; [|reflexivity].
  cbv zeta.
  assert (Hrest : Exists (fun f => f_dt f = None) rest)
    by (inversion H as [? ? Hg|]; subst; [congruence | assumption]).
  destruct state as [[f0 d0]|]; [|now apply IH].
  destruct (negb (Qle_bool d0 (Qabs (x - t)))); now apply IH.
Qed.

End WeatherFacts.

(** X24. Every key of the coordinate table gets its own coordinates,
    also when an earlier key is contained in it or contains it.  A name
    of ASCII characters that is no key gets the coordinates of the first
    key, in the order of the table, that occurs in the name or in which
    the name occurs (letter case ignored), and the default coordinates
    exactly when there is no such key.  So a name of ASCII characters
    that occurs in "bahrain", the empty name among them, gets the
    coordinates of Bahrain and not the default. *)
Theorem circuit_coordinates_lookup :
  forall circuit_name : string,
    (forall key coords,
       In (key, coords) weather.CIRCUIT_COORDINATES ->
       weather.get_circuit_coordinates key = coords)
    /\
    (pystr.isascii circuit_name = true ->
     ((forall coords,
         ~ In (circuit_name, coords) weather.CIRCUIT_COORDINATES) ->
      (weather.get_circuit_coordinates circuit_name
       = weather.default_coordinates /\
       forall key coords,
         In (key, coords) weather.CIRCUIT_COORDINATES ->
         ~ overlaps key circuit_name)
      \/
      (exists before key coords after,
         weather.CIRCUIT_COORDINATES
         = (before ++ (key, coords) :: after)%list /\
         overlaps key circuit_name /\
         (forall kv, In kv before -> ~ overlaps (fst kv) circuit_name) /\
         weather.get_circuit_coordinates circuit_name = coords))
     /\
     (occurs_in (pystr.lower circuit_name) "bahrain" ->
      weather.get_circuit_coordinates circuit_name
      = (260325 # 10000, 505106 # 10000))).
Proof.
  intros circuit_name. split; [|intros _; split].
  - intros key coords Hin. unfold weather.CIRCUIT_COORDINATES in Hin.
    cbn [In] in Hin.
    repeat (destruct Hin as [Hin|Hin];
            [injection Hin as <- <-; reflexivity|]).
    destruct Hin.
  - intros Hno. unfold weather.get_circuit_coordinates.
    rewrite (dict_get_None _ _ Hno).
    destruct (find _ weather.CIRCUIT_COORDINATES) as [[key coords]|] eqn:E.
    + right. destruct (find_first _ _ _ E)
        as (before & after & Hsplit & Hkey & Hbefore).
      exists before, key, coords, after. split; [exact Hsplit|].
      split; [now apply partial_match_iff|]. split; [|reflexivity].
      intros kv Hkv. apply partial_match_false_iff. now apply Hbefore.
    + left. split; [reflexivity|]. intros key coords Hin.
      apply partial_match_false_iff.
      exact (find_none _ _ E (key, coords) Hin).
  - intros Hocc. unfold weather.get_circuit_coordinates.
    assert (Hpm : weather.partial_match "Bahrain" circuit_name = true).
    { apply partial_match_iff. right. exact Hocc. }
    destruct (weather.dict_get weather.CIRCUIT_COORDINATES circuit_name)
      as [coords|] eqn:E.
    + apply dict_get_In in E.
      apply contains_iff in Hocc.
      unfold weather.CIRCUIT_COORDINATES in E. cbn [In] in E.
      repeat (destruct E as [E|E];
              [injection E as <- <-;
               first [reflexivity | discriminate Hocc]|]).
      destruct E.
    + unfold weather.CIRCUIT_COORDINATES. cbn [find fst]. rewrite Hpm.
      reflexivity.
Qed.

Lemma circuit_coordinates_lookup_witness :
  pystr.isascii "" = true /\
  weather.get_circuit_coordinates "" = (260325 # 10000, 505106 # 10000) /\
  pystr.isascii "monaco grand prix" = true /\
  weather.get_circuit_coordinates "monaco grand prix"
  = (437347 # 10000, 74206 # 10000) /\
  weather.get_circuit_coordinates "Spa" = (504372 # 10000, 59714 # 10000) /\
  weather.get_circuit_coordinates "Mexico City"
  = (194042 # 10000, (-990907)%Z # 10000).
Proof.
  split; [reflexivity|]. split; [|split; [reflexivity|split; [|split]]].
  - apply (proj2 (proj2 (circuit_coordinates_lookup "") eq_refl)).
    exists ""%string, "bahrain"%string. reflexivity.
  - destruct (proj1 (proj2 (circuit_coordinates_lookup "monaco grand prix")
                       eq_refl))
      as [[_ Hnone]|(before & key & coords & after & _ & _ & _ & Hc)].
    + intros coords Hin. unfold weather.CIRCUIT_COORDINATES in Hin.
      cbn [In] in Hin.
      repeat (destruct Hin as [Hin|Hin]; [discriminate Hin|]).
      destruct Hin.
    + exfalso. apply (Hnone "Monaco"%string (437347 # 10000, 74206 # 10000)).
      * unfold weather.CIRCUIT_COORDINATES. do 12 right. left. reflexivity.
      * left. exists ""%string, " grand prix"%string. reflexivity.
    + reflexivity.
  - apply (proj1 (circuit_coordinates_lookup "")).
    unfold weather.CIRCUIT_COORDINATES. do 25 right. left. reflexivity.
  - apply (proj1 (circuit_coordinates_lookup "")).
    unfold weather.CIRCUIT_COORDINATES. do 37 right. left. reflexivity.
Defined.

(** X25. With an API key, a target time in the future and a forecast
    answer of status 200 whose entries all carry a time, the report is
    made of the entry closest in time to the target, the first one among
    equally close entries: every earlier entry is strictly farther and no
    later entry is nearer.  Its rain probability is the entry's ['pop'],
    0.0 without one; an entry without temperature or description gives
    the default report. *)
Theorem forecast_is_closest :
  forall {api : weather.WeatherApi} (lat lon t : Q) (k : string)
         (forecasts : list weather.Forecast),
    weather.OPENWEATHER_API_KEY = Some k -> k <> ""%string ->
    weather.now < t ->
    weather.get_forecast lat lon
    = Some (weather.mkResponse 200 forecasts) ->
    forecasts <> [] ->
    Forall (fun f => weather.f_dt f <> None) forecasts ->
    exists before f after d,
      forecasts = (before ++ f :: after)%list /\
      time_distance t f = Some d /\
      (forall g, In g before ->
                 exists dg, time_distance t g = Some dg /\ d < dg) /\
      (forall g, In g after ->
                 exists dg, time_distance t g = Some dg /\ d <= dg) /\
      weather.get_weather_forecast lat lon (Some t)
      = match report_of f with
        | Some w => w
        | None => weather.default_weather "Error"
        end.
Proof.
  intros api lat lon t k forecasts Hkey Hk Hnow Hget Hne Hdt.
  destruct (closest_loop_total t forecasts None Hdt) as (res & Hres).
  destruct (closest_loop_first t forecasts res Hne Hres)
    as (before & f & after & d & -> & Hsplit & Hf & Hb & Ha).
  exists before, f, after, d.
  split; [exact Hsplit|]. split; [exact Hf|]. split; [exact Hb|].
  split; [exact Ha|].
  unfold weather.get_weather_forecast. rewrite Hkey.
  assert (Hk' : String.eqb k "" = false) by now apply String.eqb_neq.
  rewrite Hk'. cbv zeta.
  assert (Hfut : Qle_bool t weather.now = false).
  { apply Bool.not_true_iff_false. intros Hle. apply Qle_bool_iff in Hle.
    lra. }
  rewrite Hfut. cbn [negb].
  unfold weather.forecast_branch. rewrite Hget.
  cbn [weather.status_code weather.data Z.eqb Pos.eqb negb]. rewrite Hres.
  unfold report_of.
  destruct (weather.f_temp f), (weather.f_description f); reflexivity.
Qed.

Lemma forecast_is_closest_witness :
  exists f,
    nth_error sample_forecasts 1 = Some f /\
    weather.get_weather_forecast (api := sample_weather_api) 0 0 (Some 1000)
    = weather.mkWeather 21 (6 # 10) "light rain" /\
    exists before after d,
      sample_forecasts = (before ++ f :: after)%list /\
      time_distance 1000 f = Some d.
Proof.
  destruct (forecast_is_closest (api := sample_weather_api) 0 0 1000
              "key"%string sample_forecasts eq_refl)
    as (before & f & after & d & Hsplit & Hf & Hb & Ha & Hres).
  - discriminate.
  - reflexivity.
  - reflexivity.
  - discriminate.
  - repeat constructor; discriminate.
  - exists (weather.mkForecast (Some 900) (Some 21) (Some (6 # 10))
              (Some "light rain"%string)).
    split; [reflexivity|]. split; [reflexivity|].
    exists [weather.mkForecast (Some 400) (Some 20) (Some (1 # 10))
              (Some "clear sky"%string)],
           [weather.mkForecast (Some 1100) (Some 22) None
              (Some "few clouds"%string)].
    eexists. split; reflexivity.
Defined.

(** X26. Without an API key (unset or empty) the report is the default
    25.0 degrees without rain, whatever the endpoints would answer.
    With a key, a forecast answer without entries makes the function
    fall back on the current weather, and one entry without a time makes
    it give the default report even when a complete entry is closer.  A
    report for the current weather is the default one or has a rain
    probability of 0 or 1, and 1 exactly when "rain" occurs in the main
    condition, letter case ignored. *)
Theorem weather_fallbacks :
  forall {api : weather.WeatherApi} (lat lon : Q),
    (weather.OPENWEATHER_API_KEY = None \/
     weather.OPENWEATHER_API_KEY = Some ""%string ->
     forall target,
       weather.get_weather_forecast lat lon target
       = weather.default_weather "Unknown")
    /\
    (forall k t,
       weather.OPENWEATHER_API_KEY = Some k -> k <> ""%string ->
       weather.now < t ->
       weather.get_forecast lat lon = Some (weather.mkResponse 200 []) ->
       weather.get_weather_forecast lat lon (Some t)
       = weather.get_weather_forecast lat lon None)
    /\
    (forall k t forecasts,
       weather.OPENWEATHER_API_KEY = Some k -> k <> ""%string ->
       weather.now < t ->
       weather.get_forecast lat lon
       = Some (weather.mkResponse 200 forecasts) ->
       Exists (fun f => weather.f_dt f = None) forecasts ->
       weather.get_weather_forecast lat lon (Some t)
       = weather.default_weather "Error")
    /\
    (let w := weather.get_weather_forecast lat lon None in
     w = weather.default_weather "Unknown" \/
     w = weather.default_weather "Error" \/
     exists response main,
       weather.get_current lat lon = Some response /\
       weather.c_main (weather.data response) = Some main /\
       weather.c_temp (weather.data response)
       = Some (weather.temperature w) /\
       ((weather.rain_probability w = 1 /\
         occurs_in "rain" (pystr.lower main))
        \/ (weather.rain_probability w = 0 /\
            ~ occurs_in "rain" (pystr.lower main)))).
Proof.
  intros api lat lon. split; [|split; [|split]].
  - intros Hkey target. unfold weather.get_weather_forecast.
    destruct Hkey as [-> | ->]; reflexivity.
  - intros k t Hkey Hk Hnow Hget.
    unfold weather.get_weather_forecast. rewrite Hkey.
    assert (Hk' : String.eqb k "" = false) by now apply String.eqb_neq.
    rewrite Hk'. cbv zeta.
    assert (Hfut : Qle_bool t weather.now = false).
    { apply Bool.not_true_iff_false. intros Hle. apply Qle_bool_iff in Hle.
      lra. }
    rewrite Hfut. cbn [negb]. unfold weather.forecast_branch. rewrite Hget.
    reflexivity.
  - intros k t forecasts Hkey Hk Hnow Hget Hmiss.
    unfold weather.get_weather_forecast. rewrite Hkey.
    assert (Hk' : String.eqb k "" = false) by now apply String.eqb_neq.
    rewrite Hk'. cbv zeta.
    assert (Hfut : Qle_bool t weather.now = false).
    { apply Bool.not_true_iff_false. intros Hle. apply Qle_bool_iff in Hle.
      lra. }
    rewrite Hfut. cbn [negb]. unfold weather.forecast_branch. rewrite Hget.
    cbn [weather.status_code weather.data Z.eqb Pos.eqb negb].
    now rewrite closest_loop_missing_dt.
  - cbv zeta. unfold weather.get_weather_forecast.
    destruct (match weather.OPENWEATHER_API_KEY with
              | Some k => String.eqb k ""
              | None => true
              end); [now left|].
    right. cbv zeta. unfold weather.current_weather.
    destruct (weather.get_current lat lon) as [response|]; [|now left].
    destruct (negb (weather.status_code response =? 200)%Z); [now left|].
    destruct (weather.c_temp (weather.data response)) as [temp|] eqn:Et;
      [|now left].
    destruct (weather.c_main (weather.data response)) as [main|] eqn:Em;
      [|now left].
    destruct (weather.c_description (weather.data response)) as [desc|];
      [|now left].
    right. exists response, main. split; [reflexivity|].
    split; [exact Em|]. cbv zeta. cbn [weather.temperature].
    split; [exact Et|]. cbn [weather.rain_probability].
    destruct (pystr.contains "rain" (pystr.lower main)) eqn:E.
    + left. split; [reflexivity|]. now apply contains_iff.
    + right. split; [reflexivity|]. intros H. apply contains_iff in H.
      congruence.
Qed.

Lemma weather_fallbacks_witness :
  weather.get_weather_forecast (api := sample_weather_api) 0 0 None
  = weather.mkWeather 19 1 "moderate rain" /\
  (weather.get_weather_forecast (api := sample_weather_api) 0 0 None
   = weather.default_weather "Unknown" \/
   weather.get_weather_forecast (api := sample_weather_api) 0 0 None
   = weather.default_weather "Error" \/
   exists response main,
     weather.get_current (WeatherApi := sample_weather_api) 0 0
     = Some response /\
     weather.c_main (weather.data response) = Some main /\
     weather.c_temp (weather.data response)
     = Some (weather.temperature
               (weather.get_weather_forecast (api := sample_weather_api)
                  0 0 None)) /\
     ((weather.rain_probability
         (weather.get_weather_forecast (api := sample_weather_api) 0 0 None)
       = 1 /\ occurs_in "rain" (pystr.lower main))
      \/ (weather.rain_probability
            (weather.get_weather_forecast (api := sample_weather_api)
               0 0 None) = 0 /\
          ~ occurs_in "rain" (pystr.lower main)))).
Proof.
  split; [reflexivity|].
  exact (proj2 (proj2 (proj2 (weather_fallbacks (api := sample_weather_api)
                                0 0)))).
Defined.

(** ** Feature extraction for a session *)

Section ProcessorFacts.
Import processor.
Context {api : fastf1.LapsApi} {numpy : np.Api}.

Lemma delta_result (session : fastf1.Session) (d : string)
    (teammate : option string) :
  (driver.falsy teammate = false /\
   exists e, fastf1.laps session = Raise e /\
             driver.calculate_qualifying_delta_to_teammate session d teammate
             = Raise e)
  \/
  ((driver.falsy teammate = true \/ exists l, fastf1.laps session = Ok l) /\
   exists x, driver.calculate_qualifying_delta_to_teammate session d teammate
             = Ok (Num x)).
Proof.
  unfold driver.calculate_qualifying_delta_to_teammate.
  destruct (driver.falsy teammate) eqn:Ef.
  - right. split; [now left | now exists 0].
  - destruct (fastf1.laps session) as [l|e] eqn:El; cbn [bind].
    + right. split; [right; now exists l|].
      destruct (pd.empty _ || pd.empty _); [now exists 0|].
      destruct (fastf1.pick_fastest _) as [fa|]; [|now exists 0].
      destruct (fastf1.pick_fastest _) as [fb|]; [|now exists 0].
      destruct (fastf1.LapTime fa) as [ta|]; [|now exists 0].
      destruct (fastf1.LapTime fb) as [tb|]; [|now exists 0].
      now exists (Qred (ta - tb)).
    + left. split; [reflexivity|]. now exists e.
Qed.

Lemma delta_swap (session : fastf1.Session) (a b : string) (x : Q) :
  a <> ""%string -> b <> ""%string ->
  driver.calculate_qualifying_delta_to_teammate session a (Some b)
  = Ok (Num x) ->
  exists y,
    driver.calculate_qualifying_delta_to_teammate session b (Some a)
    = Ok (Num y) /\ y == - x.
Proof.
  intros Ha Hb.
  unfold driver.calculate_qualifying_delta_to_teammate. simpl driver.falsy.
  replace (String.eqb a "") with false by (symmetry; now apply String.eqb_neq).
  replace (String.eqb b "") with false by (symmetry; now apply String.eqb_neq).
  destruct (fastf1.laps session) as [session_laps|e];
    [|discriminate]. cbn [bind].
  rewrite (orb_comm (pd.empty (fastf1.pick_drivers session_laps b))).
  destruct (pd.empty (fastf1.pick_drivers session_laps a)
            || pd.empty (fastf1.pick_drivers session_laps b)).
  { intros H; injection H as <-. exists 0. split; reflexivity. }
  destruct (fastf1.pick_fastest (fastf1.pick_drivers session_laps a))
    as [fa|];
    destruct (fastf1.pick_fastest (fastf1.pick_drivers session_laps b))
    as [fb|];
    try (intros H; injection H as <-; exists 0; split; reflexivity).
  destruct (fastf1.LapTime fa) as [ta|];
    destruct (fastf1.LapTime fb) as [tb|];
    try (intros H; injection H as <-; exists 0; split; reflexivity).
  intros H. assert (Hx : Qred (ta - tb) = x) by (unfold fl in H; congruence).
  exists (Qred (tb - ta)). split; [reflexivity|].
  rewrite <- Hx, !Qred_correct. ring.
Qed.

(** What one pass of the loop body gives. *)
Lemma features_of_row_inv (view : SessionView)
    (driver_history constructor_history : list ResultRow)
    (practice_session : option fastf1.Session)
    (results : list ResultsRow) (row : ResultsRow) (feat : Features) :
  features_of_row view driver_history constructor_history practice_session
    results row = Ok feat ->
  driver.calculate_qualifying_delta_to_teammate (session view)
    (row_index row)
    (teammate_of results (row_TeamName row) (row_index row))
  = Ok (feat_QualiDeltaTeammate feat) /\
  feat_Driver feat = row_index row /\
  feat_TargetPosition feat = row_Position row /\
  feat_GridPosition feat
  = (if has_GridPosition view then row_GridPosition row else Num 0) /\
  feat_RoundNumber feat = fastf1.RoundNumber (session_event view) /\
  feat_Circuit feat = fastf1.EventName (session_event view) /\
  feat_TrackTemp feat = track.calculate_track_temp_avg (session view) /\
  feat_OvertakeDifficulty feat
  = track.get_track_overtake_difficulty
      (fastf1.EventName (session_event view)) /\
  (feat_RacePace feat, feat_TireDegradation feat, feat_TopSpeed feat,
   feat_RainProbability feat)
  = practice_tuple practice_session (row_Abbreviation row).
Proof.
  unfold features_of_row, practice_tuple. cbv zeta.
  destruct (driver.calculate_qualifying_delta_to_teammate _ _ _) as [x|e];
    [|discriminate]. cbn [bind].
  destruct (match practice_session with
            | Some _ => _
            | None => _
            end) as [[[rp td] ts] rn].
  intros H. injection H as <-. cbn. repeat split; reflexivity.
Qed.

Lemma features_of_row_result (view : SessionView)
    (driver_history constructor_history : list ResultRow)
    (practice_session : option fastf1.Session)
    (results : list ResultsRow) (row : ResultsRow) :
  (has_teammate results row = true /\
   exists e, fastf1.laps (session view) = Raise e /\
             features_of_row view driver_history constructor_history
               practice_session results row = Raise e)
  \/
  ((has_teammate results row = false
    \/ exists l, fastf1.laps (session view) = Ok l) /\
   exists feat, features_of_row view driver_history constructor_history
                  practice_session results row = Ok feat).
Proof.
  unfold has_teammate, features_of_row. cbv zeta.
  destruct (delta_result (session view) (row_index row)
              (teammate_of results (row_TeamName row) (row_index row)))
    as [(Hf & e & Hl & ->)|(Hcase & x & ->)]; cbn [bind].
  - left. rewrite Hf. split; [reflexivity|]. now exists e.
  - right. split.
    + destruct Hcase as [-> | Hl]; [now left | now right].
    + destruct (match practice_session with
                | Some _ => _
                | None => _
                end) as [[[rp td] ts] rn].
      eexists. reflexivity.
Qed.

Lemma extract_loop_each (view : SessionView)
    (driver_history constructor_history : list ResultRow)
    (practice_session : option fastf1.Session)
    (results rows : list ResultsRow) (acc features : list Features) :
  extract_loop view driver_history constructor_history practice_session
    results rows acc = Ok features ->
  exists feats,
    features = (acc ++ feats)%list /\
    Forall2 (fun row feat =>
               features_of_row view driver_history constructor_history
                 practice_session results row = Ok feat) rows feats.
Proof.
  revert acc; induction rows as [|row rest IH]; intros acc H;
    cbn [extract_loop] in H.
  - injection H as <-. exists []. split; [now rewrite app_nil_r | constructor].
  - destruct (features_of_row view driver_history constructor_history
                practice_session results row) as [feat|e] eqn:E;
      [|discriminate H].
    cbn [bind] in H. destruct (IH _ H) as (feats & -> & Hall).
    exists (feat :: feats). split; [now rewrite <- app_assoc|].
    constructor; assumption.
Qed.

Lemma extract_loop_raises (view : SessionView)
    (driver_history constructor_history : list ResultRow)
    (practice_session : option fastf1.Session)
    (results rows : list ResultsRow) (acc : list Features) (e : exn) :
  extract_loop view driver_history constructor_history practice_session
    results rows acc = Raise e <->
  fastf1.laps (session view) = Raise e /\
  existsb (has_teammate results) rows = true.
Proof.
  revert acc; induction rows as [|row rest IH]; intros acc;
    cbn [extract_loop existsb].
  - split; [discriminate | intros [_ H]; discriminate].
  - destruct (features_of_row_result view driver_history constructor_history
                practice_session results row)
      as [(Ht & e' & Hl & ->)|(Hcase & feat & ->)]; cbn [bind].
    + rewrite Ht, Hl. cbn [orb]. split.
      * intros H. injection H as ->. now split.
      * intros [H _]. injection H as ->. reflexivity.
    + rewrite IH. destruct Hcase as [-> | (l & Hl)].
      * reflexivity.
      * rewrite Hl. split; intros [H _]; discriminate.
Qed.

Lemma extract_loop_ext (view : SessionView)
    (dh ch dh' ch' : list ResultRow)
    (practice_session : option fastf1.Session)
    (results rows : list ResultsRow) (acc : list Features) :
  (forall row, In row rows ->
     features_of_row view dh ch practice_session results row
     = features_of_row view dh' ch' practice_session results row) ->
  extract_loop view dh ch practice_session results rows acc
  = extract_loop view dh' ch' practice_session results rows acc.
Proof.
  revert acc; induction rows as [|row rest IH]; intros acc H;
    cbn [extract_loop]; [reflexivity|].
  rewrite (H row (or_introl eq_refl)).
  destruct (features_of_row view dh' ch' practice_session results row)
    as [feat|e]; cbn [bind]; [|reflexivity].
  apply IH. intros r Hr. apply H. now right.
Qed.

End ProcessorFacts.

(** X27. When the results can be read, the extraction raises exactly
    when the laps of the session cannot be read and some driver has a
    team-mate among the results, and then with the exception of the
    laps.  Otherwise it returns one feature row per result row, in the
    order of the results: each row carries the label and the finishing
    position of its result row, its entry in the grid position column
    ([nan] when the entry is missing) or 0 when the results have no such
    column, the round, circuit, track temperature and overtake
    difficulty of the session, and the pace figures of the practice
    session, all absent without one. *)
Theorem extraction_rows_and_failure :
  forall {api : fastf1.LapsApi} {numpy : np.Api} (view : processor.SessionView)
         (driver_history constructor_history : list ResultRow)
         (practice_session : option fastf1.Session)
         (results : list processor.ResultsRow),
    processor.session_results view = Ok results ->
    (forall e,
       processor.extract_features_for_session view driver_history
         constructor_history practice_session = Raise e <->
       fastf1.laps (processor.session view) = Raise e /\
       existsb (has_teammate results) results = true)
    /\
    (forall features,
       processor.extract_features_for_session view driver_history
         constructor_history practice_session = Ok features ->
       Forall2
         (fun row feat =>
            processor.feat_Driver feat = processor.row_index row /\
            processor.feat_TargetPosition feat = processor.row_Position row /\
            processor.feat_GridPosition feat
            = (if processor.has_GridPosition view
               then processor.row_GridPosition row
               else Num 0) /\
            processor.feat_RoundNumber feat
            = fastf1.RoundNumber (processor.session_event view) /\
            processor.feat_Circuit feat
            = fastf1.EventName (processor.session_event view) /\
            processor.feat_TrackTemp feat
            = track.calculate_track_temp_avg (processor.session view) /\
            processor.feat_OvertakeDifficulty feat
            = track.get_track_overtake_difficulty
                (fastf1.EventName (processor.session_event view)) /\
            (processor.feat_RacePace feat,
             processor.feat_TireDegradation feat,
             processor.feat_TopSpeed feat,
             processor.feat_RainProbability feat)
            = practice_tuple practice_session
                (processor.row_Abbreviation row))
         results features).
Proof.
  intros api numpy view dh ch ps results Hres.
  unfold processor.extract_features_for_session. rewrite Hres. split.
  - intros e. apply extract_loop_raises.
  - intros features H.
    destruct (extract_loop_each _ _ _ _ _ _ _ _ H) as (feats & -> & Hall).
    cbn [app]. clear H.
    induction Hall as [|row feat rows feats Hrow _ IH]; constructor;
      [|exact IH].
    destruct (features_of_row_inv _ _ _ _ _ _ _ Hrow)
      as (_ & H1 & H2 & H3 & H4 & H5 & H6 & H7 & H8).
    repeat split; assumption.
Qed.

Lemma extraction_rows_and_failure_witness :
  processor.extract_features_for_session
    (api := fastf1_reference.api) (numpy := np_exact.api)
    (sample_view sample_unloaded) [] [] None = Raise DataNotLoadedError /\
  (exists features,
     processor.extract_features_for_session
       (api := fastf1_reference.api) (numpy := np_exact.api)
       (sample_view sample_qualifying) [] [] None = Ok features /\
     map processor.feat_Driver features = ["16"; "55"; "1"]%string /\
     map processor.feat_GridPosition features = [Num 1; NaN; Num 3]) /\
  (exists features,
     processor.extract_features_for_session
       (api := fastf1_reference.api) (numpy := np_exact.api)
       (sample_view_without_grid sample_qualifying) [] [] None
     = Ok features /\
     map processor.feat_Driver features = ["16"; "55"; "1"]%string /\
     map processor.feat_GridPosition features = [Num 0; Num 0; Num 0]).
Proof.
  split; [|split].
  - apply (proj1 (extraction_rows_and_failure
                    (api := fastf1_reference.api) (numpy := np_exact.api)
                    (sample_view sample_unloaded) [] [] None sample_results
                    eq_refl)).
    split; reflexivity.
  - eexists. split; [reflexivity|].
    pose proof (proj2 (extraction_rows_and_failure
                         (api := fastf1_reference.api) (numpy := np_exact.api)
                         (sample_view sample_qualifying) [] [] None
                         sample_results eq_refl) _ eq_refl) as H.
    split; reflexivity.
  - eexists. split; [reflexivity|].
    pose proof (proj2 (extraction_rows_and_failure
                         (api := fastf1_reference.api) (numpy := np_exact.api)
                         (sample_view_without_grid sample_qualifying)
                         [] [] None sample_results eq_refl) _ eq_refl) as H.
    split; reflexivity.
Defined.

(** X28. Two drivers who are each other's team-mate among the results
    get opposite teammate deltas in the extracted features, and a driver
    without a team-mate gets the delta 0.0. *)
Theorem teammate_deltas_are_opposite :
  forall {api : fastf1.LapsApi} {numpy : np.Api} (view : processor.SessionView)
         (driver_history constructor_history : list ResultRow)
         (practice_session : option fastf1.Session)
         (results : list processor.ResultsRow)
         (features : list processor.Features),
    processor.session_results view = Ok results ->
    processor.extract_features_for_session view driver_history
      constructor_history practice_session = Ok features ->
    (forall i j a b fa fb,
       nth_error results i = Some a -> nth_error features i = Some fa ->
       nth_error results j = Some b -> nth_error features j = Some fb ->
       processor.row_index a <> ""%string ->
       processor.row_index b <> ""%string ->
       processor.teammate_of results (processor.row_TeamName a)
         (processor.row_index a) = Some (processor.row_index b) ->
       processor.teammate_of results (processor.row_TeamName b)
         (processor.row_index b) = Some (processor.row_index a) ->
       exists x y,
         processor.feat_QualiDeltaTeammate fa = Num x /\
         processor.feat_QualiDeltaTeammate fb = Num y /\
         y == - x)
    /\
    (forall i a fa,
       nth_error results i = Some a -> nth_error features i = Some fa ->
       has_teammate results a = false ->
       processor.feat_QualiDeltaTeammate fa = Num 0).
Proof.
  intros api numpy view dh ch ps results features Hres H.
  unfold processor.extract_features_for_session in H. rewrite Hres in H.
  destruct (extract_loop_each _ _ _ _ _ _ _ _ H) as (feats & -> & Hall).
  cbn [app]. clear H.
  assert (Hnth : forall i a fa,
             nth_error results i = Some a -> nth_error feats i = Some fa ->
             driver.calculate_qualifying_delta_to_teammate
               (processor.session view) (processor.row_index a)
               (processor.teammate_of results (processor.row_TeamName a)
                  (processor.row_index a))
             = Ok (processor.feat_QualiDeltaTeammate fa)).
  { intros i a fa Ha Hfa.
    assert (Hrow : processor.features_of_row view dh ch ps results a
                   = Ok fa)
      by exact (Forall2_nth _ _ _ _ _ _ Hall Ha Hfa).
    exact (proj1 (features_of_row_inv _ _ _ _ _ _ _ Hrow)). }
  split.
  - intros i j a b fa fb Ha Hfa Hb Hfb Hna Hnb Hta Htb.
    pose proof (Hnth _ _ _ Ha Hfa) as Da. rewrite Hta in Da.
    pose proof (Hnth _ _ _ Hb Hfb) as Db. rewrite Htb in Db.
    destruct (delta_result (processor.session view) (processor.row_index a)
                (Some (processor.row_index b)))
      as [(_ & e & _ & He)|(_ & x & Hx)]; [congruence|].
    destruct (delta_swap _ _ _ _ Hna Hnb Hx) as (y & Hy & Hyx).
    exists x, y. split; [congruence|]. split; [congruence | exact Hyx].
  - intros i a fa Ha Hfa Hno.
    pose proof (Hnth _ _ _ Ha Hfa) as Da.
    unfold has_teammate in Hno. apply negb_false_iff in Hno.
    unfold driver.calculate_qualifying_delta_to_teammate in Da.
    rewrite Hno in Da. congruence.
Qed.

Lemma teammate_deltas_are_opposite_witness :
  exists features fa fb fc,
    processor.extract_features_for_session
        (api := fastf1_reference.api) (numpy := np_exact.api)
      (sample_view sample_qualifying) [] [] None = Ok features /\
    nth_error features 0 = Some fa /\ nth_error features 1 = Some fb /\
    nth_error features 2 = Some fc /\
    processor.feat_QualiDeltaTeammate fa = Num (-1) /\
    (exists x y,
       processor.feat_QualiDeltaTeammate fa = Num x /\
       processor.feat_QualiDeltaTeammate fb = Num y /\ y == - x) /\
    processor.feat_QualiDeltaTeammate fc = Num 0.
Proof.
  do 4 eexists. split; [reflexivity|].
  split; [reflexivity|]. split; [reflexivity|]. split; [reflexivity|].
  split; [reflexivity|].
  pose proof (teammate_deltas_are_opposite
      (api := fastf1_reference.api) (numpy := np_exact.api)
                (sample_view sample_qualifying) [] [] None sample_results
                _ eq_refl eq_refl) as [Hopp Hzero].
  split.
  - apply (Hopp 0%nat 1%nat _ _ _ _ eq_refl eq_refl eq_refl eq_refl);
      [discriminate | discriminate | reflexivity | reflexivity].
  - exact (Hzero 2%nat _ _ eq_refl eq_refl eq_refl).
Defined.

(** X29. The extracted features depend on the histories only through
    the rows of the listed drivers and of the listed teams: two driver
    histories with the same rows for every listed driver, and two
    constructor histories with the same rows for every listed team, give
    the same features. *)
Theorem extraction_reads_own_history :
  forall {api : fastf1.LapsApi} {numpy : np.Api} (view : processor.SessionView)
         (dh ch dh' ch' : list ResultRow)
         (practice_session : option fastf1.Session)
         (results : list processor.ResultsRow),
    processor.session_results view = Ok results ->
    same_driver_rows results dh dh' ->
    same_team_rows results ch ch' ->
    processor.extract_features_for_session view dh ch practice_session
    = processor.extract_features_for_session view dh' ch' practice_session.
Proof.
  intros api numpy view dh ch dh' ch' ps results Hres Hd Hc.
  unfold processor.extract_features_for_session. rewrite Hres.
  apply extract_loop_ext. intros row Hrow.
  unfold processor.features_of_row. cbv zeta.
  now rewrite (Hd row Hrow), (Hc row Hrow).
Qed.

Lemma extraction_reads_own_history_witness :
  processor.extract_features_for_session
      (api := fastf1_reference.api) (numpy := np_exact.api)
    (sample_view sample_qualifying)
    (mkResultRow "HAM" 1 (Num 1) "Finished" "Mercedes" :: sample_team_history)
    (mkResultRow "HAM" 2 NaN "Engine" "Mercedes" :: sample_team_history) None
  = processor.extract_features_for_session
      (api := fastf1_reference.api) (numpy := np_exact.api)
      (sample_view sample_qualifying) sample_team_history
      sample_team_history None.
Proof.
  apply (extraction_reads_own_history
      (api := fastf1_reference.api) (numpy := np_exact.api)
           (sample_view sample_qualifying) _ _ _ _ None sample_results
           eq_refl).
  - intros row Hrow. cbn in Hrow.
    repeat (destruct Hrow as [<-|Hrow]; [reflexivity|]). destruct Hrow.
  - intros row Hrow. cbn in Hrow.
    repeat (destruct Hrow as [<-|Hrow]; [reflexivity|]). destruct Hrow.
Defined.

(** ** The prediction for the next session *)

(** X30. Without an upcoming event there is no prediction.  Unless
    qualifying has results, the weather override is ignored: the
    outcome is the prediction made without session data, whatever the
    override, also when the results of the session hold [None] and
    testing them raises.  Once qualifying has results, a prediction
    returned for a requested driver is either that driver's entry of the
    race ranking, with the name, a predicted position and the weather
    override when one was given, or, when the ranking failed, the
    prediction made without session data.  With a failing qualifying
    estimator the method never returns a prediction for an upcoming
    event: it raises the estimator's exception, or, when all drivers are
    asked for and the results of the session hold [None], the
    [AttributeError] of testing them. *)
Theorem next_session_prediction :
  forall {api : fastf1.LapsApi} {numpy : np.Api}
         {provider : predict.SessionProvider}
         {weather_api : weather.WeatherApi}
         (self : predict.Predictor) (next_event : next_session.NextEvent)
         (driver_name : option string) (weather_override : option pyfloat),
    let year := next_session.next_year next_event in
    let event_name := next_session.next_EventName next_event in
    let session_q := predict.get_session_data year event_name "Q" false false in
    next_session.predict_next_session self None driver_name weather_override
    = Ok next_session.NoPrediction
    /\
    (predict.has_results session_q <> Ok true ->
     next_session.predict_next_session self (Some next_event) driver_name
       weather_override
     = next_session.predict_upcoming self driver_name year event_name)
    /\
    (predict.has_results session_q = Ok true ->
     forall name p,
       driver_name = Some name -> name <> ""%string ->
       next_session.predict_next_session self (Some next_event) driver_name
         weather_override = Ok (next_session.DriverPrediction p) ->
       (predict.Driver p = Some name /\
        (exists i, predict.Predicted_Position p = Some i /\ (1 <= i)%Z) /\
        (forall w, weather_override = Some w ->
                   predict.Rain_Probability p = w))
       \/
       (predict.Driver p = None /\
        predict.predict_driver self name year event_name None None None
        = Ok p))
    /\
    (forall e,
       (forall f, predict.quali_model self f = Raise e) ->
       next_session.predict_next_session self (Some next_event) driver_name
         weather_override
       = if driver.falsy driver_name
         then match session_q with
              | Some s =>
                  match fastf1.results s with
                  | Some _ => Raise e
                  | None => Raise (AttributeError "empty")
                  end
              | None => Raise e
              end
         else Raise e).
Proof.
  intros api numpy provider weather_api self next_event driver_name
         weather_override year event_name session_q.
  split; [reflexivity|]. split; [|split].
  - intros Hres. unfold next_session.predict_next_session,
      next_session.try_body. cbv zeta.
    fold year event_name session_q.
    destruct (predict.has_results session_q) as [[|]|e'] eqn:Eh;
      [now elim Hres | |reflexivity].
    cbn [bind].
    now destruct (next_session.predict_upcoming self driver_name year
                    event_name).
  - intros Hres name p -> Hname.
    assert (Hn : String.eqb name "" = false) by now apply String.eqb_neq.
    unfold next_session.predict_next_session, next_session.try_body.
    cbv zeta. fold year event_name session_q. rewrite Hres. cbn [bind].
    rewrite Hn.
    destruct (predict.predict_race self year event_name _ _)
      as [all_preds|e] eqn:E; cbn [bind].
    + destruct (find _ all_preds) as [driver_pred|] eqn:Ef; [|discriminate].
      intros H. injection H as <-. left.
      apply find_some in Ef. destruct Ef as [Hin Hd].
      destruct (predict_race_entry self year event_name _ _ all_preds
                  driver_pred E Hin)
        as (d & i & Hdrv & Hpos & Hi & _ & Hw & _).
      rewrite Hdrv in Hd. apply String.eqb_eq in Hd. subst d.
      split; [exact Hdrv|]. split; [exists i; split; [exact Hpos | lia]|].
      intros w ->. now apply Hw.
    + unfold next_session.predict_upcoming. rewrite Hn.
      destruct (predict.predict_driver self name year event_name
                  None None None) as [pred|e'] eqn:Ed; [|discriminate].
      cbn [bind]. intros H. injection H as <-. right.
      split; [|reflexivity].
      destruct (predict_driver_inv self name year event_name None None None
                  pred Ed) as (qf & rf & q & r & Hrest).
      decompose [and] Hrest. assumption.
  - intros e Hfail.
    assert (Hrace : forall driver_list w,
               predict.predict_race self year event_name driver_list w
               = match session_q with
                 | Some s =>
                     match fastf1.results s with
                     | Some _ => Raise e
                     | None => Raise (AttributeError "empty")
                     end
                 | None => Raise e
                 end)
      by (intros driver_list w;
          exact (predict_race_fails self year event_name driver_list w e
                   Hfail)).
    assert (Hdrv : forall name,
               predict.predict_driver self name year event_name
                 None None None = Raise e).
    { intros name. unfold predict.predict_driver.
      destruct (predict.calculate_driver_stats self name) as [[? ?] ?].
      rewrite Hfail. reflexivity. }
    assert (Hup : next_session.predict_upcoming self driver_name year
                    event_name
                  = if driver.falsy driver_name
                    then match session_q with
                         | Some s =>
                             match fastf1.results s with
                             | Some _ => Raise e
                             | None => Raise (AttributeError "empty")
                             end
                         | None => Raise e
                         end
                    else Raise e).
    { unfold next_session.predict_upcoming, driver.falsy.
      destruct driver_name as [name|].
      - destruct (String.eqb name ""); [rewrite Hrace | rewrite Hdrv];
          cbn [bind]; [|reflexivity].
        clearbody session_q. destruct session_q as [s|]; [|reflexivity].
        now destruct (fastf1.results s).
      - rewrite Hrace. clearbody session_q.
        destruct session_q as [s|]; [|reflexivity].
        now destruct (fastf1.results s). }
    unfold next_session.predict_next_session. fold year event_name.
    destruct (next_session.try_body self next_event driver_name
                weather_override) as [outcome|e'] eqn:Eb; [|exact Hup].
    exfalso. unfold next_session.try_body in Eb. cbv zeta in Eb.
    fold year event_name session_q in Eb.
    destruct (predict.has_results session_q) as [[|]|e''] eqn:Hres;
      cbn [bind] in Eb; [| |discriminate Eb].
    + rewrite Hrace in Eb. clearbody session_q.
      destruct session_q as [s|]; [|discriminate Eb].
      destruct (fastf1.results s); discriminate Eb.
    + rewrite Hup in Eb. clearbody session_q.
      destruct (driver.falsy driver_name); [|discriminate Eb].
      destruct session_q as [s|]; [|discriminate Eb].
      destruct (fastf1.results s); discriminate Eb.
Qed.

Lemma next_session_prediction_witness :
  exists p,
    next_session.predict_next_session (api := fastf1_reference.api)
      (numpy := np_exact.api) (provider := sample_results_provider)
      (weather_api := sample_weather_api)
      sample_predictor (Some sample_next_event) (Some "VER"%string)
      (Some (Num (1 # 2)))
    = Ok (next_session.DriverPrediction p) /\
    predict.Driver p = Some "VER"%string /\
    predict.Rain_Probability p = Num (1 # 2).
Proof.
  eexists. split; [reflexivity|].
  match goal with
  | |- predict.Driver ?p = _ /\ _ =>
      destruct (proj1 (proj2 (proj2 (next_session_prediction
                                       (api := fastf1_reference.api)
                                       (numpy := np_exact.api)
                                       (provider := sample_results_provider)
                                       (weather_api := sample_weather_api)
                                       sample_predictor sample_next_event
                                       (Some "VER"%string)
                                       (Some (Num (1 # 2))))))
                  eq_refl "VER"%string p eq_refl)
        as [(Hd & _ & Hw)|(Hd & _)]
  end.
  - discriminate.
  - reflexivity.
  - split; [exact Hd | exact (Hw _ eq_refl)].
  - discriminate Hd.
Defined.
